(** * NGL [Volume]: a shallow embedding of [src/surface/volume.js]

    The development follows the source file top to bottom.

    - [Number] is the interface of JavaScript numbers the code relies on.
      Its instance is IEEE binary64 ([float_Number], Rocq's primitive
      floats), on which every definition below can be run.  Statements
      that hold whatever the arithmetic are proved for any [Number]; those
      that depend on it are proved on binary64.
    - Module [THREE] describes the few operations of the three.js library
      (an external dependency) that [Volume] calls.
    - Section [Volume_model] is the [Volume] class itself: one definition
      per method, [this] passed explicitly and returned when mutated.
    - A typed array is the list of the numbers it holds.  A store into a
      [Float32Array] that the code allocates itself rounds the number to
      binary32 ([Math_fround]).  The samples are the array handed to
      [setData], kept as it comes; the arrays of a surface are those of
      the triangulation, a collaborator whose element type this file does
      not fix, and are transformed as three.js transforms a plain array. *)

From Stdlib Require Import ZArith List String Floats Sorted Lia.
From stdpp Require Import base option list.

(** ** JavaScript numbers *)

Declare Scope js_scope.
Delimit Scope js_scope with js.

Class Number (num : Type) := {
  num_of_Z : Z -> num;               (* integer literals, lengths, counters *)
  num_add : num -> num -> num;
  num_sub : num -> num -> num;
  num_mul : num -> num -> num;
  num_div : num -> num -> num;
  num_opp : num -> num;
  num_eqb : num -> num -> bool;      (* [===] on two numbers *)
  num_ltb : num -> num -> bool;
  num_leb : num -> num -> bool;
  Infinity : num;
  NaN : num;
  Math_sqrt : num -> num;
  Math_min : num -> num -> num;
  Math_max : num -> num -> num;
  Math_round : num -> num;
  Math_fround : num -> num;          (* what a [Float32Array] keeps of a number *)
  (* the two infinities are numbers: each is equal to itself *)
  Infinity_equals : num_eqb Infinity Infinity = true;
  neg_Infinity_equals : num_eqb (num_opp Infinity) (num_opp Infinity) = true
}.

Infix "+" := num_add : js_scope.
Infix "-" := num_sub : js_scope.
Infix "*" := num_mul : js_scope.
Infix "/" := num_div : js_scope.
Notation "- x" := (num_opp x) : js_scope.
Infix "===" := num_eqb (at level 70, no associativity) : js_scope.
Infix "<?" := num_ltb : js_scope.
Infix "<=?" := num_leb : js_scope.
Notation "0" := (num_of_Z 0%Z) : js_scope.
Notation "1" := (num_of_Z 1%Z) : js_scope.
Notation "2" := (num_of_Z 2%Z) : js_scope.

(** *** IEEE binary64 *)

Definition float_of_Z (z : Z) : float :=
  match z with
  | Z0 => PrimFloat.zero
  | Zpos _ => PrimFloat.of_uint63 (Uint63.of_Z z)
  | Zneg p => PrimFloat.opp (PrimFloat.of_uint63 (Uint63.of_Z (Zpos p)))
  end.

(* Math.min and Math.max: NaN if either argument is NaN, and -0 < +0. *)
Definition float_min (a b : float) : float :=
  if PrimFloat.is_nan a || PrimFloat.is_nan b then PrimFloat.nan
  else if PrimFloat.ltb a b then a
  else if PrimFloat.ltb b a then b
  else if PrimFloat.get_sign a then a else b.

Definition float_max (a b : float) : float :=
  if PrimFloat.is_nan a || PrimFloat.is_nan b then PrimFloat.nan
  else if PrimFloat.ltb a b then b
  else if PrimFloat.ltb b a then a
  else if PrimFloat.get_sign a then b else a.

(* Math.round: nearest integer, ties towards +Infinity. *)
Definition float_round (a : float) : float :=
  match Prim2SF a with
  | S754_finite s m e =>
      if (0 <=? e)%Z then a
      else
        let d := (2 ^ (- e))%Z in
        let q := (Zpos m / d)%Z in
        let r := (Zpos m mod d)%Z in
        if s then
          let k := (if d <? 2 * r then q + 1 else q)%Z in
          if (k =? 0)%Z then PrimFloat.neg_zero else float_of_Z (- k)
        else
          float_of_Z (if d <=? 2 * r then q + 1 else q)%Z
  | _ => a
  end.

(* Math.fround: the nearest binary32 number, ties to even; beyond the
   binary32 range an infinity, below it a zero of the same sign. *)
Definition float_fround (a : float) : float :=
  match Prim2SF a with
  | S754_finite s m e =>
      SF2Prim (SpecFloat.binary_normalize 24 128 (if s then Zneg m else Zpos m) e s)
  | _ => a
  end.

#[export] Instance float_Number : Number float := {|
  num_of_Z := float_of_Z;
  num_add := PrimFloat.add;
  num_sub := PrimFloat.sub;
  num_mul := PrimFloat.mul;
  num_div := PrimFloat.div;
  num_opp := PrimFloat.opp;
  num_eqb := PrimFloat.eqb;
  num_ltb := PrimFloat.ltb;
  num_leb := PrimFloat.leb;
  Infinity := PrimFloat.infinity;
  NaN := PrimFloat.nan;
  Math_sqrt := PrimFloat.sqrt;
  Math_min := float_min;
  Math_max := float_max;
  Math_round := float_round;
  Math_fround := float_fround;
  Infinity_equals := eq_refl;
  neg_Infinity_equals := eq_refl
|}.

Section JSValues.
Context {num : Type} {NUM : Number num}.

(** NaN is the one number that is not equal to itself. *)
Definition num_isNaN (a : num) : bool := negb (a === a)%js.

(** A value that is a number or [undefined]. *)
Definition ToNumber (v : option num) : num :=
  match v with Some a => a | None => NaN end.

(** The global [isNaN], which converts its argument first: [undefined]
    converts to NaN. *)
Definition isNaN (v : option num) : bool :=
  match v with Some a => num_isNaN a | None => true end.

(** Truthiness of a number: everything but 0, -0 and NaN. *)
Definition truthy (a : num) : bool :=
  negb (a === 0)%js && negb (num_isNaN a).

(** [x || d] for a number or [undefined] [x]. *)
Definition or_default (v : option num) (d : num) : num :=
  match v with
  | Some a => if truthy a then a else d
  | None => d
  end.

(** The finite numbers: neither NaN nor an infinity. *)
Definition isFinite (a : num) : bool :=
  negb (num_isNaN a) && negb (a === Infinity)%js && negb (a === - Infinity)%js.

(** [array[i]] on a typed array, converted to a number. *)
Definition typed_get (array : list num) (i : nat) : num :=
  ToNumber (array !! i).

(** [array[i]] on a plain array of numbers. *)
Definition array_get (array : list (option num)) (i : nat) : option num :=
  mjoin (array !! i).

End JSValues.

(** ** three.js

    three.js is an external library.  The definitions of this module
    describe the operations [Volume] calls, as the library of that time
    (r7x) implements them: [Vector3.copy] reads the properties [x], [y],
    [z] of its argument, [Box3.set] copies its two arguments with
    [Vector3.copy], [Vector3.applyMatrix4] is affine, [Matrix4.getInverse]
    divides the adjugate by the determinant and falls back to the identity
    (with a console warning) when the determinant is 0.  A matrix is its
    [elements] array, column-major, and copying a matrix copies all of
    it. *)

Module THREE.
Section WithNumber.
Context {num : Type} {NUM : Number num}.

Record Vector3 := mkVector3 { x : option num; y : option num; z : option num }.

(** What a method that expects a [Vector3] may be handed: a vector (or
    any object with properties [x], [y], [z]), or a plain array. *)
Inductive object :=
  | obj_Vector3 (v : Vector3)
  | obj_Array (a : list (option num)).

Definition get_x (o : object) : option num :=
  match o with obj_Vector3 v => x v | obj_Array _ => None end.
Definition get_y (o : object) : option num :=
  match o with obj_Vector3 v => y v | obj_Array _ => None end.
Definition get_z (o : object) : option num :=
  match o with obj_Vector3 v => z v | obj_Array _ => None end.

Definition Vector3_new : Vector3 := mkVector3 (Some 0%js) (Some 0%js) (Some 0%js).

Definition Vector3_set (a b c : num) : Vector3 := mkVector3 (Some a) (Some b) (Some c).

Definition Vector3_copy (v : object) : Vector3 :=
  mkVector3 (get_x v) (get_y v) (get_z v).

Definition Vector3_fromArray (array : list (option num)) : Vector3 :=
  mkVector3 (array_get array 0) (array_get array 1) (array_get array 2).

Definition Vector3_toArray (v : Vector3) : list (option num) := [x v; y v; z v].

Definition Vector3_min (this v : Vector3) : Vector3 :=
  mkVector3 (Some (Math_min (ToNumber (x this)) (ToNumber (x v))))
            (Some (Math_min (ToNumber (y this)) (ToNumber (y v))))
            (Some (Math_min (ToNumber (z this)) (ToNumber (z v)))).

Definition Vector3_max (this v : Vector3) : Vector3 :=
  mkVector3 (Some (Math_max (ToNumber (x this)) (ToNumber (x v))))
            (Some (Math_max (ToNumber (y this)) (ToNumber (y v))))
            (Some (Math_max (ToNumber (z this)) (ToNumber (z v)))).

Definition Vector3_addVectors (a b : Vector3) : Vector3 :=
  mkVector3 (Some (ToNumber (x a) + ToNumber (x b))%js)
            (Some (ToNumber (y a) + ToNumber (y b))%js)
            (Some (ToNumber (z a) + ToNumber (z b))%js).

Definition Vector3_addScalar (this : Vector3) (s : num) : Vector3 :=
  mkVector3 (Some (ToNumber (x this) + s)%js)
            (Some (ToNumber (y this) + s)%js)
            (Some (ToNumber (z this) + s)%js).

(** For a finite [scalar] (the only use here is 0.5). *)
Definition Vector3_multiplyScalar (this : Vector3) (scalar : num) : Vector3 :=
  mkVector3 (Some (ToNumber (x this) * scalar)%js)
            (Some (ToNumber (y this) * scalar)%js)
            (Some (ToNumber (z this) * scalar)%js).

Definition Vector3_round (this : Vector3) : Vector3 :=
  mkVector3 (Some (Math_round (ToNumber (x this))))
            (Some (Math_round (ToNumber (y this))))
            (Some (Math_round (ToNumber (z this)))).

Definition Vector3_crossVectors (a b : Vector3) : Vector3 :=
  let ax := ToNumber (x a) in let ay := ToNumber (y a) in let az := ToNumber (z a) in
  let bx := ToNumber (x b) in let By := ToNumber (y b) in let bz := ToNumber (z b) in
  mkVector3 (Some (ay * bz - az * By)%js)
            (Some (az * bx - ax * bz)%js)
            (Some (ax * By - ay * bx)%js).

Record Matrix4 := mkMatrix4 { elements : list num }.
Record Matrix3 := mkMatrix3 { elements3 : list num }.

Definition Matrix4_new : Matrix4 :=
  mkMatrix4 [1; 0; 0; 0;  0; 1; 0; 0;  0; 0; 1; 0;  0; 0; 0; 1]%js.

Definition Matrix3_new : Matrix3 :=
  mkMatrix3 [1; 0; 0;  0; 1; 0;  0; 0; 1]%js.

Definition Matrix4_copy (m : Matrix4) : Matrix4 := mkMatrix4 (elements m).
Definition Matrix4_toArray (this : Matrix4) : list num := elements this.
Definition Matrix4_fromArray (array : list num) : Matrix4 := mkMatrix4 array.
Definition Matrix3_toArray (this : Matrix3) : list num := elements3 this.
Definition Matrix3_fromArray (array : list num) : Matrix3 := mkMatrix3 array.

Definition Vector3_applyMatrix4 (this : Vector3) (m : Matrix4) : Vector3 :=
  let vx := ToNumber (x this) in let vy := ToNumber (y this) in let vz := ToNumber (z this) in
  let e (i : nat) := typed_get (elements m) i in
  mkVector3 (Some (e 0%nat * vx + e 4%nat * vy + e 8%nat * vz + e 12%nat)%js)
            (Some (e 1%nat * vx + e 5%nat * vy + e 9%nat * vz + e 13%nat)%js)
            (Some (e 2%nat * vx + e 6%nat * vy + e 10%nat * vz + e 14%nat)%js).

Definition Vector3_applyMatrix3 (this : Vector3) (m : Matrix3) : Vector3 :=
  let vx := ToNumber (x this) in let vy := ToNumber (y this) in let vz := ToNumber (z this) in
  let e (i : nat) := typed_get (elements3 m) i in
  mkVector3 (Some (e 0%nat * vx + e 3%nat * vy + e 6%nat * vz)%js)
            (Some (e 1%nat * vx + e 4%nat * vy + e 7%nat * vz)%js)
            (Some (e 2%nat * vx + e 5%nat * vy + e 8%nat * vz)%js).

(** [applyToVector3Array]: every group of three entries of a typed array
    is read as a vector, transformed and written back.  A trailing group
    of fewer than three entries reads [undefined] past the end, and the
    writes past the end are dropped. *)
Fixpoint applyToVector3Array (f : Vector3 -> Vector3) (array : list num) : list num :=
  match array with
  | a :: b :: c :: rest =>
      let v := f (mkVector3 (Some a) (Some b) (Some c)) in
      ToNumber (x v) :: ToNumber (y v) :: ToNumber (z v) :: applyToVector3Array f rest
  | [a; b] =>
      let v := f (mkVector3 (Some a) (Some b) None) in [ToNumber (x v); ToNumber (y v)]
  | [a] =>
      let v := f (mkVector3 (Some a) None None) in [ToNumber (x v)]
  | [] => []
  end.

Definition Matrix4_applyToVector3Array (this : Matrix4) (array : list num) : list num :=
  applyToVector3Array (fun v => Vector3_applyMatrix4 v this) array.

Definition Matrix3_applyToVector3Array (this : Matrix3) (array : list num) : list num :=
  applyToVector3Array (fun v => Vector3_applyMatrix3 v this) array.

(** [Matrix4.getInverse]: the entry in row [r] and column [c] of a
    column-major matrix is [elements[r + 4 c]]. *)
Definition entry (m : Matrix4) (r c : nat) : num := typed_get (elements m) (r + 4 * c).

Definition det3 (f : nat -> nat -> num) : num :=
  let a (i j : nat) := f i j in
  (a 0%nat 0%nat * (a 1%nat 1%nat * a 2%nat 2%nat - a 1%nat 2%nat * a 2%nat 1%nat)
   - a 0%nat 1%nat * (a 1%nat 0%nat * a 2%nat 2%nat - a 1%nat 2%nat * a 2%nat 0%nat)
   + a 0%nat 2%nat * (a 1%nat 0%nat * a 2%nat 1%nat - a 1%nat 1%nat * a 2%nat 0%nat))%js.

Definition skip (k i : nat) : nat := if (i <? k)%nat then i else S i.

Definition signed (k : nat) (d : num) : num := if Nat.even k then d else (- d)%js.

Definition cofactor (m : Matrix4) (r c : nat) : num :=
  signed (r + c) (det3 (fun i j => entry m (skip r i) (skip c j))).

Definition determinant (m : Matrix4) : num :=
  let a (i : nat) := (entry m i 0%nat * cofactor m i 0%nat)%js in
  (a 0%nat + a 1%nat + a 2%nat + a 3%nat)%js.

Definition Matrix4_getInverse (m : Matrix4) : Matrix4 :=
  let det := determinant m in
  if (det === 0)%js then Matrix4_new
  else
    let detInv := (1 / det)%js in
    mkMatrix4 (map (fun k => (cofactor m (k / 4) (k mod 4) * detInv)%js) (seq 0 16)).

Record Box3 := mkBox3 { min : Vector3; max : Vector3 }.

Definition Box3_makeEmpty : Box3 :=
  mkBox3 (Vector3_set Infinity Infinity Infinity)
         (Vector3_set (- Infinity)%js (- Infinity)%js (- Infinity)%js).

Definition Box3_new : Box3 := Box3_makeEmpty.

Definition Box3_set (min' max' : object) : Box3 :=
  mkBox3 (Vector3_copy min') (Vector3_copy max').

Definition Box3_expandByPoint (this : Box3) (point : Vector3) : Box3 :=
  mkBox3 (Vector3_min (min this) point) (Vector3_max (max this) point).

Definition Box3_setFromPoints (points : list Vector3) : Box3 :=
  fold_left Box3_expandByPoint points Box3_makeEmpty.

Definition Box3_expandByScalar (this : Box3) (scalar : num) : Box3 :=
  mkBox3 (Vector3_addScalar (min this) (- scalar)%js)
         (Vector3_addScalar (max this) scalar).

Definition Box3_corners (this : Box3) : list Vector3 :=
  let lo := min this in let hi := max this in
  [ mkVector3 (x lo) (y lo) (z lo); mkVector3 (x lo) (y lo) (z hi);
    mkVector3 (x lo) (y hi) (z lo); mkVector3 (x lo) (y hi) (z hi);
    mkVector3 (x hi) (y lo) (z lo); mkVector3 (x hi) (y lo) (z hi);
    mkVector3 (x hi) (y hi) (z lo); mkVector3 (x hi) (y hi) (z hi) ].

Definition Box3_applyMatrix4 (this : Box3) (matrix : Matrix4) : Box3 :=
  Box3_setFromPoints (map (fun p => Vector3_applyMatrix4 p matrix) (Box3_corners this)).

Definition Box3_center (this : Box3) : Vector3 :=
  Vector3_multiplyScalar (Vector3_addVectors (min this) (max this)) (1 / 2)%js.

End WithNumber.

Arguments Vector3 : clear implicits.
Arguments object : clear implicits.
Arguments Matrix4 : clear implicits.
Arguments Matrix3 : clear implicits.
Arguments Box3 : clear implicits.

End THREE.

(** ** Collaborators of [Volume]

    [Volume] talks to a registry of objects ([GidPool]), a logger ([Log]),
    a pool of background workers, the marching-cubes triangulation and two
    mesh routines.  None of them is part of [volume.js]. Calls that only
    have an effect are recorded as events, in the order in which they are
    made; calls that return a value are parameters ([Externals]). *)

Inductive exception := TypeError | RangeError.

Inductive result (A : Type) :=
  | Ok (a : A)
  | Throw (e : exception).
Arguments Ok {A} a.
Arguments Throw {A} e.

Section Volume_model.
Context {num : Type} {NUM : Number num}.

(** Modelled from the spec: the triangulation instance of
    [marching-cubes.js], "bound to the current samples/dimensions/labels";
    it is represented by the arguments it was constructed with. *)
Record MarchingCubes := mkMarchingCubes {
  mc_data : list num;
  mc_nx : N;
  mc_ny : N;
  mc_nz : N;
  mc_dataAtomindex : option (list Z)
}.

(** What [triangulate] returns: [{position, index, normal?}]. *)
Record SurfaceData := mkSurfaceData {
  position : list num;
  index : list N;
  normal : option (list num)
}.

(** Modelled from the spec: the [Surface] of [surface.js], a "triangle mesh
    with position, index, optional normal, plus metadata {isolevel,
    smooth}". *)
Record Surface := mkSurface {
  surface_name : string;
  surface_path : string;
  surface_data : SurfaceData;
  info_isolevel : num;
  info_smooth : num
}.

(** The [header] of a volume: an object attached by the file parsers, of
    which [filterData] reads two properties. *)
Record Header := mkHeader { DMEAN : option num; ARMS : option num }.

(** The object built by [toJSON] (its constant [metadata] left out). *)
Record VolumeJSON := mkVolumeJSON {
  json_name : option string;
  json_path : option string;
  json_data : list num;
  json_nx : N;
  json_ny : N;
  json_nz : N;
  json_dataAtomindex : option (list Z);
  json_matrix : list num;
  json_normalMatrix : list num;
  json_inverseMatrix : list num;
  json_center : list (option num);
  json_boundingBox_min : list (option num);
  json_boundingBox_max : list (option num);
  json_header : option Header
}.

(** Modelled from the spec: a worker of [worker/worker.js] counts the
    messages posted to it, and the pool of [worker/worker-pool.js] holds
    the workers created so far, at most [pool_maxCount] of them. *)
Record Worker := mkWorker { postCount : N }.

Record WorkerPool := mkWorkerPool {
  pool_name : string;
  pool_maxCount : N;
  pool : list Worker
}.

(** The message [getSurfaceWorker] posts to a worker. *)
Record SurfParams := mkSurfParams {
  params_isolevel : num;
  params_smooth : num;
  params_center : option (THREE.object num);
  params_size : option num
}.

Record SurfMessage := mkSurfMessage {
  message_vol : option VolumeJSON;
  message_params : SurfParams
}.

Inductive event :=
  | GidPool_addObject
  | GidPool_updateObject
  | GidPool_removeObject
  | Log_warn (message : string)
  | Worker_terminate                          (* [this.worker.terminate()] *)
  | WorkerPool_new (name : string) (maxCount : N)
  | WorkerPool_terminate                      (* [this.workerPool.terminate()] *)
  | Worker_post (worker : nat) (message : SurfMessage).

(** The values the collaborators return, and the two tests
    [typeof Worker !== "undefined"] and [typeof importScripts === 'function']
    of the environment. [WorkerPool_getNextWorker] returns the pool, with
    the worker it may have created, and the position of the worker it
    chose. *)
Class Externals := {
  MarchingCubes_triangulate :
    MarchingCubes -> num -> bool ->
    option (list (option num) * list (option num)) -> SurfaceData;
  laplacianSmooth : list num -> list N -> num -> bool -> list num;
  computeVertexNormals : list num -> list N -> list num;
  WorkerPool_getNextWorker : WorkerPool -> WorkerPool * nat;
  Worker_defined : bool;
  importScripts_is_function : bool
}.
Context {EXT : Externals}.

Record Volume := mkVolume {
  name : option string;
  path : option string;
  matrix : THREE.Matrix4 num;
  normalMatrix : THREE.Matrix3 num;
  inverseMatrix : THREE.Matrix4 num;
  center : THREE.Vector3 num;
  boundingBox : THREE.Box3 num;
  nx : N;
  ny : N;
  nz : N;
  data : list num;
  __data : list num;
  dataAtomindex : option (list Z);
  __dataAtomindex : option (list Z);
  mc : option MarchingCubes;
  __minValue : option num;
  __maxValue : option num;
  __outside : option bool;
  __dataPositionBuffer : option (list num);
  __dataPosition : option (list num);
  __dataBuffer : option (list num);
  dataPosition : option (list num);
  __dataMin : option num;
  __dataMax : option num;
  __dataMean : option num;
  __dataRms : option num;
  worker : option Worker;
  workerPool : option WorkerPool;
  header : option Header;
  __box : option (THREE.Box3 num)
}.

(** [set_p a this] is the assignment [this.p = a]; [delete this.p] is
    [set_p None this]. *)
Definition set_name (a : option string) (this : Volume) : Volume :=
  mkVolume a (path this) (matrix this) (normalMatrix this) (inverseMatrix this) (center
    this) (boundingBox this) (nx this) (ny this) (nz this) (data this) (__data this)
    (dataAtomindex this) (__dataAtomindex this) (mc this) (__minValue this) (__maxValue
    this) (__outside this) (__dataPositionBuffer this) (__dataPosition this)
    (__dataBuffer this) (dataPosition this) (__dataMin this) (__dataMax this)
    (__dataMean this) (__dataRms this) (worker this) (workerPool this) (header this)
    (__box this).
Definition set_path (a : option string) (this : Volume) : Volume :=
  mkVolume (name this) a (matrix this) (normalMatrix this) (inverseMatrix this) (center
    this) (boundingBox this) (nx this) (ny this) (nz this) (data this) (__data this)
    (dataAtomindex this) (__dataAtomindex this) (mc this) (__minValue this) (__maxValue
    this) (__outside this) (__dataPositionBuffer this) (__dataPosition this)
    (__dataBuffer this) (dataPosition this) (__dataMin this) (__dataMax this)
    (__dataMean this) (__dataRms this) (worker this) (workerPool this) (header this)
    (__box this).
Definition set_matrix (a : THREE.Matrix4 num) (this : Volume) : Volume :=
  mkVolume (name this) (path this) a (normalMatrix this) (inverseMatrix this) (center
    this) (boundingBox this) (nx this) (ny this) (nz this) (data this) (__data this)
    (dataAtomindex this) (__dataAtomindex this) (mc this) (__minValue this) (__maxValue
    this) (__outside this) (__dataPositionBuffer this) (__dataPosition this)
    (__dataBuffer this) (dataPosition this) (__dataMin this) (__dataMax this)
    (__dataMean this) (__dataRms this) (worker this) (workerPool this) (header this)
    (__box this).
Definition set_normalMatrix (a : THREE.Matrix3 num) (this : Volume) : Volume :=
  mkVolume (name this) (path this) (matrix this) a (inverseMatrix this) (center this)
    (boundingBox this) (nx this) (ny this) (nz this) (data this) (__data this)
    (dataAtomindex this) (__dataAtomindex this) (mc this) (__minValue this) (__maxValue
    this) (__outside this) (__dataPositionBuffer this) (__dataPosition this)
    (__dataBuffer this) (dataPosition this) (__dataMin this) (__dataMax this)
    (__dataMean this) (__dataRms this) (worker this) (workerPool this) (header this)
    (__box this).
Definition set_inverseMatrix (a : THREE.Matrix4 num) (this : Volume) : Volume :=
  mkVolume (name this) (path this) (matrix this) (normalMatrix this) a (center this)
    (boundingBox this) (nx this) (ny this) (nz this) (data this) (__data this)
    (dataAtomindex this) (__dataAtomindex this) (mc this) (__minValue this) (__maxValue
    this) (__outside this) (__dataPositionBuffer this) (__dataPosition this)
    (__dataBuffer this) (dataPosition this) (__dataMin this) (__dataMax this)
    (__dataMean this) (__dataRms this) (worker this) (workerPool this) (header this)
    (__box this).
Definition set_center (a : THREE.Vector3 num) (this : Volume) : Volume :=
  mkVolume (name this) (path this) (matrix this) (normalMatrix this) (inverseMatrix
    this) a (boundingBox this) (nx this) (ny this) (nz this) (data this) (__data this)
    (dataAtomindex this) (__dataAtomindex this) (mc this) (__minValue this) (__maxValue
    this) (__outside this) (__dataPositionBuffer this) (__dataPosition this)
    (__dataBuffer this) (dataPosition this) (__dataMin this) (__dataMax this)
    (__dataMean this) (__dataRms this) (worker this) (workerPool this) (header this)
    (__box this).
Definition set_boundingBox (a : THREE.Box3 num) (this : Volume) : Volume :=
  mkVolume (name this) (path this) (matrix this) (normalMatrix this) (inverseMatrix
    this) (center this) a (nx this) (ny this) (nz this) (data this) (__data this)
    (dataAtomindex this) (__dataAtomindex this) (mc this) (__minValue this) (__maxValue
    this) (__outside this) (__dataPositionBuffer this) (__dataPosition this)
    (__dataBuffer this) (dataPosition this) (__dataMin this) (__dataMax this)
    (__dataMean this) (__dataRms this) (worker this) (workerPool this) (header this)
    (__box this).
Definition set_nx (a : N) (this : Volume) : Volume :=
  mkVolume (name this) (path this) (matrix this) (normalMatrix this) (inverseMatrix
    this) (center this) (boundingBox this) a (ny this) (nz this) (data this) (__data
    this) (dataAtomindex this) (__dataAtomindex this) (mc this) (__minValue this)
    (__maxValue this) (__outside this) (__dataPositionBuffer this) (__dataPosition this)
    (__dataBuffer this) (dataPosition this) (__dataMin this) (__dataMax this)
    (__dataMean this) (__dataRms this) (worker this) (workerPool this) (header this)
    (__box this).
Definition set_ny (a : N) (this : Volume) : Volume :=
  mkVolume (name this) (path this) (matrix this) (normalMatrix this) (inverseMatrix
    this) (center this) (boundingBox this) (nx this) a (nz this) (data this) (__data
    this) (dataAtomindex this) (__dataAtomindex this) (mc this) (__minValue this)
    (__maxValue this) (__outside this) (__dataPositionBuffer this) (__dataPosition this)
    (__dataBuffer this) (dataPosition this) (__dataMin this) (__dataMax this)
    (__dataMean this) (__dataRms this) (worker this) (workerPool this) (header this)
    (__box this).
Definition set_nz (a : N) (this : Volume) : Volume :=
  mkVolume (name this) (path this) (matrix this) (normalMatrix this) (inverseMatrix
    this) (center this) (boundingBox this) (nx this) (ny this) a (data this) (__data
    this) (dataAtomindex this) (__dataAtomindex this) (mc this) (__minValue this)
    (__maxValue this) (__outside this) (__dataPositionBuffer this) (__dataPosition this)
    (__dataBuffer this) (dataPosition this) (__dataMin this) (__dataMax this)
    (__dataMean this) (__dataRms this) (worker this) (workerPool this) (header this)
    (__box this).
Definition set_data (a : list num) (this : Volume) : Volume :=
  mkVolume (name this) (path this) (matrix this) (normalMatrix this) (inverseMatrix
    this) (center this) (boundingBox this) (nx this) (ny this) (nz this) a (__data this)
    (dataAtomindex this) (__dataAtomindex this) (mc this) (__minValue this) (__maxValue
    this) (__outside this) (__dataPositionBuffer this) (__dataPosition this)
    (__dataBuffer this) (dataPosition this) (__dataMin this) (__dataMax this)
    (__dataMean this) (__dataRms this) (worker this) (workerPool this) (header this)
    (__box this).
Definition set___data (a : list num) (this : Volume) : Volume :=
  mkVolume (name this) (path this) (matrix this) (normalMatrix this) (inverseMatrix
    this) (center this) (boundingBox this) (nx this) (ny this) (nz this) (data this) a
    (dataAtomindex this) (__dataAtomindex this) (mc this) (__minValue this) (__maxValue
    this) (__outside this) (__dataPositionBuffer this) (__dataPosition this)
    (__dataBuffer this) (dataPosition this) (__dataMin this) (__dataMax this)
    (__dataMean this) (__dataRms this) (worker this) (workerPool this) (header this)
    (__box this).
Definition set_dataAtomindex (a : option (list Z)) (this : Volume) : Volume :=
  mkVolume (name this) (path this) (matrix this) (normalMatrix this) (inverseMatrix
    this) (center this) (boundingBox this) (nx this) (ny this) (nz this) (data this)
    (__data this) a (__dataAtomindex this) (mc this) (__minValue this) (__maxValue this)
    (__outside this) (__dataPositionBuffer this) (__dataPosition this) (__dataBuffer
    this) (dataPosition this) (__dataMin this) (__dataMax this) (__dataMean this)
    (__dataRms this) (worker this) (workerPool this) (header this) (__box this).
Definition set___dataAtomindex (a : option (list Z)) (this : Volume) : Volume :=
  mkVolume (name this) (path this) (matrix this) (normalMatrix this) (inverseMatrix
    this) (center this) (boundingBox this) (nx this) (ny this) (nz this) (data this)
    (__data this) (dataAtomindex this) a (mc this) (__minValue this) (__maxValue this)
    (__outside this) (__dataPositionBuffer this) (__dataPosition this) (__dataBuffer
    this) (dataPosition this) (__dataMin this) (__dataMax this) (__dataMean this)
    (__dataRms this) (worker this) (workerPool this) (header this) (__box this).
Definition set_mc (a : option MarchingCubes) (this : Volume) : Volume :=
  mkVolume (name this) (path this) (matrix this) (normalMatrix this) (inverseMatrix
    this) (center this) (boundingBox this) (nx this) (ny this) (nz this) (data this)
    (__data this) (dataAtomindex this) (__dataAtomindex this) a (__minValue this)
    (__maxValue this) (__outside this) (__dataPositionBuffer this) (__dataPosition this)
    (__dataBuffer this) (dataPosition this) (__dataMin this) (__dataMax this)
    (__dataMean this) (__dataRms this) (worker this) (workerPool this) (header this)
    (__box this).
Definition set___minValue (a : option num) (this : Volume) : Volume :=
  mkVolume (name this) (path this) (matrix this) (normalMatrix this) (inverseMatrix
    this) (center this) (boundingBox this) (nx this) (ny this) (nz this) (data this)
    (__data this) (dataAtomindex this) (__dataAtomindex this) (mc this) a (__maxValue
    this) (__outside this) (__dataPositionBuffer this) (__dataPosition this)
    (__dataBuffer this) (dataPosition this) (__dataMin this) (__dataMax this)
    (__dataMean this) (__dataRms this) (worker this) (workerPool this) (header this)
    (__box this).
Definition set___maxValue (a : option num) (this : Volume) : Volume :=
  mkVolume (name this) (path this) (matrix this) (normalMatrix this) (inverseMatrix
    this) (center this) (boundingBox this) (nx this) (ny this) (nz this) (data this)
    (__data this) (dataAtomindex this) (__dataAtomindex this) (mc this) (__minValue
    this) a (__outside this) (__dataPositionBuffer this) (__dataPosition this)
    (__dataBuffer this) (dataPosition this) (__dataMin this) (__dataMax this)
    (__dataMean this) (__dataRms this) (worker this) (workerPool this) (header this)
    (__box this).
Definition set___outside (a : option bool) (this : Volume) : Volume :=
  mkVolume (name this) (path this) (matrix this) (normalMatrix this) (inverseMatrix
    this) (center this) (boundingBox this) (nx this) (ny this) (nz this) (data this)
    (__data this) (dataAtomindex this) (__dataAtomindex this) (mc this) (__minValue
    this) (__maxValue this) a (__dataPositionBuffer this) (__dataPosition this)
    (__dataBuffer this) (dataPosition this) (__dataMin this) (__dataMax this)
    (__dataMean this) (__dataRms this) (worker this) (workerPool this) (header this)
    (__box this).
Definition set___dataPositionBuffer (a : option (list num)) (this : Volume) : Volume :=
  mkVolume (name this) (path this) (matrix this) (normalMatrix this) (inverseMatrix
    this) (center this) (boundingBox this) (nx this) (ny this) (nz this) (data this)
    (__data this) (dataAtomindex this) (__dataAtomindex this) (mc this) (__minValue
    this) (__maxValue this) (__outside this) a (__dataPosition this) (__dataBuffer this)
    (dataPosition this) (__dataMin this) (__dataMax this) (__dataMean this) (__dataRms
    this) (worker this) (workerPool this) (header this) (__box this).
Definition set___dataPosition (a : option (list num)) (this : Volume) : Volume :=
  mkVolume (name this) (path this) (matrix this) (normalMatrix this) (inverseMatrix
    this) (center this) (boundingBox this) (nx this) (ny this) (nz this) (data this)
    (__data this) (dataAtomindex this) (__dataAtomindex this) (mc this) (__minValue
    this) (__maxValue this) (__outside this) (__dataPositionBuffer this) a (__dataBuffer
    this) (dataPosition this) (__dataMin this) (__dataMax this) (__dataMean this)
    (__dataRms this) (worker this) (workerPool this) (header this) (__box this).
Definition set___dataBuffer (a : option (list num)) (this : Volume) : Volume :=
  mkVolume (name this) (path this) (matrix this) (normalMatrix this) (inverseMatrix
    this) (center this) (boundingBox this) (nx this) (ny this) (nz this) (data this)
    (__data this) (dataAtomindex this) (__dataAtomindex this) (mc this) (__minValue
    this) (__maxValue this) (__outside this) (__dataPositionBuffer this) (__dataPosition
    this) a (dataPosition this) (__dataMin this) (__dataMax this) (__dataMean this)
    (__dataRms this) (worker this) (workerPool this) (header this) (__box this).
Definition set_dataPosition (a : option (list num)) (this : Volume) : Volume :=
  mkVolume (name this) (path this) (matrix this) (normalMatrix this) (inverseMatrix
    this) (center this) (boundingBox this) (nx this) (ny this) (nz this) (data this)
    (__data this) (dataAtomindex this) (__dataAtomindex this) (mc this) (__minValue
    this) (__maxValue this) (__outside this) (__dataPositionBuffer this) (__dataPosition
    this) (__dataBuffer this) a (__dataMin this) (__dataMax this) (__dataMean this)
    (__dataRms this) (worker this) (workerPool this) (header this) (__box this).
Definition set___dataMin (a : option num) (this : Volume) : Volume :=
  mkVolume (name this) (path this) (matrix this) (normalMatrix this) (inverseMatrix
    this) (center this) (boundingBox this) (nx this) (ny this) (nz this) (data this)
    (__data this) (dataAtomindex this) (__dataAtomindex this) (mc this) (__minValue
    this) (__maxValue this) (__outside this) (__dataPositionBuffer this) (__dataPosition
    this) (__dataBuffer this) (dataPosition this) a (__dataMax this) (__dataMean this)
    (__dataRms this) (worker this) (workerPool this) (header this) (__box this).
Definition set___dataMax (a : option num) (this : Volume) : Volume :=
  mkVolume (name this) (path this) (matrix this) (normalMatrix this) (inverseMatrix
    this) (center this) (boundingBox this) (nx this) (ny this) (nz this) (data this)
    (__data this) (dataAtomindex this) (__dataAtomindex this) (mc this) (__minValue
    this) (__maxValue this) (__outside this) (__dataPositionBuffer this) (__dataPosition
    this) (__dataBuffer this) (dataPosition this) (__dataMin this) a (__dataMean this)
    (__dataRms this) (worker this) (workerPool this) (header this) (__box this).
Definition set___dataMean (a : option num) (this : Volume) : Volume :=
  mkVolume (name this) (path this) (matrix this) (normalMatrix this) (inverseMatrix
    this) (center this) (boundingBox this) (nx this) (ny this) (nz this) (data this)
    (__data this) (dataAtomindex this) (__dataAtomindex this) (mc this) (__minValue
    this) (__maxValue this) (__outside this) (__dataPositionBuffer this) (__dataPosition
    this) (__dataBuffer this) (dataPosition this) (__dataMin this) (__dataMax this) a
    (__dataRms this) (worker this) (workerPool this) (header this) (__box this).
Definition set___dataRms (a : option num) (this : Volume) : Volume :=
  mkVolume (name this) (path this) (matrix this) (normalMatrix this) (inverseMatrix
    this) (center this) (boundingBox this) (nx this) (ny this) (nz this) (data this)
    (__data this) (dataAtomindex this) (__dataAtomindex this) (mc this) (__minValue
    this) (__maxValue this) (__outside this) (__dataPositionBuffer this) (__dataPosition
    this) (__dataBuffer this) (dataPosition this) (__dataMin this) (__dataMax this)
    (__dataMean this) a (worker this) (workerPool this) (header this) (__box this).
Definition set_worker (a : option Worker) (this : Volume) : Volume :=
  mkVolume (name this) (path this) (matrix this) (normalMatrix this) (inverseMatrix
    this) (center this) (boundingBox this) (nx this) (ny this) (nz this) (data this)
    (__data this) (dataAtomindex this) (__dataAtomindex this) (mc this) (__minValue
    this) (__maxValue this) (__outside this) (__dataPositionBuffer this) (__dataPosition
    this) (__dataBuffer this) (dataPosition this) (__dataMin this) (__dataMax this)
    (__dataMean this) (__dataRms this) a (workerPool this) (header this) (__box this).
Definition set_workerPool (a : option WorkerPool) (this : Volume) : Volume :=
  mkVolume (name this) (path this) (matrix this) (normalMatrix this) (inverseMatrix
    this) (center this) (boundingBox this) (nx this) (ny this) (nz this) (data this)
    (__data this) (dataAtomindex this) (__dataAtomindex this) (mc this) (__minValue
    this) (__maxValue this) (__outside this) (__dataPositionBuffer this) (__dataPosition
    this) (__dataBuffer this) (dataPosition this) (__dataMin this) (__dataMax this)
    (__dataMean this) (__dataRms this) (worker this) a (header this) (__box this).
Definition set_header (a : option Header) (this : Volume) : Volume :=
  mkVolume (name this) (path this) (matrix this) (normalMatrix this) (inverseMatrix
    this) (center this) (boundingBox this) (nx this) (ny this) (nz this) (data this)
    (__data this) (dataAtomindex this) (__dataAtomindex this) (mc this) (__minValue
    this) (__maxValue this) (__outside this) (__dataPositionBuffer this) (__dataPosition
    this) (__dataBuffer this) (dataPosition this) (__dataMin this) (__dataMax this)
    (__dataMean this) (__dataRms this) (worker this) (workerPool this) a (__box this).
Definition set___box (a : option (THREE.Box3 num)) (this : Volume) : Volume :=
  mkVolume (name this) (path this) (matrix this) (normalMatrix this) (inverseMatrix
    this) (center this) (boundingBox this) (nx this) (ny this) (nz this) (data this)
    (__data this) (dataAtomindex this) (__dataAtomindex this) (mc this) (__minValue
    this) (__maxValue this) (__outside this) (__dataPositionBuffer this) (__dataPosition
    this) (__dataBuffer this) (dataPosition this) (__dataMin this) (__dataMax this)
    (__dataMean this) (__dataRms this) (worker this) (workerPool this) (header this) a.

(** ** The methods of [Volume] *)

(** [this.__data.length <= Math.pow( 10, 7 )] *)
Definition small_enough (this : Volume) : bool :=
  (Z.of_nat (length (__data this)) <=? 10 ^ 7)%Z.

(** [n || 1] for a grid extent that is a number or [undefined]. *)
Definition extent_or_1 (n : option N) : N :=
  match n with
  | Some 0%N | None => 1%N
  | Some n => n
  end.

Definition setDataAtomindex (this : Volume) (dataAtomindex' : option (list Z)) : Volume :=
  let this := set_dataAtomindex dataAtomindex' this in
  let this := set___dataAtomindex (dataAtomindex this) this in
  (* [delete this.__dataAtomindexBuffer]: a property nothing here reads or writes *)
  this.

Definition setData (this : Volume) (data' : option (list num)) (nx' ny' nz' : option N)
    (dataAtomindex' : option (list Z)) : Volume * list event :=
  let this := set_nx (extent_or_1 nx') this in
  let this := set_ny (extent_or_1 ny') this in
  let this := set_nz (extent_or_1 nz') this in
  let this := set_data (default [0%js] data') this in
  let this := set___data (data this) this in
  let this := setDataAtomindex this dataAtomindex' in
  let this := set_mc None this in
  (* [delete this.__isolevel; delete this.__smooth]: never read or written *)
  let this := set___minValue None this in
  let this := set___maxValue None this in
  let this := set___dataPositionBuffer None this in
  let this := set___dataPosition None this in
  let this := set___dataBuffer None this in
  let this := set___dataMin None this in
  let this := set___dataMax None this in
  let this := set___dataMean None this in
  let this := set___dataRms None this in
  let terminated := if worker this is Some _ then [Worker_terminate] else [] in
  if small_enough this then
    (this, terminated ++ [GidPool_updateObject])
  else
    (this, terminated ++ [Log_warn "Volume too large (>10^7), not adding to GidPool";
                          GidPool_removeObject]).

(** The object [new Volume( ... )] starts from: the five properties the
    constructor assigns before it calls [setData], every other property
    [undefined] (the extents and the two sample arrays are assigned by
    [setData] before anything reads them). *)
Definition Volume_this (name' path' : option string) : Volume :=
  mkVolume name' path' THREE.Matrix4_new THREE.Matrix3_new THREE.Matrix4_new
    THREE.Vector3_new THREE.Box3_new
    0%N 0%N 0%N [] [] None None None None None None None None None None
    None None None None None None None None.

Definition Volume_new (name' path' : option string) (data' : option (list num))
    (nx' ny' nz' : option N) (dataAtomindex' : option (list Z)) : Volume * list event :=
  let this := Volume_this name' path' in
  let '(this, events) := setData this data' nx' ny' nz' dataAtomindex' in
  if small_enough this then (this, events ++ [GidPool_addObject])
  else (this, events).

Definition setMatrix (this : Volume) (matrix' : THREE.Matrix4 num) : Volume :=
  let this := set_matrix (THREE.Matrix4_copy matrix') this in
  let x := num_of_Z (Z.of_N (nx this) - 1) in
  let y := num_of_Z (Z.of_N (ny this) - 1) in
  let z := num_of_Z (Z.of_N (nz this) - 1) in
  let bb := THREE.Box3_makeEmpty in
  (* [v], which is [this.center], carries each corner in turn *)
  let bb := THREE.Box3_expandByPoint bb (THREE.Vector3_set x y z) in
  let bb := THREE.Box3_expandByPoint bb (THREE.Vector3_set x y 0%js) in
  let bb := THREE.Box3_expandByPoint bb (THREE.Vector3_set x 0%js z) in
  let bb := THREE.Box3_expandByPoint bb (THREE.Vector3_set x 0%js 0%js) in
  let bb := THREE.Box3_expandByPoint bb (THREE.Vector3_set 0%js y z) in
  let bb := THREE.Box3_expandByPoint bb (THREE.Vector3_set 0%js 0%js z) in
  let bb := THREE.Box3_expandByPoint bb (THREE.Vector3_set 0%js y 0%js) in
  let bb := THREE.Box3_expandByPoint bb (THREE.Vector3_set 0%js 0%js 0%js) in
  let bb := THREE.Box3_applyMatrix4 bb (matrix this) in
  let this := set_boundingBox bb this in
  let this := set_center (THREE.Box3_center bb) this in
  (* make normal matrix *)
  let me := typed_get (THREE.elements (matrix this)) in
  let r0 := THREE.Vector3_set (me 0%nat) (me 1%nat) (me 2%nat) in
  let r1 := THREE.Vector3_set (me 4%nat) (me 5%nat) (me 6%nat) in
  let r2 := THREE.Vector3_set (me 8%nat) (me 9%nat) (me 10%nat) in
  (* the nine assignments [ne[ 0 ] = cp.x] ... [ne[ 8 ] = cp.z] overwrite the
     whole of the 9-entry [elements] array of [this.normalMatrix] *)
  let cp0 := THREE.Vector3_crossVectors r1 r2 in
  let cp1 := THREE.Vector3_crossVectors r2 r0 in
  let cp2 := THREE.Vector3_crossVectors r0 r1 in
  let ne :=
    [ ToNumber (THREE.x cp0); ToNumber (THREE.y cp0); ToNumber (THREE.z cp0);
      ToNumber (THREE.x cp1); ToNumber (THREE.y cp1); ToNumber (THREE.z cp1);
      ToNumber (THREE.x cp2); ToNumber (THREE.y cp2); ToNumber (THREE.z cp2) ] in
  let this := set_normalMatrix (THREE.mkMatrix3 ne) this in
  set_inverseMatrix (THREE.Matrix4_getInverse (matrix this)) this.

Definition getBox (this : Volume) (center' : THREE.object num) (size : num) : THREE.Box3 num :=
  let target := THREE.Box3_set center' center' in
  let target := THREE.Box3_expandByScalar target size in
  let target := THREE.Box3_applyMatrix4 target (inverseMatrix this) in
  THREE.mkBox3 (THREE.Vector3_round (THREE.min target))
               (THREE.Vector3_round (THREE.max target)).

Definition getDataMin (this : Volume) : num * Volume :=
  match __dataMin this with
  | Some m => (m, this)
  | None =>
      let min := fold_left Math_min (__data this) Infinity in
      (min, set___dataMin (Some min) this)
  end.

Definition getDataMax (this : Volume) : num * Volume :=
  match __dataMax this with
  | Some m => (m, this)
  | None =>
      let max := fold_left Math_max (__data this) (- Infinity)%js in
      (max, set___dataMax (Some max) this)
  end.

Definition getDataMean (this : Volume) : num * Volume :=
  match __dataMean this with
  | Some m => (m, this)
  | None =>
      let data := __data this in
      let n := num_of_Z (Z.of_nat (length data)) in
      let sum := fold_left num_add data 0%js in
      let mean := (sum / n)%js in
      (mean, set___dataMean (Some mean) this)
  end.

Definition getDataRms (this : Volume) : num * Volume :=
  match __dataRms this with
  | Some r => (r, this)
  | None =>
      let data := __data this in
      let n := num_of_Z (Z.of_nat (length data)) in
      let sumSq := fold_left (fun sumSq di => (sumSq + di * di)%js) data 0%js in
      let rms := Math_sqrt (sumSq / n)%js in
      (rms, set___dataRms (Some rms) this)
  end.

Definition getValueForSigma (this : Volume) (sigma : option num) : num * Volume :=
  let sigma := default 2%js sigma in
  let '(mean, this) := getDataMean this in
  let '(rms, this) := getDataRms this in
  ((mean + sigma * rms)%js, this).

Definition getSigmaForValue (this : Volume) (value : option num) : num * Volume :=
  let value := default 0%js value in
  let '(mean, this) := getDataMean this in
  let '(rms, this) := getDataRms this in
  (((value - mean) / rms)%js, this).

Definition getSurface (this : Volume) (isolevel smooth : option num)
    (center' : option (THREE.object num)) (size : option num) : Surface * Volume :=
  let '(isolevel, this) :=
    if isNaN isolevel then getValueForSigma this (Some 2%js)
    else (ToNumber isolevel, this) in
  let smooth := or_default smooth 0%js in
  let mc' :=
    match mc this with
    | Some mc' => mc'
    | None =>
        mkMarchingCubes (__data this) (nx this) (ny this) (nz this) (__dataAtomindex this)
    end in
  let this := set_mc (Some mc') this in
  let '(box, this) :=
    match center', size with
    | Some c, Some s =>
        if truthy s then
          let b := getBox this c s in
          (Some (THREE.Vector3_toArray (THREE.min b), THREE.Vector3_toArray (THREE.max b)),
           set___box (Some b) this)
        else (None, this)
    | _, _ => (None, this)
    end in
  let sd :=
    if truthy smooth then
      let sd := MarchingCubes_triangulate mc' isolevel true box in
      let position' := laplacianSmooth (position sd) (index sd) smooth true in
      mkSurfaceData position' (index sd) (Some (computeVertexNormals position' (index sd)))
    else
      MarchingCubes_triangulate mc' isolevel false box in
  let sd :=
    mkSurfaceData (THREE.Matrix4_applyToVector3Array (matrix this) (position sd))
      (index sd)
      (THREE.Matrix3_applyToVector3Array (normalMatrix this) <$> normal sd) in
  (mkSurface "" "" sd isolevel smooth, this).

(** The grid sweep of [makeDataPosition]: [x] fastest, then [y], then [z]. *)
Definition grid_coordinates (nx' ny' nz' : N) : list num :=
  z ← seq 0 (N.to_nat nz');
  y ← seq 0 (N.to_nat ny');
  x ← seq 0 (N.to_nat nx');
  [num_of_Z (Z.of_nat x); num_of_Z (Z.of_nat y); num_of_Z (Z.of_nat z)].

Definition makeDataPosition (this : Volume) : Volume :=
  (* [position] is a [Float32Array]: the coordinates are rounded when they
     are stored, and again when [applyToVector3Array] writes each
     transformed point back *)
  let position := Math_fround <$> grid_coordinates (nx this) (ny this) (nz this) in
  let position :=
    Math_fround <$> THREE.Matrix4_applyToVector3Array (matrix this) position in
  let this := set_dataPosition (Some position) this in
  set___dataPosition (Some position) this.

(** The test of the filter loop. *)
Definition retained (minValue maxValue : num) (outside : bool) (v : num) : bool :=
  (negb outside && (minValue <=? v)%js && (v <=? maxValue)%js)
  || (outside && ((v <? minValue)%js || (maxValue <? v)%js)).

(** The loop [for( var i = 0; i < n; ++i )] of [filterData], at the point
    where the samples from [i] on ([rest]) are still to be visited and [j]
    samples have been retained.  Reading an element of [dataPosition] when
    it is [undefined] throws; the two arrays written are [Float32Array]s,
    which round what is stored and drop a write past their end. *)
Fixpoint filter_loop (dataPosition' : option (list num)) (minValue maxValue : num)
    (outside : bool) (rest : list num) (i j : nat)
    (filteredDataPosition filteredData : list num) : result (nat * list num * list num) :=
  match rest with
  | [] => Ok (j, filteredDataPosition, filteredData)
  | v :: rest =>
      let i3 := i * 3 in
      if retained minValue maxValue outside v then
        match dataPosition' with
        | None => Throw TypeError
        | Some dataPosition' =>
            let j3 := j * 3 in
            let filteredDataPosition :=
              <[j3 + 0 := Math_fround (typed_get dataPosition' (i3 + 0))]>
                filteredDataPosition in
            let filteredDataPosition :=
              <[j3 + 1 := Math_fround (typed_get dataPosition' (i3 + 1))]>
                filteredDataPosition in
            let filteredDataPosition :=
              <[j3 + 2 := Math_fround (typed_get dataPosition' (i3 + 2))]>
                filteredDataPosition in
            let filteredData := <[j := Math_fround v]> filteredData in
            filter_loop (Some dataPosition') minValue maxValue outside rest (S i) (S j)
              filteredDataPosition filteredData
        end
      else
        filter_loop dataPosition' minValue maxValue outside rest (S i) j
          filteredDataPosition filteredData
  end.

(** The three arguments of [filterData] after their defaults are applied. *)
Definition default_minValue (this : Volume) (minValue : option num) : num :=
  let minValue :=
    match header this with
    | Some h =>
        if isNaN minValue then Some (ToNumber (DMEAN h) + 2 * ToNumber (ARMS h))%js
        else minValue
    | None => minValue
    end in
  match minValue with
  | Some a => if num_isNaN a then (- Infinity)%js else a
  | None => (- Infinity)%js
  end.

Definition default_maxValue (maxValue : option num) : num := default Infinity maxValue.

Definition default_outside (outside : option bool) : bool := default false outside.

(** [a === b] and [a == b] for a number [a] and a [b] that is a number or
    [undefined]; [a === b] for a boolean [a] and a [b] that is a boolean or
    [undefined]. *)
Definition num_equals (a : num) (b : option num) : bool :=
  match b with Some b => (a === b)%js | None => false end.

Definition bool_equals (a : bool) (b : option bool) : bool :=
  match b with Some b => eqb a b | None => false end.

(** Which branch of [filterData] ran.  The source returns nothing; the
    branch is reported so that statements can tell a skipped call from a
    recomputation. *)
Inductive filter_branch := already_filtered | unfiltered | scanned.

(** The arguments are a number or [undefined] ([minValue], [maxValue]) and
    a boolean or [undefined] ([outside]). *)
Definition filterData (this : Volume) (minValue maxValue : option num)
    (outside : option bool) : result (Volume * filter_branch) :=
  let minValue := default_minValue this minValue in
  let maxValue := default_maxValue maxValue in
  let outside := default_outside outside in
  let this := if dataPosition this is Some _ then this else makeDataPosition this in
  let dataPosition' := __dataPosition this in
  let data' := __data this in
  if num_equals minValue (__minValue this) && num_equals maxValue (__maxValue this)
     && bool_equals outside (__outside this)
  then
    (* already filtered *)
    Ok (this, already_filtered)
  else
    let applied (this : Volume) :=
      let this := set___minValue (Some minValue) this in
      let this := set___maxValue (Some maxValue) this in
      set___outside (Some outside) this in
    if (minValue === - Infinity)%js && (maxValue === Infinity)%js then
      let this := set_dataPosition dataPosition' this in
      let this := set_data data' this in
      Ok (applied this, unfiltered)
    else
      let n := length data' in
      let this :=
        if __dataBuffer this is Some _ then this
        else
          (* ArrayBuffer for re-use as Float32Array backend *)
          let this := set___dataPositionBuffer (Some (replicate (n * 3) 0%js)) this in
          set___dataBuffer (Some (replicate n 0%js)) this in
      let filteredDataPosition := default [] (__dataPositionBuffer this) in
      let filteredData := default [] (__dataBuffer this) in
      match filter_loop dataPosition' minValue maxValue outside data' 0 0
              filteredDataPosition filteredData with
      | Throw e => Throw e
      | Ok (j, filteredDataPosition, filteredData) =>
          (* the two arrays are views of the two buffers, which now hold
             what was written through them *)
          let this := set___dataPositionBuffer (Some filteredDataPosition) this in
          let this := set___dataBuffer (Some filteredData) this in
          (* set views *)
          if (j * 3 <=? length filteredDataPosition)%nat && (j <=? length filteredData)%nat
          then
            let this := set_dataPosition (Some (take (j * 3) filteredDataPosition)) this in
            let this := set_data (take j filteredData) this in
            Ok (applied this, scanned)
          else Throw RangeError
      end.

Definition getDataAtomindex (this : Volume) : option (list Z) := dataAtomindex this.

Definition getDataPosition (this : Volume) : option (list num) := dataPosition this.

Definition clone (this : Volume) : Volume * list event :=
  let '(vol, events) :=
    Volume_new (name this) (path this) (Some (__data this))
      (Some (nx this)) (Some (ny this)) (Some (nz this)) (__dataAtomindex this) in
  let vol := set_matrix (THREE.Matrix4_copy (matrix this)) vol in
  let vol := if header this is Some _ then set_header (header this) vol else vol in
  (vol, events).

Definition toJSON (this : Volume) : VolumeJSON :=
  mkVolumeJSON (name this) (path this) (__data this)
    (nx this) (ny this) (nz this) (__dataAtomindex this)
    (THREE.Matrix4_toArray (matrix this))
    (THREE.Matrix3_toArray (normalMatrix this))
    (THREE.Matrix4_toArray (inverseMatrix this))
    (THREE.Vector3_toArray (center this))
    (THREE.Vector3_toArray (THREE.min (boundingBox this)))
    (THREE.Vector3_toArray (THREE.max (boundingBox this)))
    (header this).

Definition fromJSON (this : Volume) (input : VolumeJSON) : Volume * list event :=
  let this := set_name (json_name input) this in
  let this := set_path (json_path input) this in
  let '(this, events) :=
    setData this (Some (json_data input))
      (Some (json_nx input)) (Some (json_ny input)) (Some (json_nz input))
      (json_dataAtomindex input) in
  let this := set_matrix (THREE.Matrix4_fromArray (json_matrix input)) this in
  let this := set_normalMatrix (THREE.Matrix3_fromArray (json_normalMatrix input)) this in
  let this := set_inverseMatrix (THREE.Matrix4_fromArray (json_inverseMatrix input)) this in
  let this :=
    if json_header input is Some _ then set_header (json_header input) this else this in
  let this := set_center (THREE.Vector3_fromArray (json_center input)) this in
  let this :=
    set_boundingBox
      (THREE.Box3_set (THREE.obj_Array (json_boundingBox_min input))
                      (THREE.obj_Array (json_boundingBox_max input))) this in
  (this, events).

(** [getSurfaceWorker]: what is handed to [callback] before the method
    returns ([None] when the request went to a worker, whose reply arrives
    later), the volume and the events. *)
Definition getSurfaceWorker (this : Volume) (isolevel smooth : option num)
    (center' : option (THREE.object num)) (size : option num)
    : option Surface * Volume * list event :=
  let '(isolevel, this) :=
    if isNaN isolevel then getValueForSigma this (Some 2%js)
    else (ToNumber isolevel, this) in
  let smooth := or_default smooth 0%js in
  if Worker_defined && negb importScripts_is_function then
    let '(workerPool', created) :=
      match workerPool this with
      | Some p => (p, [])
      | None => (mkWorkerPool "surf" 2 [], [WorkerPool_new "surf" 2])
      end in
    let '(workerPool', k) := WorkerPool_getNextWorker workerPool' in
    let worker' := default (mkWorker 0) (pool workerPool' !! k) in
    let message :=
      mkSurfMessage (if (postCount worker' =? 0)%N then Some (toJSON this) else None)
        (mkSurfParams isolevel smooth center' size) in
    let workerPool' :=
      mkWorkerPool (pool_name workerPool') (pool_maxCount workerPool')
        (<[k := mkWorker (postCount worker' + 1)]> (pool workerPool')) in
    (None, set_workerPool (Some workerPool') this, created ++ [Worker_post k message])
  else
    let '(surface, this) := getSurface this (Some isolevel) (Some smooth) center' size in
    (Some surface, this, []).

Definition dispose (this : Volume) : list event :=
  (if workerPool this is Some _ then [WorkerPool_terminate] else []) ++ [GidPool_removeObject].

End Volume_model.

Arguments MarchingCubes : clear implicits.
Arguments SurfaceData : clear implicits.
Arguments Surface : clear implicits.
Arguments Header : clear implicits.
Arguments VolumeJSON : clear implicits.
Arguments SurfParams : clear implicits.
Arguments SurfMessage : clear implicits.
Arguments event : clear implicits.
Arguments Externals : clear implicits.
Arguments Volume : clear implicits.

(** ** Notions used in the statements *)

Section Statements.
Context {num : Type} {NUM : Number num}.

(** *** The derived values, in the words of the specification

    The definitions from here to [derived_consistent] are written from the
    specification and from the usual definitions of a cofactor, a cross
    product and a bounding box, not from [setMatrix]: the statements
    compare what [setMatrix] computes with them. *)

(** The linear part of a transform, read the way the comment in
    [setMatrix] reads it: row [i] is [r_i = (me[4i], me[4i+1], me[4i+2])]. *)
Definition linear_part (m : THREE.Matrix4 num) (i j : nat) : num :=
  typed_get (THREE.elements m) (4 * i + j).

(** The entry in row [i] and column [j] of a [Matrix3], read the same way. *)
Definition entry3 (n : THREE.Matrix3 num) (i j : nat) : num :=
  typed_get (THREE.elements3 n) (3 * i + j).

(** The cross product of two vectors given by their coordinates:
    coordinate [k] is [a_(k+1) b_(k+2) - a_(k+2) b_(k+1)], indices modulo 3. *)
Definition cross (a b : nat -> num) (k : nat) : num :=
  (a ((k + 1) mod 3) * b ((k + 2) mod 3) - a ((k + 2) mod 3) * b ((k + 1) mod 3))%js.

(** The cofactor of the entry [(i, j)] of a 3x3 matrix [a]: the determinant
    of what is left of [a] without row [i] and column [j], with the sign
    [(-1)^(i+j)].  With the indices taken modulo 3 the sign is in the order
    of the rows and columns that are left. *)
Definition cofactor3 (a : nat -> nat -> num) (i j : nat) : num :=
  (a ((i + 1) mod 3) ((j + 1) mod 3) * a ((i + 2) mod 3) ((j + 2) mod 3)
   - a ((i + 1) mod 3) ((j + 2) mod 3) * a ((i + 2) mod 3) ((j + 1) mod 3))%js.

(** A point, and a box given by its lowest and its highest corner. *)
Definition point : Type := num * num * num.

(** The eight corners of the grid: [(0 | nx-1, 0 | ny-1, 0 | nz-1)]. *)
Definition grid_corners (nx' ny' nz' : N) : list point :=
  let x := num_of_Z (Z.of_N nx' - 1) in
  let y := num_of_Z (Z.of_N ny' - 1) in
  let z := num_of_Z (Z.of_N nz' - 1) in
  [ (0, 0, 0); (0, 0, z); (0, y, 0); (0, y, z);
    (x, 0, 0); (x, 0, z); (x, y, 0); (x, y, z) ]%js.

(** A transform applied to a point: the entry in row [r] and column [c] of
    the matrix is [elements[r + 4 c]], and the point is extended by 1. *)
Definition transformed (m : THREE.Matrix4 num) (p : point) : point :=
  let '(px, py, pz) := p in
  let row (r : nat) :=
    (THREE.entry m r 0%nat * px + THREE.entry m r 1%nat * py
     + THREE.entry m r 2%nat * pz + THREE.entry m r 3%nat)%js in
  (row 0%nat, row 1%nat, row 2%nat).

(** The axis-aligned box of a list of points: the least and the greatest
    of each coordinate. *)
Definition bounding_box (points : list point) : point * point :=
  fold_left
    (fun (b : point * point) (p : point) =>
       let '((lx, ly, lz), (hx, hy, hz)) := b in
       let '(px, py, pz) := p in
       ((Math_min lx px, Math_min ly py, Math_min lz pz),
        (Math_max hx px, Math_max hy py, Math_max hz pz)))
    points
    ((Infinity, Infinity, Infinity), (- Infinity, - Infinity, - Infinity))%js.

(** The point half way between the two corners of a box. *)
Definition midpoint (b : point * point) : point :=
  let '((lx, ly, lz), (hx, hy, hz)) := b in
  ((lx + hx) * (1 / 2), (ly + hy) * (1 / 2), (lz + hz) * (1 / 2))%js.

Definition Vector3_of (p : point) : THREE.Vector3 num :=
  let '(px, py, pz) := p in THREE.Vector3_set px py pz.

Definition Box3_of (b : point * point) : THREE.Box3 num :=
  THREE.mkBox3 (Vector3_of (fst b)) (Vector3_of (snd b)).

(** The derived values of a volume are consistent with its transform and
    its grid extents: the normal matrix is the matrix of cofactors of the
    linear part, the inverse matrix is the one three.js computes from the
    transform, the box is the box of the eight transformed corners of the
    grid and the center is the middle of that box. *)
Definition derived_consistent (this : Volume num) : Prop :=
  let box :=
    bounding_box (transformed (matrix this) <$> grid_corners (nx this) (ny this) (nz this)) in
  (forall i j, i < 3 -> j < 3 ->
     entry3 (normalMatrix this) i j = cofactor3 (linear_part (matrix this)) i j)
  /\ inverseMatrix this = THREE.Matrix4_getInverse (matrix this)
  /\ boundingBox this = Box3_of box
  /\ center this = Vector3_of (midpoint box).

(** The product of two column-major 4x4 matrices, and the identity. *)
Definition Matrix4_product (a b : THREE.Matrix4 num) : THREE.Matrix4 num :=
  THREE.mkMatrix4
    (map (fun k =>
            let r := k mod 4 in let c := k / 4 in
            (THREE.entry a r 0 * THREE.entry b 0 c + THREE.entry a r 1 * THREE.entry b 1 c
             + THREE.entry a r 2 * THREE.entry b 2 c
             + THREE.entry a r 3 * THREE.entry b 3 c)%js)
         (seq 0 16)).

(** The first step of [filterData]: the grid positions are computed if
    [this.dataPosition] is not there. *)
Definition ensure_dataPosition (this : Volume num) : Volume num :=
  if dataPosition this is Some _ then this else makeDataPosition this.

(** The last-applied filter triple a volume remembers. *)
Definition triple_matches (this : Volume num) (minValue maxValue : num) (outside : bool)
    : bool :=
  num_equals minValue (__minValue this) && num_equals maxValue (__maxValue this)
  && bool_equals outside (__outside this).

(** The world-space position [filterData] copies for sample [i]. *)
Definition position_of (dataPosition' : list num) (i : nat) : list num :=
  [typed_get dataPosition' (i * 3 + 0); typed_get dataPosition' (i * 3 + 1);
   typed_get dataPosition' (i * 3 + 2)].

(** The test a sample [v] has to pass, as the specification gives it:
    [(!outside && min <= v <= max) || (outside && (v < min || v > max))]. *)
Definition passes (minValue maxValue : num) (outside : bool) (v : num) : bool :=
  (negb outside && ((minValue <=? v)%js && (v <=? maxValue)%js))
  || (outside && ((v <? minValue)%js || (maxValue <? v)%js)).

(** The indices, from [i] on, of the samples of [rest] that pass the test. *)
Fixpoint retained_indices (minValue maxValue : num) (outside : bool) (rest : list num)
    (i : nat) : list nat :=
  match rest with
  | [] => []
  | v :: rest =>
      if passes minValue maxValue outside v
      then i :: retained_indices minValue maxValue outside rest (S i)
      else retained_indices minValue maxValue outside rest (S i)
  end.

(** The mean and the root mean square of the samples, and the cache of
    the two being absent or up to date. *)
Definition mean_of (samples : list num) : num :=
  (fold_left num_add samples 0 / num_of_Z (Z.of_nat (length samples)))%js.

Definition rms_of (samples : list num) : num :=
  Math_sqrt (fold_left (fun sumSq di => sumSq + di * di) samples 0
             / num_of_Z (Z.of_nat (length samples)))%js.

Definition statistics_valid (this : Volume num) : Prop :=
  (forall m, __dataMean this = Some m -> m = mean_of (__data this))
  /\ (forall r, __dataRms this = Some r -> r = rms_of (__data this)).

(** The backing storage of the filtered view is usable for the current
    samples: absent, or of the size [filterData] allocates. *)
Definition buffers_fit (this : Volume num) : Prop :=
  match __dataBuffer this, __dataPositionBuffer this with
  | None, _ => True
  | Some b, Some pb =>
      length b = length (__data this) /\ length pb = length (__data this) * 3
  | Some _, None => False
  end.

(** The grid positions are usable: [filterData] will compute them, or
    they are there. *)
Definition positions_ready (this : Volume num) : Prop :=
  dataPosition this = None \/ is_Some (__dataPosition this).

(** The isolevel a call of [getSurfaceWorker] settled on: the one recorded
    in the surface it delivered, or the one in the message it posted. *)
Definition worker_isolevel (r : option (Surface num) * Volume num * list (event num))
    : option num :=
  match r with
  | (Some surface, _, _) => Some (info_isolevel surface)
  | (None, _, events) =>
      match last events with
      | Some (Worker_post _ message) => Some (params_isolevel (message_params message))
      | _ => None
      end
  end.

(** An environment to run examples in: workers exist, every request goes
    to a new worker until the pool is full and to the first worker from
    then on, and the triangulation finds no triangle. *)
Definition example_externals : Externals num := {|
  MarchingCubes_triangulate := fun _ _ _ _ => mkSurfaceData [] [] None;
  laplacianSmooth := fun position _ _ _ => position;
  computeVertexNormals := fun position _ => position;
  WorkerPool_getNextWorker := fun p =>
    if (N.of_nat (length (pool p)) <? pool_maxCount p)%N
    then (mkWorkerPool (pool_name p) (pool_maxCount p) (pool p ++ [mkWorker 0]),
          length (pool p))
    else (p, 0%nat);
  Worker_defined := true;
  importScripts_is_function := false
|}.

End Statements.

(** ** Example volumes *)

(** [new Volume( "v", "p", new Float32Array([1,...,8]), 2, 2, 2 )] *)
Definition volume_2x2x2 : Volume float :=
  fst (Volume_new (Some "v"%string) (Some "p"%string)
         (Some [1; 2; 3; 4; 5; 6; 7; 8]%float) (Some 2%N) (Some 2%N) (Some 2%N) None).

(** The same volume after [filterData()], and after [filterData( 3, 6 )]. *)
Definition volume_filtered : Volume float :=
  match filterData volume_2x2x2 None None None with
  | Ok (this, _) => this
  | Throw _ => volume_2x2x2
  end.

Definition volume_scanned : Volume float :=
  match filterData volume_2x2x2 (Some 3%float) (Some 6%float) None with
  | Ok (this, _) => this
  | Throw _ => volume_2x2x2
  end.

(** A scaling by (2, 3, 4) followed by a translation by (10, 20, 30). *)
Definition scale_translate_float : THREE.Matrix4 float :=
  THREE.mkMatrix4 [2; 0; 0; 0;  0; 3; 0; 0;  0; 0; 4; 0;  10; 20; 30; 1]%float.

(** A regular matrix with integer entries (its determinant is -3), and a
    singular one: a scaling by (0, 1, 1). *)
Definition integer_matrix : THREE.Matrix4 float :=
  THREE.mkMatrix4 [1; 2; 3; 0;  4; 5; 6; 0;  7; 8; 10; 0;  0; 0; 0; 1]%float.

Definition singular_matrix : THREE.Matrix4 float :=
  THREE.mkMatrix4 [0; 0; 0; 0;  0; 1; 0; 0;  0; 0; 1; 0;  0; 0; 0; 1]%float.

(** More than 10^7 samples. *)
Definition large_data : list float := replicate (N.to_nat 10000001) 0%float.

(** ** The rest of [volume.js]

    [getDataSize] and the handler the file registers for the "surf"
    workers.  [getDataSize] needs two functions from outside: [Math.abs],
    which [Number] does not have, and [uniformArray] of
    [math/array-utils.js], called with the number [n] and the value to
    fill with, which returns a [Float32Array]. *)

Section Volume_model_rest.
Context {num : Type} {NUM : Number num} {EXT : Externals num}.

Class Builtins := {
  Math_abs : num -> num;
  uniformArray : num -> num -> list num
}.
Context {BLT : Builtins}.

(** The first argument of [getDataSize]: one of the four names the
    [switch] knows, or any other value (a number, used as the size of every
    sample). *)
Inductive size_type :=
  | size_value
  | size_abs_value
  | size_value_min
  | size_deviation
  | size_other (size : num).

(** [for( i = 0; i < n; ++i ) array[ i ] = f( array[ i ] )] on a
    [Float32Array], at the point where [count] rounds are left and the next
    index is [i]: an element past the end reads as [undefined] and is not
    written, and what is written is rounded. *)
Fixpoint for_each (count i : nat) (f : num -> num) (array : list num) : list num :=
  match count with
  | 0 => array
  | S count =>
      for_each count (S i) f (<[i := Math_fround (f (typed_get array i))]> array)
  end.

(** How many integers [i = 0, 1, ...] satisfy [i < length / 3]. *)
Definition rounds (length : nat) : nat := (length + 2) / 3.

Definition getDataSize (this : Volume num) (size : size_type) (scale : option num)
    : result (list num * Volume num) :=
  match dataPosition this with
  | None => Throw TypeError                   (* [this.dataPosition.length] *)
  | Some dataPosition' =>
      let n := length dataPosition' in
      let count := rounds n in
      (* [new Float32Array( this.data )]: a copy, rounded *)
      let copy := Math_fround <$> data this in
      let '(array, this) :=
        match size with
        | size_value => (copy, this)
        | size_abs_value => (for_each count 0 Math_abs copy, this)
        | size_value_min =>
            let '(min, this) := getDataMin this in
            (for_each count 0 (fun a => (a - min)%js) copy, this)
        | size_deviation => (copy, this)
        | size_other size =>
            (uniformArray (num_of_Z (Z.of_nat n) / num_of_Z 3)%js size, this)
        end in
      let unscaled :=
        match scale with Some s => (s === 1)%js | None => false end in
      let array :=
        if unscaled then array
        else for_each count 0 (fun a => (a * ToNumber scale)%js) array in
      Ok (array, this)
  end.

(** What the handler of the "surf" workers logs and does to the registry
    of its own thread. *)
Inductive worker_event :=
  | Log_time (label : string)
  | Log_timeEnd (label : string)
  | in_worker (e : event num).

(** The handler registered by [WorkerRegistry.add( "surf", ... )]:
    [self_vol] is [self.vol], [d_vol] and [d_params] are [e.data.vol] and
    [e.data.params].  It returns what it hands to [callback] (the surface,
    or nothing), the new [self.vol] and the events. *)
Definition surf_worker (Debug : bool) (self_vol : option (Volume num))
    (d_vol : option (VolumeJSON num)) (d_params : option (SurfParams num))
    : option (Surface num) * Volume num * list worker_event :=
  let started := if Debug then [Log_time "WORKER surf"] else [] in
  let '(vol, made) :=
    match self_vol with
    | Some vol => (vol, [])
    | None => Volume_new None None None None None None None
    end in
  let '(vol, restored) :=
    match d_vol with
    | Some input => fromJSON vol input
    | None => (vol, [])
    end in
  let '(surface, vol) :=
    match d_params with
    | Some p =>
        let '(surface, vol) :=
          getSurface vol (Some (params_isolevel p)) (Some (params_smooth p))
            (params_center p) (params_size p) in
        (Some surface, vol)
    | None => (None, vol)
    end in
  let ended := if Debug then [Log_timeEnd "WORKER surf"] else [] in
  (surface, vol, started ++ (in_worker <$> (made ++ restored)) ++ ended).

(** The triangulation instance, when there is one, is bound to the current
    samples, extents and labels. *)
Definition mc_valid (this : Volume num) : Prop :=
  forall m, mc this = Some m ->
    m = mkMarchingCubes (__data this) (nx this) (ny this) (nz this) (__dataAtomindex this).

(** The grid has as many points as there are samples, and the cached
    positions, when there are any, hold three coordinates per sample. *)
Definition grid_matches (this : Volume num) : Prop :=
  N.to_nat (nx this * ny this * nz this) = length (__data this)
  /\ forall p, __dataPosition this = Some p -> length p = length (__data this) * 3.

(** The two views go together: three coordinates per value, and before
    any filter the values are the canonical samples. *)
Definition views_aligned (this : Volume num) : Prop :=
  match dataPosition this with
  | Some p => length p = length (data this) * 3
  | None => data this = __data this
  end.

(** What [getSurface] reads of a volume: two volumes that agree on it
    give the same surfaces. *)
Definition same_grid (u w : Volume num) : Prop :=
  __data u = __data w /\ nx u = nx w /\ ny u = ny w /\ nz u = nz w
  /\ __dataAtomindex u = __dataAtomindex w
  /\ matrix u = matrix w /\ normalMatrix u = normalMatrix w
  /\ inverseMatrix u = inverseMatrix w.

(** The cached minimum and maximum, when there are any, are those of the
    current samples. *)
Definition range_valid (this : Volume num) : Prop :=
  (forall m, __dataMin this = Some m -> m = fold_left Math_min (__data this) Infinity)
  /\ (forall m, __dataMax this = Some m
        -> m = fold_left Math_max (__data this) (- Infinity)%js).

(** The triangulation instance and the four cached statistics, when they
    are there, are those of the current samples, extents and labels.  (The
    cached positions are another matter: [setMatrix] leaves them as they
    are.) *)
Definition caches_valid (this : Volume num) : Prop :=
  mc_valid this /\ statistics_valid this /\ range_valid this.

End Volume_model_rest.

Arguments Builtins : clear implicits.
Arguments size_type : clear implicits.
Arguments worker_event : clear implicits.

(** [Math.abs] and [uniformArray] on binary64. *)
Definition float_to_nat (a : float) : nat :=
  match Prim2SF a with
  | S754_finite false m e =>
      Z.to_nat (if (0 <=? e)%Z then Zpos m * 2 ^ e else Zpos m / 2 ^ (- e))%Z
  | _ => 0
  end.

Definition float_Builtins : Builtins float := {|
  Math_abs := PrimFloat.abs;
  uniformArray := fun n a => replicate (float_to_nat n) (float_fround a)
|}.

(** An environment without workers, or inside one: every request is
    served on the spot. *)
Definition example_externals_without_workers {num : Type} {NUM : Number num}
    : Externals num := {|
  MarchingCubes_triangulate := fun _ _ _ _ => mkSurfaceData [] [] None;
  laplacianSmooth := fun position _ _ _ => position;
  computeVertexNormals := fun position _ => position;
  WorkerPool_getNextWorker := fun p => (p, 0%nat);
  Worker_defined := false;
  importScripts_is_function := false
|}.

(** A number that is +0, -0 or NaN. *)
Definition zero_or_NaN (s : spec_float) : Prop :=
  s = S754_zero false \/ s = S754_zero true \/ s = S754_nan.

(** A number that is +0, positive or +Infinity. *)
Definition nonnegative (s : spec_float) : Prop :=
  match s with
  | S754_zero false | S754_infinity false | S754_finite false _ _ => True
  | _ => False
  end.

(** * Properties *)

Lemma float_neq (a b : float) :
  PrimFloat.eqb a b = false -> PrimFloat.eqb b b = true -> a <> b.
Proof. intros Hab Hbb ->. rewrite Hbb in Hab. discriminate. Qed.

Section Volume_proofs.
Context {num : Type} {NUM : Number num} {EXT : Externals num}.

(** ** [setData] *)

(** What [setData] leaves in [this], whatever the events. *)
Lemma setData_fst (this : Volume num) data' nx' ny' nz' dataAtomindex' :
  let reset := setData this data' nx' ny' nz' dataAtomindex' in
  nx (fst reset) = extent_or_1 nx' /\ ny (fst reset) = extent_or_1 ny'
  /\ nz (fst reset) = extent_or_1 nz'
  /\ __data (fst reset) = default [0%js] data' /\ data (fst reset) = default [0%js] data'
  /\ dataAtomindex (fst reset) = dataAtomindex'
  /\ __dataAtomindex (fst reset) = dataAtomindex'.
Proof. unfold setData. destruct (small_enough _); cbn; repeat split. Qed.

Lemma setData_caches (this : Volume num) data' nx' ny' nz' dataAtomindex' :
  let reset := fst (setData this data' nx' ny' nz' dataAtomindex') in
  mc reset = None /\ __minValue reset = None /\ __maxValue reset = None
  /\ __dataPositionBuffer reset = None /\ __dataPosition reset = None
  /\ __dataBuffer reset = None
  /\ __dataMin reset = None /\ __dataMax reset = None
  /\ __dataMean reset = None /\ __dataRms reset = None.
Proof. unfold setData. destruct (small_enough _); cbn; repeat split. Qed.

(** The properties [setData] does not assign. *)
Lemma setData_untouched (this : Volume num) data' nx' ny' nz' dataAtomindex' :
  let reset := fst (setData this data' nx' ny' nz' dataAtomindex') in
  name reset = name this /\ path reset = path this
  /\ matrix reset = matrix this /\ normalMatrix reset = normalMatrix this
  /\ inverseMatrix reset = inverseMatrix this
  /\ center reset = center this /\ boundingBox reset = boundingBox this
  /\ dataPosition reset = dataPosition this /\ __outside reset = __outside this
  /\ worker reset = worker this /\ workerPool reset = workerPool this
  /\ header reset = header this /\ __box reset = __box this.
Proof. unfold setData. destruct (small_enough _); cbn; repeat split. Qed.

Lemma setData_events (this : Volume num) data' nx' ny' nz' dataAtomindex' :
  snd (setData this data' nx' ny' nz' dataAtomindex') =
  (if worker this is Some _ then [Worker_terminate] else [])
  ++ (if (Z.of_nat (length (default [0%js] data')) <=? 10 ^ 7)%Z
      then [GidPool_updateObject]
      else [Log_warn "Volume too large (>10^7), not adding to GidPool";
            GidPool_removeObject]).
Proof. unfold setData, small_enough. cbn. destruct (_ <=? _)%Z; reflexivity. Qed.

Lemma Volume_new_events name' path' data' nx' ny' nz' dataAtomindex' :
  snd (Volume_new (num:=num) name' path' data' nx' ny' nz' dataAtomindex') =
  if (Z.of_nat (length (default [0%js] data')) <=? 10 ^ 7)%Z
  then [GidPool_updateObject; GidPool_addObject]
  else [Log_warn "Volume too large (>10^7), not adding to GidPool"; GidPool_removeObject].
Proof.
  unfold Volume_new, setData, small_enough. cbn.
  destruct (_ <=? _)%Z eqn:E; cbn; rewrite E; reflexivity.
Qed.

(** C9. A volume of more than 10^7 samples is not registered: [setData]
    warns and removes it from the registry, the constructor adds nothing,
    and neither fails.  A volume of at most 10^7 samples is announced to
    the registry: [setData] updates it and the constructor then adds it. *)
Theorem registry_threshold (this : Volume num) name' path' data' nx' ny' nz' dataAtomindex' :
  let samples := Z.of_nat (length (default [0%js] data')) in
  let terminated := if worker this is Some _ then [Worker_terminate] else [] in
  let warning := Log_warn "Volume too large (>10^7), not adding to GidPool" in
  ((10 ^ 7 < samples)%Z ->
     snd (setData this data' nx' ny' nz' dataAtomindex')
       = terminated ++ [warning; GidPool_removeObject]
     /\ snd (Volume_new (num:=num) name' path' data' nx' ny' nz' dataAtomindex')
       = [warning; GidPool_removeObject])
  /\ ((samples <= 10 ^ 7)%Z ->
     snd (setData this data' nx' ny' nz' dataAtomindex')
       = terminated ++ [GidPool_updateObject]
     /\ snd (Volume_new (num:=num) name' path' data' nx' ny' nz' dataAtomindex')
       = [GidPool_updateObject; GidPool_addObject]).
Proof.
  intros samples terminated warning.
  rewrite setData_events, Volume_new_events. fold samples.
  split; intros H.
  - apply Z.leb_gt in H. rewrite H. split; reflexivity.
  - apply Z.leb_le in H. rewrite H. split; reflexivity.
Qed.

(** ** [toJSON] and [fromJSON] *)

(** What a round trip reproduces: the samples, the labels, the three
    matrices and the center, and the extents (an extent of 0, which no
    volume has after [setData], would come back as 1). *)
Lemma fromJSON_toJSON_preserved (this v : Volume num) :
  let back := fst (fromJSON this (toJSON v)) in
  __data back = __data v /\ data back = __data v
  /\ nx back = extent_or_1 (Some (nx v)) /\ ny back = extent_or_1 (Some (ny v))
  /\ nz back = extent_or_1 (Some (nz v))
  /\ __dataAtomindex back = __dataAtomindex v
  /\ matrix back = matrix v /\ normalMatrix back = normalMatrix v
  /\ inverseMatrix back = inverseMatrix v
  /\ center back = center v.
Proof.
  unfold fromJSON, setData. destruct (small_enough _);
    destruct v as [? ? [?] [?] [?] [? ? ?] ? ? ? ? ? ? ? ? ? ? ? ? ? ? ? ? ? ? ? ? ? ? [?|] ?];
    cbn; repeat split.
Qed.

(** C1. The bounding box does not survive the round trip: whatever the
    volume, [fromJSON( toJSON( v ) )] has a bounding box whose six
    coordinates are [undefined]. *)
Theorem fromJSON_toJSON_boundingBox (this v : Volume num) :
  boundingBox (fst (fromJSON this (toJSON v)))
  = THREE.mkBox3 (THREE.mkVector3 None None None) (THREE.mkVector3 None None None).
Proof.
  unfold fromJSON, setData.
  destruct (small_enough _); destruct (json_header _); reflexivity.
Qed.

(** ** The worker pool *)

Lemma getSurfaceWorker_workerPool (this : Volume num) isolevel smooth center' size :
  Worker_defined = true -> importScripts_is_function = false ->
  let '(delivered, this', _) := getSurfaceWorker this isolevel smooth center' size in
  delivered = None /\ is_Some (workerPool this').
Proof.
  intros HW HI. unfold getSurfaceWorker.
  destruct (if isNaN isolevel then _ else _) as [isolevel' this1].
  rewrite HW, HI. cbn [andb negb].
  destruct (workerPool this1) as [p|];
    destruct (WorkerPool_getNextWorker _) as [p' k]; cbn; split; eauto.
Qed.

(** The statistics, [getSurface] and [getSurfaceWorker] leave [this.worker]
    alone. *)
Lemma getValueForSigma_worker (this : Volume num) sigma :
  worker (snd (getValueForSigma this sigma)) = worker this.
Proof.
  unfold getValueForSigma, getDataMean, getDataRms.
  destruct (__dataMean this); cbn; destruct (__dataRms this); reflexivity.
Qed.

Lemma getSurface_worker (this : Volume num) isolevel smooth center' size :
  worker (snd (getSurface this isolevel smooth center' size)) = worker this.
Proof.
  unfold getSurface.
  pose proof (getValueForSigma_worker this (Some 2%js)) as H.
  destruct (isNaN isolevel); [destruct (getValueForSigma this (Some 2%js)) as [i t]|];
    cbn in *; destruct center' as [c|]; try destruct size as [s|]; cbn;
    try destruct (truthy s); cbn; congruence.
Qed.

Lemma getSurfaceWorker_worker (this : Volume num) isolevel smooth center' size :
  worker (snd (fst (getSurfaceWorker this isolevel smooth center' size))) = worker this.
Proof.
  unfold getSurfaceWorker.
  pose proof (getValueForSigma_worker this (Some 2%js)) as H.
  destruct (isNaN isolevel); [destruct (getValueForSigma this (Some 2%js)) as [i t]|];
    cbn in *;
    (destruct (Worker_defined && negb importScripts_is_function);
     [ match goal with |- context [workerPool ?t] => destruct (workerPool t) end;
       destruct (WorkerPool_getNextWorker _); cbn; congruence
     | match goal with |- context [getSurface ?t ?a ?b ?c ?d] =>
         pose proof (getSurface_worker t a b c d) as G; destruct (getSurface t a b c d)
       end; cbn in *; congruence ]).
Qed.

(** C2. After a request has been handed to a worker, the volume owns a
    pool; [setData] leaves that pool in place and terminates nothing. *)
Theorem setData_keeps_workerPool (this : Volume num) isolevel smooth center' size
    data' nx' ny' nz' dataAtomindex' :
  Worker_defined = true -> importScripts_is_function = false -> worker this = None ->
  let '(delivered, this', _) := getSurfaceWorker this isolevel smooth center' size in
  let '(this'', events) := setData this' data' nx' ny' nz' dataAtomindex' in
  delivered = None /\ is_Some (workerPool this')
  /\ workerPool this'' = workerPool this'
  /\ (WorkerPool_terminate ∉ events) /\ (Worker_terminate ∉ events).
Proof.
  intros HW HI Hworker.
  pose proof (getSurfaceWorker_workerPool this isolevel smooth center' size HW HI) as H.
  pose proof (getSurfaceWorker_worker this isolevel smooth center' size) as Hw.
  rewrite Hworker in Hw.
  destruct (getSurfaceWorker this isolevel smooth center' size) as [[delivered this'] ev].
  cbn in Hw. destruct H as [Hd Hp].
  pose proof (setData_untouched this' data' nx' ny' nz' dataAtomindex') as U.
  pose proof (setData_events this' data' nx' ny' nz' dataAtomindex') as E.
  destruct (setData this' data' nx' ny' nz' dataAtomindex') as [this'' events].
  cbn in U, E. rewrite Hw in E. subst events.
  repeat split; try tauto.
  - destruct (_ <=? _)%Z; cbn; rewrite !elem_of_cons, elem_of_nil; intuition discriminate.
  - destruct (_ <=? _)%Z; cbn; rewrite !elem_of_cons, elem_of_nil; intuition discriminate.
Qed.

(** ** The derived values of the transform *)

Lemma setMatrix_matrix (this : Volume num) (m : THREE.Matrix4 num) :
  matrix (setMatrix this m) = m.
Proof. destruct m. reflexivity. Qed.

Lemma setMatrix_inverseMatrix (this : Volume num) (m : THREE.Matrix4 num) :
  inverseMatrix (setMatrix this m) = THREE.Matrix4_getInverse m.
Proof. destruct m. reflexivity. Qed.

(** What the constructor leaves in the five properties of the transform:
    the identity three times, a zero center and an empty box, whatever the
    extents. *)
Lemma Volume_new_transform name' path' data' nx' ny' nz' dataAtomindex' :
  let this := fst (Volume_new (num:=num) name' path' data' nx' ny' nz' dataAtomindex') in
  matrix this = THREE.Matrix4_new /\ normalMatrix this = THREE.Matrix3_new
  /\ inverseMatrix this = THREE.Matrix4_new
  /\ center this = THREE.Vector3_new /\ boundingBox this = THREE.Box3_makeEmpty.
Proof.
  unfold Volume_new, setData.
  destruct (small_enough _); cbn; destruct (small_enough _); cbn; repeat split.
Qed.

(** ** The statistics and the default isolevel *)

(** The cached statistics are those of the current samples: [setData]
    empties the cache and the getters fill it from [this.__data]. *)
Lemma setData_statistics_valid (this : Volume num) data' nx' ny' nz' dataAtomindex' :
  statistics_valid (fst (setData this data' nx' ny' nz' dataAtomindex')).
Proof.
  destruct (setData_caches this data' nx' ny' nz' dataAtomindex')
    as (_ & _ & _ & _ & _ & _ & _ & _ & Me & Rm).
  split; intros ? H; [rewrite Me in H | rewrite Rm in H]; discriminate.
Qed.

Lemma getValueForSigma_statistics_valid (this : Volume num) sigma :
  statistics_valid this -> statistics_valid (snd (getValueForSigma this sigma)).
Proof.
  intros [Hm Hr]. unfold getValueForSigma, getDataMean, getDataRms.
  destruct (__dataMean this) eqn:Em; cbn; destruct (__dataRms this) eqn:Er; cbn;
    split; cbn; rewrite ?Em, ?Er; intros ? [= <-]; auto.
Qed.

(** [getValueForSigma( sigma )] is the mean of the samples plus [sigma]
    times their root mean square. *)
Lemma getValueForSigma_value (this : Volume num) (sigma : num) :
  statistics_valid this ->
  fst (getValueForSigma this (Some sigma))
  = (mean_of (__data this) + sigma * rms_of (__data this))%js.
Proof.
  intros [Hm Hr]. unfold getValueForSigma, getDataMean, getDataRms.
  destruct (__dataMean this) as [m|] eqn:Em; cbn; rewrite ?Em;
    destruct (__dataRms this) as [r|] eqn:Er; cbn;
    rewrite ?(Hm _ eq_refl), ?(Hr _ eq_refl); reflexivity.
Qed.

Lemma getSurface_isolevel (this : Volume num) isolevel smooth center' size :
  info_isolevel (fst (getSurface this isolevel smooth center' size))
  = if isNaN isolevel then fst (getValueForSigma this (Some 2%js)) else ToNumber isolevel.
Proof.
  unfold getSurface.
  destruct (isNaN isolevel); [destruct (getValueForSigma this (Some 2%js)) as [i t]|];
    cbn; destruct center' as [c|]; try destruct size as [s|]; cbn;
    try destruct (truthy s); reflexivity.
Qed.

Lemma getValueForSigma_again (this : Volume num) sigma :
  fst (getValueForSigma (snd (getValueForSigma this sigma)) sigma)
  = fst (getValueForSigma this sigma).
Proof.
  unfold getValueForSigma, getDataMean, getDataRms.
  destruct (__dataMean this) eqn:Hm; cbn; rewrite ?Hm; cbn;
    destruct (__dataRms this) eqn:Hr; cbn; rewrite ?Hm, ?Hr; reflexivity.
Qed.

Lemma getSurfaceWorker_isolevel (this : Volume num) isolevel smooth center' size :
  worker_isolevel (getSurfaceWorker this isolevel smooth center' size)
  = Some (if isNaN isolevel then fst (getValueForSigma this (Some 2%js))
          else ToNumber isolevel).
Proof.
  unfold getSurfaceWorker.
  destruct (isNaN isolevel) eqn:E.
  - pose proof (getValueForSigma_again this (Some 2%js)) as A.
    destruct (getValueForSigma this (Some 2%js)) as [i t]. cbn [fst snd] in *.
    destruct (Worker_defined && negb importScripts_is_function).
    + destruct (workerPool t); destruct (WorkerPool_getNextWorker _); cbn;
        rewrite ?last_snoc; reflexivity.
    + pose proof (getSurface_isolevel t (Some i) (Some (or_default smooth 0%js))
                    center' size) as S.
      destruct (getSurface t (Some i) _ center' size). cbn in *. rewrite S.
      destruct (num_isNaN i); congruence.
  - destruct isolevel as [a|]; [|discriminate]. cbn in E. cbn [ToNumber].
    destruct (Worker_defined && negb importScripts_is_function).
    + destruct (workerPool this); destruct (WorkerPool_getNextWorker _); cbn;
        rewrite ?last_snoc; reflexivity.
    + pose proof (getSurface_isolevel this (Some a) (Some (or_default smooth 0%js))
                    center' size) as S.
      destruct (getSurface this (Some a) _ center' size). cbn in *. rewrite S, E.
      reflexivity.
Qed.


(** ** [filterData] *)

(** Three, and one, writes at the end of the part of a buffer that is in
    use. *)
Lemma take_three_inserts (l : list num) (j : nat) (a b c : num) :
  j * 3 + 3 <= length l ->
  take (S j * 3) (<[j * 3 + 2 := c]> (<[j * 3 + 1 := b]> (<[j * 3 + 0 := a]> l)))
  = take (j * 3) l ++ [a; b; c].
Proof.
  intros H.
  replace (S j * 3) with (S (S (S (j * 3)))) by lia.
  set (l1 := <[j * 3 + 0 := a]> l).
  set (l2 := <[j * 3 + 1 := b]> l1).
  set (l3 := <[j * 3 + 2 := c]> l2).
  assert (L1 : length l1 = length l) by apply length_insert.
  assert (L2 : length l2 = length l) by (unfold l2; rewrite length_insert; exact L1).
  rewrite (take_S_r l3 (S (S (j * 3))) c).
  2:{ unfold l3. replace (j * 3 + 2) with (S (S (j * 3))) by lia.
      apply list_lookup_insert_eq. lia. }
  rewrite (take_S_r l3 (S (j * 3)) b).
  2:{ unfold l3. rewrite list_lookup_insert_ne by lia.
      unfold l2. replace (j * 3 + 1) with (S (j * 3)) by lia.
      apply list_lookup_insert_eq. lia. }
  rewrite (take_S_r l3 (j * 3) a).
  2:{ unfold l3, l2. rewrite !list_lookup_insert_ne by lia.
      unfold l1. replace (j * 3 + 0) with (j * 3) by lia.
      apply list_lookup_insert_eq. lia. }
  unfold l3, l2, l1. rewrite !take_insert_ge by lia.
  rewrite <- !app_assoc. reflexivity.
Qed.

Lemma take_insert_snoc (l : list num) (j : nat) (v : num) :
  j < length l -> take (S j) (<[j := v]> l) = take j l ++ [v].
Proof.
  intros H. rewrite (take_S_r _ j v) by (apply list_lookup_insert_eq; lia).
  rewrite take_insert_ge by lia. reflexivity.
Qed.

(** The loop of [filterData], started with [j] samples retained so far:
    it never fails when the positions are there, leaves the sizes of the
    two buffers alone, and appends what it retains, in order, after the
    [j] entries (the [3 j] coordinates) already in use. *)
(** The test of the loop is the test of the specification. *)
Lemma retained_passes (a b : num) (o : bool) (v : num) :
  retained a b o v = passes a b o v.
Proof.
  unfold retained, passes. rewrite andb_assoc. reflexivity.
Qed.

Lemma filter_loop_scan (positions : list num) a b o rest :
  forall i j fpos fdat,
    j + length rest <= length fdat -> (j + length rest) * 3 <= length fpos ->
    exists fpos' fdat',
      let kept := List.filter (passes a b o) rest in
      filter_loop (Some positions) a b o rest i j fpos fdat
      = Ok (j + length kept, fpos', fdat')
      /\ length fdat' = length fdat /\ length fpos' = length fpos
      /\ take (j + length kept) fdat' = take j fdat ++ (Math_fround <$> kept)
      /\ take ((j + length kept) * 3) fpos'
         = take (j * 3) fpos
           ++ (Math_fround <$> (retained_indices a b o rest i ≫= position_of positions)).
Proof.
  induction rest as [|v rest IH]; intros i j fpos fdat Hd Hp; cbn [length] in *.
  - exists fpos, fdat. cbn. rewrite Nat.add_0_r, !app_nil_r. repeat split.
  - cbn [filter_loop List.filter retained_indices]. rewrite retained_passes.
    destruct (passes a b o v).
    + destruct (IH (S i) (S j)
                  (<[j * 3 + 2 := Math_fround (typed_get positions (i * 3 + 2))]>
                     (<[j * 3 + 1 := Math_fround (typed_get positions (i * 3 + 1))]>
                        (<[j * 3 + 0 := Math_fround (typed_get positions (i * 3 + 0))]>
                           fpos)))
                  (<[j := Math_fround v]> fdat))
        as (fpos' & fdat' & E & L1 & L2 & T1 & T2);
        [ rewrite length_insert; lia | rewrite !length_insert; lia | ].
      exists fpos', fdat'. cbn zeta in *. cbn [length].
      replace (j + S (length (List.filter (passes a b o) rest)))
        with (S j + length (List.filter (passes a b o) rest)) by lia.
      rewrite E, L1, L2, T1, T2, !length_insert.
      rewrite take_insert_snoc by lia. rewrite take_three_inserts by lia.
      cbn [mbind list_bind]. rewrite fmap_app. unfold position_of at 2.
      cbn [fmap list_fmap]. rewrite <- !app_assoc. repeat split.
    + apply (IH (S i) j); lia.
Qed.

(** The samples retained are those at the indices retained. *)
Lemma retained_indices_values (a b : num) (o : bool) (samples : list num) :
  forall rest i, drop i samples = rest ->
    List.filter (passes a b o) rest
    = typed_get samples <$> retained_indices a b o rest i.
Proof.
  induction rest as [|v rest IH]; intros i Hdrop; [reflexivity|].
  assert (Hv : samples !! i = Some v).
  { rewrite <- (Nat.add_0_r i), <- lookup_drop, Hdrop. reflexivity. }
  assert (Hrest : drop (S i) samples = rest).
  { replace (S i) with (i + 1) by lia. rewrite <- drop_drop, Hdrop. reflexivity. }
  cbn [List.filter retained_indices].
  destruct (passes a b o v); [|exact (IH _ Hrest)].
  cbn [fmap list_fmap]. rewrite <- (IH _ Hrest). unfold typed_get at 1. rewrite Hv.
  reflexivity.
Qed.

Lemma elem_of_retained_indices (a b : num) (o : bool) (samples : list num) :
  forall rest i, drop i samples = rest ->
    forall k, k ∈ retained_indices a b o rest i
      <-> i <= k /\ exists v, samples !! k = Some v /\ passes a b o v = true.
Proof.
  induction rest as [|v rest IH]; intros i Hdrop k.
  - cbn. split; [intros H; inversion H|].
    intros [Hik [w [Hw _]]]. apply lookup_lt_Some in Hw.
    assert (length (drop i samples) = 0) by (rewrite Hdrop; reflexivity).
    rewrite length_drop in *. lia.
  - assert (Hv : samples !! i = Some v).
    { rewrite <- (Nat.add_0_r i), <- lookup_drop, Hdrop. reflexivity. }
    assert (Hrest : drop (S i) samples = rest).
    { replace (S i) with (i + 1) by lia. rewrite <- drop_drop, Hdrop. reflexivity. }
    cbn [retained_indices]. specialize (IH _ Hrest k).
    destruct (passes a b o v) eqn:R.
    + rewrite elem_of_cons, IH. split.
      * intros [-> | [Hik H]]; [|split; [lia|exact H]]. split; [lia|]. eauto.
      * intros [Hik (w & Hw & Rw)].
        destruct (decide (k = i)) as [->|]; [left; reflexivity|].
        right. split; [lia|]. eauto.
    + rewrite IH. split.
      * intros [Hik H]. split; [lia|exact H].
      * intros [Hik (w & Hw & Rw)]. split; [|eauto].
        destruct (decide (k = i)) as [->|]; [|lia]. congruence.
Qed.

(** The indices retained are in increasing order, from [i] on. *)
Lemma retained_indices_sorted (a b : num) (o : bool) (rest : list num) :
  forall i, StronglySorted lt (retained_indices a b o rest i)
            /\ Forall (le i) (retained_indices a b o rest i).
Proof.
  induction rest as [|v rest IH]; intros i; [split; constructor|].
  cbn [retained_indices]. destruct (IH (S i)) as [Hs F].
  assert (F' : Forall (le i) (retained_indices a b o rest (S i)))
    by (eapply Forall_impl; [exact F | cbn; intros; lia]).
  destruct (passes a b o v); [|split; assumption].
  split; constructor; try assumption. lia.
Qed.

Lemma isFinite_number (a : num) : isFinite a = true ->
  num_isNaN a = false /\ (a === Infinity)%js = false /\ (a === - Infinity)%js = false.
Proof.
  unfold isFinite. rewrite !andb_true_iff, !negb_true_iff. tauto.
Qed.

Lemma default_minValue_number (this : Volume num) (a : num) :
  num_isNaN a = false -> default_minValue this (Some a) = a.
Proof.
  intros H. unfold default_minValue, isNaN. destruct (header this); rewrite H; cbn; rewrite ?H; reflexivity.
Qed.

(** C7. The general path of [filterData]: for finite [minValue] and
    [maxValue] that are not the triple already applied, on a volume whose
    position cache and backing buffers are those of its current samples,
    the call succeeds; sample [k] is retained exactly when
    [(!outside && minValue <= v_k <= maxValue)
     || (outside && (v_k < minValue || v_k > maxValue))];
    the retained values and the positions of the same samples are written,
    as binary32 numbers and in index order, at the front of the two backing
    buffers, which keep their size; and the two views are the first [count]
    values and the first [3 count] coordinates of those buffers. *)
Theorem filterData_scan (this : Volume num) (a b : num) (o : bool) :
  isFinite a = true -> isFinite b = true ->
  triple_matches this a b o = false -> positions_ready this -> buffers_fit this ->
  exists this' positions buffer pbuffer,
    let indices := retained_indices a b o (__data this) 0 in
    let count := length indices in
    filterData this (Some a) (Some b) (Some o) = Ok (this', scanned)
    /\ __data this' = __data this
    /\ __dataPosition this' = Some positions
    /\ (forall k, k ∈ indices
          <-> exists v, __data this !! k = Some v
                /\ (negb o && ((a <=? v)%js && (v <=? b)%js)
                    || o && ((v <? a)%js || (b <? v)%js)) = true)
    /\ StronglySorted lt indices
    /\ data this' = Math_fround <$> (typed_get (__data this) <$> indices)
    /\ dataPosition this' = Some (Math_fround <$> (indices ≫= position_of positions))
    /\ __dataBuffer this' = Some buffer /\ __dataPositionBuffer this' = Some pbuffer
    /\ length buffer = length (__data this)
    /\ length pbuffer = length (__data this) * 3
    /\ data this' = take count buffer
    /\ dataPosition this' = Some (take (count * 3) pbuffer)
    /\ length (data this') = count
    /\ length (indices ≫= position_of positions) = count * 3.
Proof.
  intros Fa Fb Hnew Hpos Hbuf.
  apply isFinite_number in Fa as (Na & _ & Fa).
  apply isFinite_number in Fb as (Nb & _ & _).
  unfold filterData. rewrite (default_minValue_number this a Na).
  unfold default_maxValue, default_outside. cbn [default from_option id].
  set (this0 := if dataPosition this is Some _ then this else makeDataPosition this).
  assert (H0 : __data this0 = __data this /\ __minValue this0 = __minValue this
               /\ __maxValue this0 = __maxValue this /\ __outside this0 = __outside this
               /\ __dataBuffer this0 = __dataBuffer this
               /\ __dataPositionBuffer this0 = __dataPositionBuffer this
               /\ is_Some (__dataPosition this0)).
  { unfold this0. destruct Hpos as [E | S].
    - rewrite E. cbn. repeat split. eauto.
    - destruct (dataPosition this); cbn; repeat split; eauto. }
  destruct H0 as (D0 & M0 & X0 & O0 & B0 & P0 & [positions S0]).
  fold (triple_matches this0 a b o).
  replace (triple_matches this0 a b o) with false
    by (unfold triple_matches in *; rewrite M0, X0, O0; symmetry; exact Hnew).
  rewrite Fa. cbn [andb]. rewrite S0, D0.
  set (this1 := if __dataBuffer this0 is Some _ then this0 else _).
  assert (H1 : __data this1 = __data this /\ __dataPosition this1 = Some positions
               /\ exists buffer0 pbuffer0,
                    __dataBuffer this1 = Some buffer0
                    /\ __dataPositionBuffer this1 = Some pbuffer0
                    /\ length buffer0 = length (__data this)
                    /\ length pbuffer0 = length (__data this) * 3).
  { unfold buffers_fit in Hbuf. rewrite <- B0, <- P0 in Hbuf. unfold this1.
    destruct (__dataBuffer this0) as [buffer0|] eqn:EB.
    - destruct (__dataPositionBuffer this0) as [pbuffer0|] eqn:EP; [|contradiction].
      split; [exact D0|]. split; [exact S0|]. exists buffer0, pbuffer0. tauto.
    - cbn. split; [exact D0|]. split; [exact S0|].
      eexists _, _. split; [reflexivity|]. split; [reflexivity|].
      split; apply length_replicate. }
  destruct H1 as (D1 & S1 & buffer0 & pbuffer0 & B1 & P1 & LB & LP).
  rewrite B1, P1. cbn [default from_option id].
  destruct (filter_loop_scan positions a b o (__data this) 0 0 pbuffer0 buffer0)
    as (pbuffer & buffer & E & LB' & LP' & TB & TP); [cbn; lia | cbn; lia |].
  cbn zeta in E. cbn [Nat.add Nat.mul] in E, TB, TP. rewrite take_0 in TB, TP.
  cbn [app] in TB, TP.
  rewrite E.
  pose proof (retained_indices_values a b o (__data this) (__data this) 0 eq_refl) as V.
  pose proof (elem_of_retained_indices a b o (__data this) (__data this) 0 eq_refl) as I.
  assert (C : length (List.filter (passes a b o) (__data this))
              = length (retained_indices a b o (__data this) 0))
    by (rewrite V; apply length_fmap).
  assert (K : length (List.filter (passes a b o) (__data this)) <= length (__data this)).
  { clear. induction (__data this) as [|v l IH]; cbn; [lia|].
    destruct (passes a b o v); cbn; lia. }
  replace ((_ <=? length pbuffer) && (_ <=? length buffer)) with true.
  2:{ symmetry. apply andb_true_iff. split; apply Nat.leb_le; lia. }
  eexists _, positions, buffer, pbuffer. cbn zeta. split; [reflexivity|].
  cbn.
  split; [exact D1|]. split; [exact S1|].
  split; [intros k; rewrite I; split; [tauto | intros H; split; [lia | exact H]] |].
  split; [apply (retained_indices_sorted a b o (__data this) 0)|].
  split; [rewrite TB, V; reflexivity|].
  split; [rewrite TP; reflexivity|].
  split; [reflexivity|]. split; [reflexivity|].
  split; [lia|]. split; [lia|].
  split; [rewrite C; reflexivity|].
  split; [rewrite C; reflexivity|].
  split; [rewrite TB, V, !length_fmap; reflexivity|].
  rewrite <- (length_fmap Math_fround), <- TP, length_take_le, C; lia.
Qed.

Lemma ensure_dataPosition_same (this : Volume num) :
  let this0 := ensure_dataPosition this in
  __data this0 = __data this /\ data this0 = data this
  /\ __minValue this0 = __minValue this /\ __maxValue this0 = __maxValue this
  /\ __outside this0 = __outside this /\ header this0 = header this
  /\ is_Some (dataPosition this0)
  /\ (is_Some (dataPosition this) -> this0 = this).
Proof.
  unfold ensure_dataPosition. destruct (dataPosition this) eqn:E; cbn.
  - rewrite E. repeat split; eauto.
  - repeat split; eauto. intros [? ?]. discriminate.
Qed.

Lemma not_NaN_equals (x : num) :
  let g := if num_isNaN x then (- Infinity)%js else x in (g === g)%js = true.
Proof.
  cbn zeta. destruct (num_isNaN x) eqn:E; [apply neg_Infinity_equals|].
  unfold num_isNaN in E. destruct (x === x)%js; [reflexivity|discriminate].
Qed.

Lemma default_minValue_equals (this : Volume num) minValue :
  let a := default_minValue this minValue in (a === a)%js = true.
Proof.
  unfold default_minValue.
  destruct (header this); [destruct (isNaN minValue)|]; cbn zeta;
    try destruct minValue; first [apply not_NaN_equals | apply neg_Infinity_equals].
Qed.

Lemma bool_equals_refl (o : bool) : bool_equals o (Some o) = true.
Proof. destruct o; reflexivity. Qed.

(** The two hypotheses of the general path hold in a new volume, and a
    call of [filterData] that returns keeps them. *)
Lemma Volume_new_ready name' path' data' nx' ny' nz' dataAtomindex' :
  let this := fst (Volume_new (num:=num) name' path' data' nx' ny' nz' dataAtomindex') in
  positions_ready this /\ buffers_fit this.
Proof.
  unfold Volume_new, setData, positions_ready, buffers_fit.
  destruct (small_enough _); cbn; destruct (small_enough _); cbn; auto.
Qed.

Lemma filterData_keeps_ready (this this' : Volume num) minValue maxValue outside branch :
  positions_ready this -> buffers_fit this ->
  filterData this minValue maxValue outside = Ok (this', branch) ->
  positions_ready this' /\ buffers_fit this'.
Proof.
  intros Hpos Hbuf. unfold filterData. fold (ensure_dataPosition this).
  set (this0 := ensure_dataPosition this).
  assert (H0 : __data this0 = __data this
               /\ __dataBuffer this0 = __dataBuffer this
               /\ __dataPositionBuffer this0 = __dataPositionBuffer this
               /\ is_Some (__dataPosition this0)).
  { unfold this0, ensure_dataPosition. destruct Hpos as [E | S].
    - rewrite E. cbn. repeat split. eauto.
    - destruct (dataPosition this); cbn; repeat split; eauto. }
  destruct H0 as (D0 & B0 & P0 & [positions S0]).
  assert (R0 : positions_ready this0 /\ buffers_fit this0).
  { split; [right; rewrite S0; eauto|].
    unfold buffers_fit in *. rewrite B0, P0, D0. exact Hbuf. }
  destruct (_ && _ && _); [intros [= <- <-]; exact R0|].
  destruct (_ && _).
  - intros [= <- <-]. split.
    + right. cbn. rewrite S0. eauto.
    + unfold buffers_fit in *. cbn. tauto.
  - set (this1 := if __dataBuffer this0 is Some _ then this0 else _).
    assert (H1 : exists buffer0 pbuffer0,
               __dataBuffer this1 = Some buffer0
               /\ __dataPositionBuffer this1 = Some pbuffer0
               /\ length buffer0 = length (__data this)
               /\ length pbuffer0 = length (__data this) * 3).
    { destruct R0 as [_ F]. unfold buffers_fit in F. rewrite D0 in F. unfold this1.
      destruct (__dataBuffer this0) as [buffer0|] eqn:EB.
      - destruct (__dataPositionBuffer this0) as [pbuffer0|] eqn:EP; [|contradiction].
        exists buffer0, pbuffer0. tauto.
      - cbn. eexists _, _. split; [reflexivity|]. split; [reflexivity|].
        rewrite !length_replicate, D0. split; reflexivity. }
    destruct H1 as (buffer0 & pbuffer0 & B1 & P1 & LB & LP).
    rewrite B1, P1, S0, D0. cbn [default from_option id].
    destruct (filter_loop_scan positions (default_minValue this minValue)
                (default_maxValue maxValue) (default_outside outside)
                (__data this) 0 0 pbuffer0 buffer0)
      as (pbuffer & buffer & E & LB' & LP' & _); [cbn; lia | cbn; lia |].
    cbn zeta in E. rewrite E.
    destruct (_ && _); [|discriminate].
    intros [= <- <-]. split.
    + right. cbn. unfold this1. destruct (__dataBuffer this0); cbn; rewrite S0; eauto.
    + unfold buffers_fit. cbn.
      assert (D1 : __data this1 = __data this)
        by (unfold this1; destruct (__dataBuffer this0); cbn; exact D0).
      rewrite D1. lia.
Qed.

(** The two ways a call of [filterData] can go. *)
Lemma filterData_cases (this : Volume num) minValue maxValue outside :
  let a := default_minValue this minValue in
  let b := default_maxValue maxValue in
  let o := default_outside outside in
  (triple_matches this a b o = true
   /\ filterData this minValue maxValue outside
      = Ok (ensure_dataPosition this, already_filtered))
  \/ (triple_matches this a b o = false
      /\ forall this1 branch,
           filterData this minValue maxValue outside = Ok (this1, branch) ->
           branch <> already_filtered
           /\ __minValue this1 = Some a /\ __maxValue this1 = Some b
           /\ __outside this1 = Some o /\ header this1 = header this
           /\ __data this1 = __data this).
Proof.
  intros a b o.
  destruct (ensure_dataPosition_same this) as (D0 & _ & M0 & X0 & O0 & H0 & _).
  unfold filterData. fold (ensure_dataPosition this). fold a b o.
  fold (triple_matches (ensure_dataPosition this) a b o).
  replace (triple_matches (ensure_dataPosition this) a b o) with (triple_matches this a b o)
    by (unfold triple_matches; rewrite M0, X0, O0; reflexivity).
  destruct (triple_matches this a b o); [left; split; reflexivity|right].
  split; [reflexivity|]. intros this1 branch.
  destruct ((a === - Infinity)%js && (b === Infinity)%js).
  - intros [= <- <-]. cbn. repeat split; try assumption. discriminate.
  - destruct (filter_loop _ _ _ _ _ _ _ _ _) as [[[j fp] fd]|]; [|discriminate].
    destruct (_ && _); [|discriminate].
    intros [= <- <-]. cbn.
    destruct (__dataBuffer (ensure_dataPosition this)); cbn;
      repeat split; try assumption; discriminate.
Qed.

Lemma filterData_skipped_iff (this : Volume num) minValue maxValue outside :
  (exists this', filterData this minValue maxValue outside = Ok (this', already_filtered))
  <-> triple_matches this (default_minValue this minValue) (default_maxValue maxValue)
        (default_outside outside) = true.
Proof.
  destruct (filterData_cases this minValue maxValue outside) as [[M E] | [M E]].
  - split; [intros _; exact M | intros _; eauto].
  - rewrite M. split; [|discriminate].
    intros [this' E']. destruct (E _ _ E') as [N _]. contradiction.
Qed.

Lemma filterData_skipped_same (this this' : Volume num) minValue maxValue outside :
  filterData this minValue maxValue outside = Ok (this', already_filtered) ->
  data this' = data this /\ __data this' = __data this
  /\ (is_Some (dataPosition this) -> this' = this).
Proof.
  intros E.
  destruct (filterData_cases this minValue maxValue outside) as [[M E'] | [M E']].
  - rewrite E' in E. injection E as <-.
    destruct (ensure_dataPosition_same this) as (D0 & D1 & _ & _ & _ & _ & _ & S).
    auto.
  - destruct (E' _ _ E) as [N _]. contradiction.
Qed.

(** C6, as amended. After a call of [filterData] the volume remembers the
    triple that call requested (after defaults); the next call is skipped
    exactly when its own triple, after defaults, is equal to the remembered
    one under JavaScript's equality of numbers, and a skipped call leaves
    the views as they are.  A call repeated with the same arguments is
    therefore skipped when [maxValue] is a number other than NaN; when
    [maxValue] is NaN the repeated call is computed again. *)
Theorem filterData_skips (this this1 : Volume num) minValue maxValue outside branch :
  filterData this minValue maxValue outside = Ok (this1, branch) ->
  let a := default_minValue this minValue in
  let b := default_maxValue maxValue in
  let o := default_outside outside in
  (branch <> already_filtered ->
     __minValue this1 = Some a /\ __maxValue this1 = Some b /\ __outside this1 = Some o)
  /\ (branch = already_filtered -> triple_matches this1 a b o = true)
  /\ (forall minValue' maxValue' outside',
        (exists this2,
            filterData this1 minValue' maxValue' outside' = Ok (this2, already_filtered))
        <-> triple_matches this1 (default_minValue this1 minValue')
              (default_maxValue maxValue') (default_outside outside') = true)
  /\ (forall minValue' maxValue' outside' this2,
        filterData this1 minValue' maxValue' outside' = Ok (this2, already_filtered) ->
        data this2 = data this1 /\ __data this2 = __data this1
        /\ (is_Some (dataPosition this1) -> this2 = this1))
  /\ (num_isNaN b = false ->
        exists this2,
          filterData this1 minValue maxValue outside = Ok (this2, already_filtered))
  /\ (num_isNaN b = true -> branch <> already_filtered ->
        forall this2 branch2,
          filterData this1 minValue maxValue outside = Ok (this2, branch2) ->
          branch2 <> already_filtered).
Proof.
  intros E a b o.
  assert (Hh : header this1 = header this
               /\ (branch <> already_filtered ->
                   __minValue this1 = Some a /\ __maxValue this1 = Some b
                   /\ __outside this1 = Some o)
               /\ (branch = already_filtered -> triple_matches this1 a b o = true)).
  { destruct (filterData_cases this minValue maxValue outside) as [[M E'] | [M E']].
    - rewrite E' in E. injection E as <- <-.
      destruct (ensure_dataPosition_same this) as (_ & _ & M0 & X0 & O0 & H0 & _).
      split; [exact H0|]. split; [intros N; contradiction|]. intros _.
      unfold triple_matches in *. rewrite M0, X0, O0. exact M.
    - destruct (E' _ _ E) as (N & M1 & X1 & O1 & H1 & _).
      split; [exact H1|]. split; [auto|]. intros ->. contradiction. }
  destruct Hh as (Hh & R & S).
  assert (Ha : default_minValue this1 minValue = a)
    by (unfold a, default_minValue; rewrite Hh; reflexivity).
  split; [exact R|]. split; [exact S|].
  split; [intros; apply filterData_skipped_iff|].
  split; [intros ? ? ? ?; apply filterData_skipped_same|].
  split.
  - intros Nb. apply filterData_skipped_iff. rewrite Ha. fold b o.
    destruct branch; [auto| |];
      (destruct R as (M1 & X1 & O1); [discriminate|];
       unfold triple_matches; rewrite M1, X1, O1; cbn [num_equals];
       unfold a at 1 2;
       rewrite (default_minValue_equals this minValue), bool_equals_refl;
       unfold num_isNaN in Nb; destruct (b === b)%js; [reflexivity|discriminate]).
  - intros Nb N this2 branch2 E2 ->.
    assert (M : triple_matches this1 a b o = true).
    { rewrite <- Ha. apply filterData_skipped_iff. eauto. }
    destruct (R N) as (M1 & X1 & O1). unfold triple_matches in M.
    rewrite X1 in M. cbn [num_equals] in M. unfold num_isNaN in Nb.
    destruct (b === b)%js; [discriminate|].
    rewrite andb_false_r in M. discriminate.
Qed.

(** ** [filterData] after [setData] *)

(** Without positions the loop fails at the first sample it retains. *)
Lemma filter_loop_without_positions (a b : num) (o : bool) (rest : list num) :
  forall i j fpos fdat,
    filter_loop None a b o rest i j fpos fdat
    = if existsb (retained a b o) rest then Throw TypeError else Ok (j, fpos, fdat).
Proof.
  induction rest as [|v rest IH]; intros i j fpos fdat; [reflexivity|].
  cbn [filter_loop existsb]. destruct (retained a b o v); [reflexivity|]. apply IH.
Qed.

(** C3. Once [filterData] has run, [this.dataPosition] is set, and
    [setData] deletes [this.__dataPosition] only.  The next [filterData]
    therefore computes no positions: on the general path it throws at the
    first sample it retains, and on the unfiltered path it leaves the
    volume without positions. *)
Theorem filterData_after_setData (this : Volume num) data' nx' ny' nz' dataAtomindex'
    (a b : num) (o : bool) :
  is_Some (dataPosition this) ->
  isFinite a = true -> isFinite b = true ->
  existsb (retained a b o) (default [0%js] data') = true ->
  let reset := fst (setData this data' nx' ny' nz' dataAtomindex') in
  dataPosition reset = dataPosition this /\ __dataPosition reset = None
  /\ filterData reset (Some a) (Some b) (Some o) = Throw TypeError
  /\ exists this',
       filterData reset (Some (- Infinity)%js) (Some Infinity) (Some false)
       = Ok (this', unfiltered)
       /\ dataPosition this' = None /\ __dataPosition this' = None.
Proof.
  intros [p Hp] Fa Fb Hsome. cbn zeta.
  generalize (setData_fst this data' nx' ny' nz' dataAtomindex'),
    (setData_caches this data' nx' ny' nz' dataAtomindex'),
    (setData_untouched this data' nx' ny' nz' dataAtomindex').
  cbn zeta. generalize (fst (setData this data' nx' ny' nz' dataAtomindex')).
  intros reset (_ & _ & _ & D & _) (_ & M & X & PB & P & B & _)
    (_ & _ & _ & _ & _ & _ & _ & DP & _).
  rewrite Hp in DP.
  split; [congruence|]. split; [exact P|].
  apply isFinite_number in Fa as (Na & _ & Fa).
  assert (Ni : num_isNaN (- Infinity)%js = false)
    by (unfold num_isNaN; rewrite neg_Infinity_equals; reflexivity).
  unfold filterData.
  rewrite (default_minValue_number reset a Na), (default_minValue_number reset _ Ni).
  unfold default_maxValue, default_outside.
  cbn [default from_option id]. rewrite DP, P, M, D, B. cbn [num_equals andb].
  rewrite Fa, neg_Infinity_equals, Infinity_equals. cbn [andb].
  split.
  - rewrite filter_loop_without_positions, Hsome. reflexivity.
  - eexists. split; [reflexivity|]. split; [reflexivity|]. cbn. exact P.
Qed.

End Volume_proofs.

(** ** The normal matrix and the inverse *)

Section Transform_proofs.
Context {num : Type} {NUM : Number num}.

(** The entries of the normal matrix are the cofactors of the linear
    part. *)
Lemma setMatrix_normalMatrix (this : Volume num) (m : THREE.Matrix4 num) (i j : nat) :
  i < 3 -> j < 3 ->
  entry3 (normalMatrix (setMatrix this m)) i j = cofactor3 (linear_part m) i j.
Proof.
  intros Hi Hj. destruct m as [e].
  destruct i as [|[|[|i]]]; [| | |lia]; (destruct j as [|[|[|j]]]; [| | |lia]);
    reflexivity.
Qed.

(** The box is the transformed box of the eight corners, in the order in
    which [setMatrix] visits them, and the center is the center of the
    box. *)
Lemma setMatrix_boundingBox (this : Volume num) (m : THREE.Matrix4 num) :
  let x := num_of_Z (Z.of_N (nx this) - 1) in
  let y := num_of_Z (Z.of_N (ny this) - 1) in
  let z := num_of_Z (Z.of_N (nz this) - 1) in
  boundingBox (setMatrix this m)
  = THREE.Box3_applyMatrix4
      (THREE.Box3_setFromPoints
         [ THREE.Vector3_set x y z; THREE.Vector3_set x y 0%js;
           THREE.Vector3_set x 0%js z; THREE.Vector3_set x 0%js 0%js;
           THREE.Vector3_set 0%js y z; THREE.Vector3_set 0%js 0%js z;
           THREE.Vector3_set 0%js y 0%js; THREE.Vector3_set 0%js 0%js 0%js ]) m
  /\ center (setMatrix this m) = THREE.Box3_center (boundingBox (setMatrix this m)).
Proof. destruct m. split; reflexivity. Qed.

(** The transformed box of a box is the box of its eight transformed
    corners. *)
Lemma applyMatrix4_bounding_box (lo hi : point) (m : THREE.Matrix4 num) :
  THREE.Box3_applyMatrix4 (Box3_of (lo, hi)) m
  = Box3_of
      (bounding_box
         (transformed m <$>
            [ (fst (fst lo), snd (fst lo), snd lo); (fst (fst lo), snd (fst lo), snd hi);
              (fst (fst lo), snd (fst hi), snd lo); (fst (fst lo), snd (fst hi), snd hi);
              (fst (fst hi), snd (fst lo), snd lo); (fst (fst hi), snd (fst lo), snd hi);
              (fst (fst hi), snd (fst hi), snd lo); (fst (fst hi), snd (fst hi), snd hi) ])).
Proof. destruct lo as [[lx ly] lz], hi as [[hx hy] hz]. reflexivity. Qed.


End Transform_proofs.

(** ** On binary64 numbers *)

(** *** The order of the numbers that count grid points *)

Lemma shr_1_nonnegative (mrs : SpecFloat.shr_record) :
  (0 <= SpecFloat.shr_m mrs)%Z -> (0 <= SpecFloat.shr_m (SpecFloat.shr_1 mrs))%Z.
Proof.
  destruct mrs as [m r s]. destruct m as [|[p|p|]|[p|p|]]; cbn; lia.
Qed.

Lemma iter_shr_1_nonnegative (p : positive) :
  forall mrs, (0 <= SpecFloat.shr_m mrs)%Z ->
    (0 <= SpecFloat.shr_m (SpecFloat.iter_pos SpecFloat.shr_1 p mrs))%Z.
Proof.
  induction p as [p IH|p IH|]; intros mrs H; cbn.
  - apply IH, IH, shr_1_nonnegative, H.
  - apply IH, IH, H.
  - apply shr_1_nonnegative, H.
Qed.

Lemma shr_fexp_nonnegative (prec emax m e : Z) (l : SpecFloat.location) :
  (0 <= m)%Z -> (0 <= SpecFloat.shr_m (fst (SpecFloat.shr_fexp prec emax m e l)))%Z.
Proof.
  intros H. unfold SpecFloat.shr_fexp, SpecFloat.shr.
  assert (R : (0 <= SpecFloat.shr_m (SpecFloat.shr_record_of_loc m l))%Z)
    by (destruct l as [|[]]; exact H).
  destruct (_ - e)%Z; cbn [fst]; [exact R | apply iter_shr_1_nonnegative, R | exact R].
Qed.

Lemma binary_round_aux_nonnegative (prec emax mx ex : Z) (lx : SpecFloat.location) :
  (0 <= mx)%Z -> nonnegative (SpecFloat.binary_round_aux prec emax false mx ex lx).
Proof.
  intros H. unfold SpecFloat.binary_round_aux.
  pose proof (shr_fexp_nonnegative prec emax mx ex lx H) as H1.
  destruct (SpecFloat.shr_fexp prec emax mx ex lx) as [mrs' e']. cbn [fst] in H1.
  assert (H2 : (0 <= SpecFloat.round_nearest_even (SpecFloat.shr_m mrs')
                       (SpecFloat.loc_of_shr_record mrs'))%Z).
  { unfold SpecFloat.round_nearest_even.
    destruct (SpecFloat.loc_of_shr_record mrs') as [|[]]; try destruct (Z.even _); lia. }
  pose proof (shr_fexp_nonnegative prec emax _ e' SpecFloat.loc_Exact H2) as H3.
  destruct (SpecFloat.shr_fexp prec emax _ e' SpecFloat.loc_Exact) as [mrs'' e''].
  cbn [fst] in H3. destruct (SpecFloat.shr_m mrs''); [exact I | | lia].
  destruct (_ <=? _)%Z; exact I.
Qed.

Lemma float_of_Z_nonnegative (z : Z) : (0 <= z)%Z -> nonnegative (Prim2SF (float_of_Z z)).
Proof.
  intros H. destruct z as [|p|p]; [exact I | | lia].
  unfold float_of_Z. rewrite of_uint63_spec. unfold SpecFloat.binary_normalize.
  destruct (Uint63.to_Z _) as [|q|q] eqn:E; [exact I | |].
  - unfold SpecFloat.binary_round. destruct (SpecFloat.shl_align _ _ _) as [mz ez].
    apply binary_round_aux_nonnegative. lia.
  - pose proof (Uint63.to_Z_bounded (Uint63.of_Z (Z.pos p))). lia.
Qed.

(** What [Math.min] and [Math.max] make of such a number, of itself and
    of 0. *)
Lemma float_min_max_nonnegative (a : float) :
  nonnegative (Prim2SF a) ->
  float_min PrimFloat.infinity a = a /\ float_min a a = a
  /\ float_min a 0 = 0%float /\ float_min 0 a = 0%float
  /\ float_max PrimFloat.neg_infinity a = a /\ float_max a a = a
  /\ float_max a 0 = a.
Proof.
  intros H.
  assert (C : a = 0%float \/ a = PrimFloat.infinity
              \/ exists m e, Prim2SF a = S754_finite false m e).
  { destruct (Prim2SF a) as [[]|[]| |[] m e] eqn:E; try contradiction.
    - left. rewrite <- (SF2Prim_Prim2SF a), E. reflexivity.
    - right. left. rewrite <- (SF2Prim_Prim2SF a), E. reflexivity.
    - right. right. eauto. }
  destruct C as [-> | [-> | (m & e & E)]]; [repeat split .. |].
  assert (N : PrimFloat.is_nan a = false).
  { unfold PrimFloat.is_nan. rewrite FloatAxioms.eqb_spec, E. cbn.
    rewrite Z.compare_refl, Pos.compare_refl. reflexivity. }
  assert (L1 : PrimFloat.ltb PrimFloat.infinity a = false)
    by (rewrite ltb_spec, E; reflexivity).
  assert (L2 : PrimFloat.ltb a a = false).
  { rewrite ltb_spec, E. cbn. rewrite Z.compare_refl, Pos.compare_refl. reflexivity. }
  assert (L3 : PrimFloat.ltb a 0 = false) by (rewrite ltb_spec, E; reflexivity).
  assert (L4 : PrimFloat.ltb 0 a = true) by (rewrite ltb_spec, E; reflexivity).
  assert (L5 : PrimFloat.ltb PrimFloat.neg_infinity a = true)
    by (rewrite ltb_spec, E; reflexivity).
  unfold float_min, float_max. rewrite N, L1, L2, L3, L4, L5. cbn -[PrimFloat.get_sign].
  destruct (PrimFloat.ltb a PrimFloat.infinity), (PrimFloat.get_sign a); repeat split.
Qed.

(** One more point in a box. *)
Lemma expandByPoint_set (a b c d e f p q r : float) :
  THREE.Box3_expandByPoint
    (THREE.mkBox3 (THREE.Vector3_set a b c) (THREE.Vector3_set d e f))
    (THREE.Vector3_set p q r)
  = THREE.mkBox3 (THREE.Vector3_set (float_min a p) (float_min b q) (float_min c r))
      (THREE.Vector3_set (float_max d p) (float_max e q) (float_max f r)).
Proof. reflexivity. Qed.

(** The box of the eight corners of a grid: from the origin to the last
    grid point. *)
Lemma grid_box (x y z : float) :
  nonnegative (Prim2SF x) -> nonnegative (Prim2SF y) -> nonnegative (Prim2SF z) ->
  THREE.Box3_setFromPoints
    [ THREE.Vector3_set x y z; THREE.Vector3_set x y 0%js;
      THREE.Vector3_set x 0%js z; THREE.Vector3_set x 0%js 0%js;
      THREE.Vector3_set 0%js y z; THREE.Vector3_set 0%js 0%js z;
      THREE.Vector3_set 0%js y 0%js; THREE.Vector3_set 0%js 0%js 0%js ]
  = Box3_of ((0, 0, 0), (x, y, z))%js.
Proof.
  intros Hx Hy Hz. unfold Box3_of, Vector3_of. cbn [fst snd].
  change (@num_of_Z float float_Number 0%Z) with 0%float.
  destruct (float_min_max_nonnegative x Hx) as (X1 & X2 & X3 & X4 & X5 & X6 & X7).
  destruct (float_min_max_nonnegative y Hy) as (Y1 & Y2 & Y3 & Y4 & Y5 & Y6 & Y7).
  destruct (float_min_max_nonnegative z Hz) as (Z1 & Z2 & Z3 & Z4 & Z5 & Z6 & Z7).
  assert (O : float_min 0 0 = 0%float) by reflexivity.
  unfold THREE.Box3_setFromPoints. cbn [fold_left].
  change THREE.Box3_makeEmpty
    with (THREE.mkBox3
            (THREE.Vector3_set PrimFloat.infinity PrimFloat.infinity PrimFloat.infinity)
            (THREE.Vector3_set PrimFloat.neg_infinity PrimFloat.neg_infinity
               PrimFloat.neg_infinity)).
  rewrite expandByPoint_set, X1, Y1, Z1, X5, Y5, Z5.
  rewrite expandByPoint_set, X2, Y2, Z3, X6, Y6, Z7.
  rewrite expandByPoint_set, X2, Y3, Z4, X6, Y7, Z6.
  rewrite expandByPoint_set, X2, O, X6, Y7, Z7.
  rewrite expandByPoint_set, X3, Y4, Z4, X7, Y6, Z6.
  rewrite expandByPoint_set, O, Z4, X7, Y7, Z6.
  rewrite expandByPoint_set, O, Y4, X7, Y6, Z7.
  rewrite expandByPoint_set, O, X7, Y7, Z7.
  reflexivity.
Qed.

Lemma Box3_center_midpoint (b : point (num:=float) * point (num:=float)) :
  THREE.Box3_center (Box3_of b) = Vector3_of (midpoint b).
Proof. destruct b as [[[lx ly] lz] [[hx hy] hz]]. reflexivity. Qed.

Lemma extent_nonnegative (n : N) :
  n <> 0%N -> nonnegative (Prim2SF (num_of_Z (Z.of_N n - 1))).
Proof.
  intros H. change (nonnegative (Prim2SF (float_of_Z (Z.of_N n - 1)))).
  apply float_of_Z_nonnegative. lia.
Qed.

(** *** Products with 0 *)

Lemma zero_mul_is_zero_or_NaN (a : float) : zero_or_NaN (Prim2SF (0 * a)%float).
Proof.
  unfold zero_or_NaN. rewrite FloatAxioms.mul_spec.
  destruct (Prim2SF a) as [[]|[]| |[] m e]; vm_compute; auto.
Qed.

Lemma zero_or_NaN_add (a b : float) :
  zero_or_NaN (Prim2SF a) -> zero_or_NaN (Prim2SF b) -> zero_or_NaN (Prim2SF (a + b)%float).
Proof.
  unfold zero_or_NaN. rewrite FloatAxioms.add_spec.
  intros [-> | [-> | ->]] [-> | [-> | ->]]; vm_compute; auto.
Qed.



(** C10, as amended. [setData] without samples makes the canonical data
    the one-element array [[0]].  Each extent is the one given, and 1 where
    none (or 0) is given, whether there are samples or not: without
    extents [nx], [ny] and [nz] are 1.  The four statistics of a volume
    without samples are 0. *)
Theorem default_volume_statistics (this : Volume float) nx' ny' nz' dataAtomindex' :
  let some := fst (setData this None nx' ny' nz' dataAtomindex') in
  let none := fst (setData this None None None None dataAtomindex') in
  let given (n : option N) :=
    match n with Some n => if (n =? 0)%N then 1%N else n | None => 1%N end in
  __data some = [0%float] /\ data some = [0%float]
  /\ nx some = given nx' /\ ny some = given ny' /\ nz some = given nz'
  /\ nx none = 1%N /\ ny none = 1%N /\ nz none = 1%N
  /\ fst (getDataMin some) = 0%float /\ fst (getDataMax some) = 0%float
  /\ fst (getDataMean some) = 0%float /\ fst (getDataRms some) = 0%float.
Proof.
  cbn zeta.
  assert (G : forall n, extent_or_1 n = match n with
                                        | Some n => if (n =? 0)%N then 1%N else n
                                        | None => 1%N
                                        end)
    by (intros [[|p]|]; reflexivity).
  destruct (setData_fst this None None None None dataAtomindex') as (X & Y & Z & _).
  generalize (setData_fst this None nx' ny' nz' dataAtomindex'),
    (setData_caches this None nx' ny' nz' dataAtomindex').
  cbn zeta. generalize (fst (setData this None nx' ny' nz' dataAtomindex')).
  intros some (X' & Y' & Z' & D & D' & _) (_ & _ & _ & _ & _ & _ & Mi & Ma & Me & Rm).
  unfold getDataMin, getDataMax, getDataMean, getDataRms.
  rewrite Mi, Ma, Me, Rm, D, D', X', Y', Z', !G. cbn [default from_option].
  repeat split; assumption.
Qed.

(** C10, counterexample: without samples but with the extents 5, 4 and 3,
    the canonical data is [[0]] and the extents are 5, 4 and 3, not 1. *)
Lemma default_volume_keeps_extents :
  let this := fst (setData volume_2x2x2 None (Some 5%N) (Some 4%N) (Some 3%N) None) in
  __data this = [0%float]
  /\ (nx this, ny this, nz this) = (5%N, 4%N, 3%N)
  /\ nx this <> 1%N /\ ny this <> 1%N /\ nz this <> 1%N.
Proof. vm_compute. repeat split; discriminate. Qed.

(** The same for [new Volume()]. *)
Lemma new_Volume_statistics :
  let this := fst (Volume_new (num:=float) None None None None None None None) in
  __data this = [0%float] /\ nx this = 1%N /\ ny this = 1%N /\ nz this = 1%N
  /\ fst (getDataMin this) = 0%float /\ fst (getDataMax this) = 0%float
  /\ fst (getDataMean this) = 0%float /\ fst (getDataRms this) = 0%float.
Proof. vm_compute. repeat split. Qed.

(** C1, an instance: a 2x2x2 grid under the identity has the box from
    (0, 0, 0) to (1, 1, 1); after a round trip its box has no coordinates,
    while its center is still (0.5, 0.5, 0.5). *)
Example fromJSON_toJSON_2x2x2 :
  let v := setMatrix volume_2x2x2 THREE.Matrix4_new in
  let back := fst (fromJSON (fst (Volume_new None None None None None None None))
                     (toJSON v)) in
  boundingBox v
  = THREE.mkBox3 (THREE.Vector3_set 0%float 0%float 0%float)
      (THREE.Vector3_set 1%float 1%float 1%float)
  /\ boundingBox back
     = THREE.mkBox3 (THREE.mkVector3 None None None) (THREE.mkVector3 None None None)
  /\ center back = THREE.Vector3_set 0.5%float 0.5%float 0.5%float
  /\ __data back = __data v /\ matrix back = matrix v.
Proof. vm_compute. repeat split. Qed.

(** [setMatrix] at work: the box, the center and the normal matrix of a
    2x2x2 grid scaled by (2, 3, 4) and moved by (10, 20, 30). *)
Example setMatrix_scale_translate_float :
  let this := setMatrix volume_2x2x2 scale_translate_float in
  boundingBox this
  = THREE.mkBox3 (THREE.Vector3_set 10%float 20%float 30%float)
      (THREE.Vector3_set 12%float 23%float 34%float)
  /\ center this = THREE.Vector3_set 11%float 21.5%float 32%float
  /\ normalMatrix this = THREE.mkMatrix3 [12; 0; 0;  0; 8; 0;  0; 0; 6]%float.
Proof. vm_compute. repeat split. Qed.

(** C2, what follows from it: with both workers of the pool initialised,
    the request that comes after [setData] is posted to a worker that has
    the old samples, and carries no snapshot of the new ones. *)
Example stale_worker_after_setData :
  let request (this : Volume float) :=
    getSurfaceWorker (EXT:=example_externals) this None None None None in
  let this1 := snd (fst (request volume_2x2x2)) in
  let this2 := snd (fst (request this1)) in
  let this3 := fst (setData this2 (Some [3; 4; 5]%float) (Some 3%N) None None None) in
  (message_vol <$> (match last (snd (request volume_2x2x2)) with
                    | Some (Worker_post _ message) => Some message
                    | _ => None
                    end)) = Some (Some (toJSON (snd (fst (request volume_2x2x2)))))
  /\ match last (snd (request this3)) with
     | Some (Worker_post k message) => k = 0 /\ message_vol message = None
     | _ => False
     end.
Proof. vm_compute. repeat split. Qed.



(** C6, counterexample: two consecutive calls [filterData( 0, NaN )]; the
    second is not skipped. *)
Lemma repeated_NaN_maxValue_is_recomputed :
  exists this1 this2,
    filterData volume_2x2x2 (Some 0%float) (Some NaN) None = Ok (this1, scanned)
    /\ filterData this1 (Some 0%float) (Some NaN) None = Ok (this2, scanned).
Proof. eexists _, _. split; [vm_compute; reflexivity|]. vm_compute. reflexivity. Qed.


(** ** The theorems at work on examples *)

(** A volume of 10^7 + 1 samples. *)
Lemma registry_threshold_large :
  (10 ^ 7 < Z.of_nat (length large_data))%Z
  /\ snd (setData volume_2x2x2 (Some large_data) None None None None)
     = [Log_warn "Volume too large (>10^7), not adding to GidPool"; GidPool_removeObject]
  /\ snd (Volume_new None None (Some large_data) None None None None)
     = [Log_warn "Volume too large (>10^7), not adding to GidPool"; GidPool_removeObject].
Proof.
  assert (H : (10 ^ 7 < Z.of_nat (length large_data))%Z).
  { unfold large_data. rewrite length_replicate, N_nat_Z. reflexivity. }
  split; [exact H|].
  exact (proj1 (registry_threshold volume_2x2x2 None None (Some large_data)
                  None None None None) H).
Defined.

(** A request for a surface, then new samples. *)
Lemma setData_keeps_workerPool_2x2x2 :
  let '(delivered, this', _) :=
    getSurfaceWorker (EXT:=example_externals) volume_2x2x2 None None None None in
  let '(this'', events) :=
    setData this' (Some [3; 4; 5]%float) (Some 3%N) None None None in
  delivered = None /\ is_Some (workerPool this')
  /\ workerPool this'' = workerPool this'
  /\ (WorkerPool_terminate ∉ events) /\ (Worker_terminate ∉ events).
Proof.
  apply (setData_keeps_workerPool (EXT:=example_externals) volume_2x2x2);
    reflexivity.
Defined.

(** [filterData()], then three new samples, then [filterData( 4, 10 )]. *)
Lemma filterData_after_setData_2x2x2 :
  let reset := fst (setData volume_filtered (Some [3; 4; 5]%float) (Some 3%N) None None None) in
  dataPosition reset = dataPosition volume_filtered /\ __dataPosition reset = None
  /\ filterData reset (Some 4%float) (Some 10%float) (Some false) = Throw TypeError
  /\ exists this',
       filterData reset (Some (- Infinity)%js) (Some Infinity) (Some false)
       = Ok (this', unfiltered)
       /\ dataPosition this' = None /\ __dataPosition this' = None.
Proof.
  apply (filterData_after_setData volume_filtered); [vm_compute; eauto | reflexivity ..].
Defined.


(** [filterData( 3, 6 )] twice. *)
Lemma filterData_skips_2x2x2 :
  filterData volume_2x2x2 (Some 3%float) (Some 6%float) None = Ok (volume_scanned, scanned)
  /\ exists this2,
       filterData volume_scanned (Some 3%float) (Some 6%float) None
       = Ok (this2, already_filtered).
Proof.
  assert (H : filterData volume_2x2x2 (Some 3%float) (Some 6%float) None
              = Ok (volume_scanned, scanned)) by (vm_compute; reflexivity).
  split; [exact H|].
  destruct (filterData_skips _ _ _ _ _ _ H) as (_ & _ & _ & _ & R & _).
  apply R. reflexivity.
Defined.

(** [filterData( 3, 6, false )] on the samples 1 to 8 keeps the samples 3
    to 6, and [filterData( 3, 6, true )] keeps the samples 1, 2, 7 and 8,
    each with the grid positions of the samples kept. *)
Lemma filterData_scan_2x2x2 :
  (exists this',
     filterData volume_2x2x2 (Some 3%float) (Some 6%float) (Some false) = Ok (this', scanned)
     /\ data this' = [3; 4; 5; 6]%float
     /\ dataPosition this'
        = Some [0; 1; 0;  1; 1; 0;  0; 0; 1;  1; 0; 1]%float)
  /\ (exists this',
       filterData volume_2x2x2 (Some 3%float) (Some 6%float) (Some true) = Ok (this', scanned)
       /\ data this' = [1; 2; 7; 8]%float
       /\ dataPosition this'
          = Some [0; 0; 0;  1; 0; 0;  0; 1; 1;  1; 1; 1]%float).
Proof.
  split.
  - destruct (filterData_scan volume_2x2x2 3%float 6%float false)
      as (this' & positions & buffer & pbuffer & E & _ & P & _ & _ & D & DP & _);
      [reflexivity | reflexivity | reflexivity | left; reflexivity | exact I |].
    exists this'. split; [exact E|]. split; [rewrite D; vm_compute; reflexivity|].
    rewrite DP. f_equal.
    assert (P' : __dataPosition this' = __dataPosition volume_filtered).
    { revert E. vm_compute. intros [= <-]. reflexivity. }
    rewrite P in P'. injection P' as ->. vm_compute. reflexivity.
  - destruct (filterData_scan volume_2x2x2 3%float 6%float true)
      as (this' & positions & buffer & pbuffer & E & _ & P & _ & _ & D & DP & _);
      [reflexivity | reflexivity | reflexivity | left; reflexivity | exact I |].
    exists this'. split; [exact E|]. split; [rewrite D; vm_compute; reflexivity|].
    rewrite DP. f_equal.
    assert (P' : __dataPosition this' = __dataPosition volume_filtered).
    { revert E. vm_compute. intros [= <-]. reflexivity. }
    rewrite P in P'. injection P' as ->. vm_compute. reflexivity.
Defined.


(** * The rest of the class

    What the methods do beyond the statements above: the round trip
    through [toJSON], [clone] and [dispose], the caches, the filtered
    views, the grid positions, [getDataSize], [getSurface] and the handler
    of the "surf" workers. *)

Section Volume_rest_proofs.
Context {num : Type} {NUM : Number num} {EXT : Externals num} {BLT : Builtins num}.

(** ** [toJSON], [fromJSON], [clone] and [dispose] *)

Lemma extent_or_1_positive (n : N) : n <> 0%N -> extent_or_1 (Some n) = n.
Proof. destruct n; [contradiction|reflexivity]. Qed.

(** X1. [fromJSON( toJSON( v ) )] gives back the name, the path, the
    samples (as canonical and as current samples), the extents, the
    labels, the three matrices and the center of a volume [v] whose extents
    are not 0; the header of [v] when it has one, and the header the
    receiver had otherwise; and it leaves no triangulation instance, no
    filter and no statistics behind. *)
Theorem fromJSON_toJSON_round_trip (this v : Volume num) :
  nx v <> 0%N -> ny v <> 0%N -> nz v <> 0%N ->
  let back := fst (fromJSON this (toJSON v)) in
  name back = name v /\ path back = path v
  /\ __data back = __data v /\ data back = __data v
  /\ nx back = nx v /\ ny back = ny v /\ nz back = nz v
  /\ dataAtomindex back = __dataAtomindex v /\ __dataAtomindex back = __dataAtomindex v
  /\ matrix back = matrix v /\ normalMatrix back = normalMatrix v
  /\ inverseMatrix back = inverseMatrix v /\ center back = center v
  /\ header back = (if header v is Some _ then header v else header this)
  /\ mc back = None /\ __minValue back = None /\ __maxValue back = None
  /\ __dataPosition back = None
  /\ __dataMin back = None /\ __dataMax back = None
  /\ __dataMean back = None /\ __dataRms back = None.
Proof.
  intros Hx Hy Hz. cbn zeta. unfold fromJSON, setData.
  destruct (small_enough _);
    destruct v as [? ? [?] [?] [?] [? ? ?] ? ? ? ? ? ? ? ? ? ? ? ? ? ? ? ? ? ? ? ? ? ? [?|] ?];
    cbn -[extent_or_1] in *; rewrite !extent_or_1_positive by assumption; repeat split.
Qed.

Lemma fromJSON_caches (this : Volume num) (input : VolumeJSON num) :
  let back := fst (fromJSON this input) in
  mc back = None /\ __dataMin back = None /\ __dataMax back = None
  /\ __dataMean back = None /\ __dataRms back = None.
Proof.
  unfold fromJSON, setData. destruct (small_enough _); destruct (json_header _);
    cbn; repeat split.
Qed.

(** X15. A clone has the name, the path, the canonical samples, the
    extents, the labels, the matrix and the header of the volume.  It has
    neither its normal matrix, its inverse matrix, its center nor its box,
    which are those of a new volume, and none of its caches, its filter or
    its workers.  It is announced to the registry like any new volume. *)
Theorem clone_copies (this : Volume num) :
  nx this <> 0%N -> ny this <> 0%N -> nz this <> 0%N ->
  let '(vol, events) := clone this in
  (name vol = name this /\ path vol = path this
   /\ __data vol = __data this /\ data vol = __data this
   /\ nx vol = nx this /\ ny vol = ny this /\ nz vol = nz this
   /\ dataAtomindex vol = __dataAtomindex this
   /\ __dataAtomindex vol = __dataAtomindex this
   /\ matrix vol = matrix this /\ header vol = header this)
  /\ (normalMatrix vol = THREE.Matrix3_new /\ inverseMatrix vol = THREE.Matrix4_new
      /\ center vol = THREE.Vector3_new /\ boundingBox vol = THREE.Box3_makeEmpty)
  /\ (mc vol = None /\ dataPosition vol = None /\ __dataPosition vol = None
      /\ __minValue vol = None /\ __maxValue vol = None /\ __outside vol = None
      /\ __dataBuffer vol = None /\ __dataPositionBuffer vol = None
      /\ __dataMin vol = None /\ __dataMax vol = None
      /\ __dataMean vol = None /\ __dataRms vol = None
      /\ worker vol = None /\ workerPool vol = None /\ __box vol = None)
  /\ events
     = if (Z.of_nat (length (__data this)) <=? 10 ^ 7)%Z
       then [GidPool_updateObject; GidPool_addObject]
       else [Log_warn "Volume too large (>10^7), not adding to GidPool";
             GidPool_removeObject].
Proof.
  intros Hx Hy Hz. unfold clone, Volume_new, setData, small_enough.
  cbn -[extent_or_1 Z.pow Z.leb]. rewrite !extent_or_1_positive by assumption.
  destruct (_ <=? _)%Z eqn:E; cbn -[Z.pow Z.leb]; rewrite E;
    destruct this as [? ? [?] ? ? ? ? ? ? ? ? ? ? ? ? ? ? ? ? ? ? ? ? ? ? ? ? ? [?|] ?];
    cbn; repeat split.
Qed.

(** X16. [dispose] terminates the pool a request to a worker created and
    removes the volume from the registry; without a pool it removes the
    volume only, as it does for a new volume; and [setData] does not change
    what [dispose] does. *)
Theorem dispose_releases_pool (this : Volume num) isolevel smooth center' size :
  (Worker_defined = true -> importScripts_is_function = false ->
   dispose (snd (fst (getSurfaceWorker this isolevel smooth center' size)))
   = [WorkerPool_terminate; GidPool_removeObject])
  /\ (workerPool this = None -> dispose this = [GidPool_removeObject])
  /\ (forall name' path' data' nx' ny' nz' dataAtomindex',
        dispose (fst (Volume_new (num:=num) name' path' data' nx' ny' nz' dataAtomindex'))
        = [GidPool_removeObject])
  /\ (forall data' nx' ny' nz' dataAtomindex',
        dispose (fst (setData this data' nx' ny' nz' dataAtomindex')) = dispose this).
Proof.
  split; [|split; [|split]].
  - intros HW HI.
    pose proof (getSurfaceWorker_workerPool this isolevel smooth center' size HW HI) as H.
    destruct (getSurfaceWorker this isolevel smooth center' size) as [[d this'] ev].
    destruct H as [_ [p Hp]]. unfold dispose. cbn. rewrite Hp. reflexivity.
  - intros H. unfold dispose. rewrite H. reflexivity.
  - intros. unfold dispose, Volume_new, setData.
    destruct (small_enough _); cbn; destruct (small_enough _); reflexivity.
  - intros. unfold dispose.
    destruct (setData_untouched this data' nx' ny' nz' dataAtomindex')
      as (_ & _ & _ & _ & _ & _ & _ & _ & _ & _ & W & _).
    cbn zeta in W. rewrite W. reflexivity.
Qed.

(** ** The statistics *)

(** X5. Each of the four statistics is computed once: the getter stores
    the value it returns, and called again it returns the same value and
    changes nothing. *)
Theorem statistics_memoized (this : Volume num) :
  (let '(a, this') := getDataMin this in
   getDataMin this' = (a, this') /\ __dataMin this' = Some a)
  /\ (let '(a, this') := getDataMax this in
      getDataMax this' = (a, this') /\ __dataMax this' = Some a)
  /\ (let '(a, this') := getDataMean this in
      getDataMean this' = (a, this') /\ __dataMean this' = Some a)
  /\ (let '(a, this') := getDataRms this in
      getDataRms this' = (a, this') /\ __dataRms this' = Some a).
Proof.
  unfold getDataMin, getDataMax, getDataMean, getDataRms.
  repeat match goal with |- _ /\ _ => split end;
    match goal with |- context [match ?c with Some _ => _ | None => _ end] =>
      destruct c eqn:E end; cbn; rewrite ?E; split; reflexivity.
Qed.

(** ** [filterData] *)

(** What [filterData] does not assign, and the positions it works from. *)
Lemma filterData_untouched (this this' : Volume num) minValue maxValue outside branch :
  filterData this minValue maxValue outside = Ok (this', branch) ->
  (__data this' = __data this /\ nx this' = nx this /\ ny this' = ny this
   /\ nz this' = nz this /\ __dataAtomindex this' = __dataAtomindex this
   /\ matrix this' = matrix this /\ normalMatrix this' = normalMatrix this
   /\ inverseMatrix this' = inverseMatrix this
   /\ center this' = center this /\ boundingBox this' = boundingBox this
   /\ mc this' = mc this /\ header this' = header this
   /\ workerPool this' = workerPool this)
  /\ __dataMin this' = __dataMin this /\ __dataMax this' = __dataMax this
  /\ __dataMean this' = __dataMean this /\ __dataRms this' = __dataRms this
  /\ __dataPosition this' = __dataPosition (ensure_dataPosition this).
Proof.
  unfold filterData. fold (ensure_dataPosition this).
  destruct (_ && _ && _).
  - intros [= <- <-]. unfold ensure_dataPosition.
    destruct (dataPosition this); cbn; repeat split.
  - destruct (_ && _).
    + intros [= <- <-]. unfold ensure_dataPosition.
      destruct (dataPosition this); cbn; repeat split.
    + destruct (filter_loop _ _ _ _ _ _ _ _ _) as [[[j fp] fd]|]; [|discriminate].
      destruct (_ && _); [|discriminate].
      intros [= <- <-]. unfold ensure_dataPosition.
      destruct (dataPosition this); cbn;
        match goal with |- context [__dataBuffer ?t] => destruct (__dataBuffer t) end;
        cbn; repeat split.
Qed.

(** X6. A filter changes the two views only: the canonical samples, the
    extents, the labels, the matrices, the center, the box, the
    triangulation instance, the header and the pool are as before, and so
    are the four statistics and [getValueForSigma], which are those of all
    the samples and not of the retained ones. *)
Theorem filterData_frame (this this' : Volume num) minValue maxValue outside branch :
  filterData this minValue maxValue outside = Ok (this', branch) ->
  (__data this' = __data this /\ nx this' = nx this /\ ny this' = ny this
   /\ nz this' = nz this /\ __dataAtomindex this' = __dataAtomindex this
   /\ matrix this' = matrix this /\ normalMatrix this' = normalMatrix this
   /\ inverseMatrix this' = inverseMatrix this
   /\ center this' = center this /\ boundingBox this' = boundingBox this
   /\ mc this' = mc this /\ header this' = header this
   /\ workerPool this' = workerPool this)
  /\ fst (getDataMin this') = fst (getDataMin this)
  /\ fst (getDataMax this') = fst (getDataMax this)
  /\ fst (getDataMean this') = fst (getDataMean this)
  /\ fst (getDataRms this') = fst (getDataRms this)
  /\ forall sigma, fst (getValueForSigma this' sigma) = fst (getValueForSigma this sigma).
Proof.
  intros E.
  destruct (filterData_untouched _ _ _ _ _ _ E) as (F & Mi & Ma & Me & Rm & _).
  split; [exact F|]. destruct F as (D & _).
  unfold getValueForSigma, getDataMin, getDataMax, getDataMean, getDataRms.
  rewrite Mi, Ma, Me, D.
  split; [destruct (__dataMin this); reflexivity|].
  split; [destruct (__dataMax this); reflexivity|].
  split; [destruct (__dataMean this); reflexivity|].
  split; [rewrite Rm; destruct (__dataRms this); reflexivity|].
  intros sigma. destruct (__dataMean this); cbn; rewrite ?Rm, ?D;
    destruct (__dataRms this); cbn; rewrite ?D; reflexivity.
Qed.

(** X19. [setData] forgets the bounds of the last filter, so the
    [filterData] that follows it is never skipped: when it returns, it has
    taken the unfiltered or the scanning path. *)
Theorem filterData_recomputes_after_setData (this this' : Volume num)
    data' nx' ny' nz' dataAtomindex' minValue maxValue outside branch :
  filterData (fst (setData this data' nx' ny' nz' dataAtomindex')) minValue maxValue outside
  = Ok (this', branch) ->
  branch <> already_filtered.
Proof.
  generalize (setData_caches this data' nx' ny' nz' dataAtomindex').
  cbn zeta. generalize (fst (setData this data' nx' ny' nz' dataAtomindex')).
  intros reset (_ & M & _) E.
  destruct (filterData_cases reset minValue maxValue outside) as [[T _] | [_ N]].
  - unfold triple_matches in T. rewrite M in T. discriminate.
  - apply (N _ _ E).
Qed.

(** X11. With bounds that are [-Infinity] and [Infinity] after the
    defaults, and which are not those of the last filter, [filterData]
    scans nothing: the current samples are the canonical ones, the current
    positions are the grid positions, the two buffers are not touched and
    the bounds are recorded. *)
Theorem filterData_unfiltered (this : Volume num) minValue maxValue outside :
  let a := default_minValue this minValue in
  let b := default_maxValue maxValue in
  let o := default_outside outside in
  (a === - Infinity)%js = true -> (b === Infinity)%js = true ->
  triple_matches this a b o = false ->
  exists this',
    filterData this minValue maxValue outside = Ok (this', unfiltered)
    /\ data this' = __data this
    /\ dataPosition this' = __dataPosition (ensure_dataPosition this)
    /\ __dataPosition this' = __dataPosition (ensure_dataPosition this)
    /\ __dataBuffer this' = __dataBuffer this
    /\ __dataPositionBuffer this' = __dataPositionBuffer this
    /\ __minValue this' = Some a /\ __maxValue this' = Some b /\ __outside this' = Some o.
Proof.
  intros a b o Ha Hb T.
  destruct (ensure_dataPosition_same this) as (D0 & _ & M0 & X0 & O0 & _).
  unfold filterData. fold (ensure_dataPosition this). fold a b o.
  fold (triple_matches (ensure_dataPosition this) a b o).
  replace (triple_matches (ensure_dataPosition this) a b o) with false
    by (unfold triple_matches in *; rewrite M0, X0, O0; symmetry; exact T).
  rewrite Ha, Hb. cbn [andb]. eexists. split; [reflexivity|].
  cbn. rewrite D0. unfold ensure_dataPosition.
  destruct (dataPosition this); cbn; repeat split.
Qed.

Lemma setMatrix_positions (this : Volume num) m :
  dataPosition (setMatrix this m) = dataPosition this
  /\ __dataPosition (setMatrix this m) = __dataPosition this.
Proof. split; reflexivity. Qed.

(** X20. [setMatrix] does not discard the grid positions: once a filter
    has run, a filter that follows [setMatrix] works from the positions
    computed under the matrix the volume had before, and on the unfiltered
    path it hands them out as they are. *)
Theorem positions_survive_setMatrix (this this' : Volume num) m
    minValue maxValue outside branch :
  is_Some (dataPosition this) ->
  filterData (setMatrix this m) minValue maxValue outside = Ok (this', branch) ->
  __dataPosition this' = __dataPosition this
  /\ (branch = unfiltered -> dataPosition this' = __dataPosition this).
Proof.
  intros [p Hp]. destruct (setMatrix_positions this m) as [DP P0].
  rewrite <- P0. rewrite <- DP in Hp. clear DP P0.
  generalize dependent (setMatrix this m). intros t Hp E.
  destruct (filterData_untouched _ _ _ _ _ _ E) as (_ & _ & _ & _ & _ & P).
  assert (Q : ensure_dataPosition t = t).
  { unfold ensure_dataPosition. rewrite Hp. reflexivity. }
  rewrite Q in P. split; [exact P|].
  intros ->. revert E. unfold filterData. rewrite Hp.
  destruct (_ && _ && _); [discriminate|].
  destruct (_ && _).
  - intros [= <-]. reflexivity.
  - destruct (filter_loop _ _ _ _ _ _ _ _ _) as [[[j fp] fd]|]; [|discriminate].
    destruct (_ && _); discriminate.
Qed.

(** ** [makeDataPosition] *)

Lemma length_bind_const {A B : Type} (f : A -> list B) (m : nat) (l : list A) :
  (forall a, length (f a) = m) -> length (l ≫= f) = length l * m.
Proof.
  intros H. induction l as [|a l IH]; [reflexivity|].
  rewrite bind_cons, length_app, H, IH. cbn [length]. lia.
Qed.

Lemma lookup_bind_const {A B : Type} (f : A -> list B) (m : nat) (l : list A) :
  (forall a, length (f a) = m) ->
  forall j i a, l !! j = Some a -> i < m -> (l ≫= f) !! (j * m + i) = f a !! i.
Proof.
  intros H. induction l as [|a0 l IH]; intros j i a Hj Hi; [discriminate|].
  rewrite bind_cons. destruct j as [|j].
  - injection Hj as ->. cbn [Nat.mul Nat.add]. apply lookup_app_l. rewrite H. exact Hi.
  - cbn in Hj. rewrite lookup_app_r by (rewrite H; lia). rewrite H.
    replace (S j * m + i - m) with (j * m + i) by lia. apply IH; assumption.
Qed.

Lemma applyToVector3Array_length (f : THREE.Vector3 num -> THREE.Vector3 num) :
  forall n (l : list num), length l <= n ->
    length (THREE.applyToVector3Array f l) = length l.
Proof.
  induction n as [|n IH]; intros l Hn.
  - destruct l; [reflexivity|cbn in Hn; lia].
  - destruct l as [|a [|b [|c l]]]; try reflexivity.
    cbn [THREE.applyToVector3Array length] in *. rewrite IH by lia. reflexivity.
Qed.

Lemma applyToVector3Array_app (f : THREE.Vector3 num -> THREE.Vector3 num) (q : nat) :
  forall l1 l2 : list num, length l1 = q * 3 ->
    THREE.applyToVector3Array f (l1 ++ l2)
    = THREE.applyToVector3Array f l1 ++ THREE.applyToVector3Array f l2.
Proof.
  induction q as [|q IH]; intros l1 l2 H.
  - destruct l1; [reflexivity|discriminate].
  - destruct l1 as [|a [|b [|c l1]]]; try discriminate.
    cbn [app THREE.applyToVector3Array]. rewrite IH by (cbn in H; lia). reflexivity.
Qed.

Lemma applyToVector3Array_bind {A : Type} (f : THREE.Vector3 num -> THREE.Vector3 num)
    (g : A -> list num) (q : nat) (l : list A) :
  (forall a, length (g a) = q * 3) ->
  THREE.applyToVector3Array f (l ≫= g) = l ≫= (fun a => THREE.applyToVector3Array f (g a)).
Proof.
  intros H. induction l as [|a l IH]; [reflexivity|].
  rewrite !bind_cons, (applyToVector3Array_app f q) by apply H. rewrite IH. reflexivity.
Qed.

Lemma makeDataPosition_length (this : Volume num) :
  exists positions,
    dataPosition (makeDataPosition this) = Some positions
    /\ __dataPosition (makeDataPosition this) = Some positions
    /\ length positions = N.to_nat (nx this * ny this * nz this) * 3.
Proof.
  eexists. split; [reflexivity|]. split; [reflexivity|].
  unfold THREE.Matrix4_applyToVector3Array, grid_coordinates.
  rewrite length_fmap, (applyToVector3Array_length _ _ _ (le_n _)), length_fmap.
  rewrite (length_bind_const _ (N.to_nat (ny this) * (N.to_nat (nx this) * 3))).
  - rewrite length_seq, !N2Nat.inj_mul. lia.
  - intros z. rewrite (length_bind_const _ (N.to_nat (nx this) * 3)).
    + rewrite length_seq. reflexivity.
    + intros y. rewrite (length_bind_const _ 3) by reflexivity.
      rewrite length_seq. reflexivity.
Qed.

Lemma fmap_bind_list {A B C : Type} (g : B -> C) (f : A -> list B) (l : list A) :
  g <$> (l ≫= f) = l ≫= (fun a => g <$> f a).
Proof.
  induction l as [|a l IH]; [reflexivity|].
  rewrite !bind_cons, fmap_app, IH. reflexivity.
Qed.

Lemma bind_ext_list {A B : Type} (f g : A -> list B) (l : list A) :
  (forall a, f a = g a) -> l ≫= f = l ≫= g.
Proof.
  intros H. induction l as [|a l IH]; [reflexivity|].
  rewrite !bind_cons, H, IH. reflexivity.
Qed.

(** X8. [makeDataPosition] stores three coordinates per grid point, [x]
    running fastest and [z] slowest: the point [(x, y, z)] is at index
    [x + nx * (y + ny * z)].  What is stored there is the binary32 number
    next to each coordinate of the transformed point, the point
    transformed being [(x, y, z)] as a [Float32Array] holds it.  The same
    array is the current and the canonical one. *)
Theorem makeDataPosition_layout (this : Volume num) :
  let nx' := N.to_nat (nx this) in
  let ny' := N.to_nat (ny this) in
  let nz' := N.to_nat (nz this) in
  exists positions,
    dataPosition (makeDataPosition this) = Some positions
    /\ __dataPosition (makeDataPosition this) = Some positions
    /\ length positions = nx' * ny' * nz' * 3
    /\ forall x y z, x < nx' -> y < ny' -> z < nz' ->
         position_of positions (x + nx' * (y + ny' * z))
         = (fun c => Math_fround (ToNumber c)) <$> THREE.Vector3_toArray
             (THREE.Vector3_applyMatrix4
                (THREE.Vector3_set (Math_fround (num_of_Z (Z.of_nat x)))
                   (Math_fround (num_of_Z (Z.of_nat y)))
                   (Math_fround (num_of_Z (Z.of_nat z))))
                (matrix this)).
Proof.
  intros nx' ny' nz'. eexists. split; [reflexivity|]. split; [reflexivity|].
  unfold THREE.Matrix4_applyToVector3Array, grid_coordinates. fold nx' ny' nz'.
  set (f := fun v => THREE.Vector3_applyMatrix4 v (matrix this)).
  set (point := fun z y x : nat =>
         Math_fround <$>
           [num_of_Z (Z.of_nat x); num_of_Z (Z.of_nat y); num_of_Z (Z.of_nat z)]).
  set (row := fun z y : nat => seq 0 nx' ≫= point z y).
  set (slab := fun z : nat => seq 0 ny' ≫= row z).
  assert (G : Math_fround <$>
                (seq 0 nz' ≫= (fun z => seq 0 ny' ≫= (fun y => seq 0 nx' ≫= (fun x =>
                   [num_of_Z (Z.of_nat x); num_of_Z (Z.of_nat y); num_of_Z (Z.of_nat z)]))))
              = seq 0 nz' ≫= slab).
  { rewrite fmap_bind_list. apply bind_ext_list; intros z.
    rewrite fmap_bind_list. apply bind_ext_list; intros y.
    rewrite fmap_bind_list. reflexivity. }
  rewrite G. clear G.
  assert (Lrow : forall z y, length (row z y) = nx' * 3).
  { intros. unfold row. rewrite (length_bind_const _ 3) by reflexivity.
    rewrite length_seq. reflexivity. }
  assert (Lslab : forall z, length (slab z) = (ny' * nx') * 3).
  { intros. unfold slab. rewrite (length_bind_const _ (nx' * 3)) by apply Lrow.
    rewrite length_seq. lia. }
  split.
  - rewrite length_fmap, (applyToVector3Array_length f _ _ (le_n _)).
    rewrite (length_bind_const _ (ny' * nx' * 3)) by apply Lslab.
    rewrite length_seq. lia.
  - intros x y z Hx Hy Hz.
    rewrite (applyToVector3Array_bind f slab (ny' * nx')) by apply Lslab.
    assert (P : forall c, c < 3 ->
      (seq 0 nz' ≫= (fun a => THREE.applyToVector3Array f (slab a)))
        !! ((x + nx' * (y + ny' * z)) * 3 + c)
      = THREE.applyToVector3Array f (point z y x) !! c).
    { intros c Hc.
      replace ((x + nx' * (y + ny' * z)) * 3 + c)
        with (z * (ny' * nx' * 3) + (y * (nx' * 3) + (x * 3 + c))) by lia.
      rewrite (lookup_bind_const _ (ny' * nx' * 3) _) with (a := z).
      2:{ intros a. rewrite (applyToVector3Array_length f _ _ (le_n _)). apply Lslab. }
      2:{ rewrite lookup_seq_lt by lia. reflexivity. }
      2:{ nia. }
      unfold slab. rewrite (applyToVector3Array_bind f (row z) nx') by apply Lrow.
      rewrite (lookup_bind_const _ (nx' * 3) _) with (a := y).
      2:{ intros a. rewrite (applyToVector3Array_length f _ _ (le_n _)). apply Lrow. }
      2:{ rewrite lookup_seq_lt by lia. reflexivity. }
      2:{ nia. }
      unfold row. rewrite (applyToVector3Array_bind f (point z y) 1) by reflexivity.
      rewrite (lookup_bind_const _ 3 _) with (a := x).
      2:{ intros a. reflexivity. }
      2:{ rewrite lookup_seq_lt by lia. reflexivity. }
      2:{ lia. }
      reflexivity. }
    unfold position_of, typed_get. rewrite !list_lookup_fmap, !P by lia. reflexivity.
Qed.

(** X12. On a volume whose grid has as many points as there are samples,
    a filter that returns leaves both views in step, three coordinates per
    retained sample, and keeps what the next filter needs: the positions,
    buffers of the right size and the grid. *)
Theorem filterData_keeps_views_aligned (this this' : Volume num)
    minValue maxValue outside branch :
  positions_ready this -> buffers_fit this -> grid_matches this -> views_aligned this ->
  filterData this minValue maxValue outside = Ok (this', branch) ->
  (exists p, dataPosition this' = Some p /\ length p = length (data this') * 3)
  /\ positions_ready this' /\ buffers_fit this' /\ grid_matches this'
  /\ views_aligned this'.
Proof.
  intros Hpos Hbuf Hgrid Hview E.
  destruct (filterData_keeps_ready _ _ _ _ _ _ Hpos Hbuf E) as [Hpos' Hbuf'].
  destruct (filterData_untouched _ _ _ _ _ _ E)
    as ((D & X & Y & Z & _) & _ & _ & _ & _ & P).
  set (this0 := ensure_dataPosition this) in *.
  assert (A0 : (exists p, dataPosition this0 = Some p /\ length p = length (data this0) * 3)
               /\ (exists q, __dataPosition this0 = Some q
                             /\ length q = length (__data this) * 3)
               /\ __data this0 = __data this).
  { unfold this0, ensure_dataPosition. destruct Hgrid as [G1 G2].
    unfold views_aligned in Hview.
    destruct (dataPosition this) as [p|] eqn:Ep.
    - split; [eauto|]. split; [|reflexivity].
      destruct Hpos as [N|[q Hq]]; [rewrite Ep in N; discriminate|]. eauto.
    - destruct (makeDataPosition_length this) as (q & Q1 & Q2 & Q3).
      rewrite G1 in Q3. split; [|split].
      + exists q. split; [exact Q1|]. cbn. rewrite Hview. exact Q3.
      + eauto.
      + reflexivity. }
  destruct A0 as ((p & P0 & L0) & (q & Q0 & LQ) & D0).
  assert (Hgrid' : grid_matches this').
  { destruct Hgrid as [G1 G2]. split; [rewrite X, Y, Z, D; exact G1|].
    intros r Hr. rewrite P, Q0 in Hr. injection Hr as <-. rewrite D. exact LQ. }
  assert (V : exists r, dataPosition this' = Some r /\ length r = length (data this') * 3).
  { revert E. unfold filterData. fold (ensure_dataPosition this). fold this0.
    destruct (_ && _ && _); [intros [= <- <-]; eauto|].
    destruct (_ && _).
    - intros [= <- <-]. cbn. rewrite Q0, D0. eauto.
    - destruct (filter_loop _ _ _ _ _ _ _ _ _) as [[[j fp] fd]|]; [|discriminate].
      destruct (_ && _) eqn:G; [|discriminate].
      apply andb_true_iff in G as [G1 G2].
      apply Nat.leb_le in G1. apply Nat.leb_le in G2.
      intros [= <- <-]. cbn. eexists. split; [reflexivity|].
      rewrite !length_take_le by assumption. reflexivity. }
  split; [exact V|]. split; [exact Hpos'|]. split; [exact Hbuf'|]. split; [exact Hgrid'|].
  destruct V as (r & R1 & R2). unfold views_aligned. rewrite R1. exact R2.
Qed.

(** ** [getDataSize] *)

Lemma for_each_map (f : num -> num) (l : list num) :
  forall done,
    for_each (length l) (length done) f (done ++ l)
    = done ++ ((fun a => Math_fround (f a)) <$> l).
Proof.
  induction l as [|a l IH]; intros done; [reflexivity|].
  cbn [length for_each fmap list_fmap]. unfold typed_get.
  rewrite (list_lookup_middle done l a (length done) eq_refl). cbn [ToNumber].
  rewrite insert_app_r_alt by lia. rewrite Nat.sub_diag. cbn [insert list_insert].
  replace (done ++ Math_fround (f a) :: l) with ((done ++ [Math_fround (f a)]) ++ l)
    by (rewrite <- app_assoc; reflexivity).
  replace (S (length done)) with (length (done ++ [Math_fround (f a)]))
    by (rewrite length_app; cbn; lia).
  rewrite IH, <- app_assoc. reflexivity.
Qed.

Lemma rounds_aligned (n : nat) : rounds (n * 3) = n.
Proof.
  unfold rounds. rewrite Nat.add_comm, Nat.div_add by lia. cbn. reflexivity.
Qed.

(** X13. For one of the four named sizes, on views that are in step,
    [getDataSize] returns one size per current sample.  The sizes are
    binary32 numbers: the sample as a [Float32Array] holds it; for
    "abs-value" its absolute value; for "value-min" the number next to its
    distance to the minimum of all the samples; each then multiplied by
    [scale] and rounded again, unless [scale] is 1 (without a [scale] every
    size is NaN times the sample).  The views are not changed. *)
Theorem getDataSize_aligned (this : Volume num) (size : size_type num)
    (scale : option num) (p : list num) :
  dataPosition this = Some p -> length p = length (data this) * 3 ->
  (forall s, size <> size_other s) ->
  let sized (a : num) :=
    match size with
    | size_abs_value => Math_fround (Math_abs a)
    | size_value_min => Math_fround (a - fst (getDataMin this))%js
    | _ => a
    end in
  let scaled (a : num) :=
    match scale with
    | Some s => if (s === 1)%js then a else Math_fround (a * s)%js
    | None => Math_fround (a * NaN)%js
    end in
  exists this',
    getDataSize this size scale
    = Ok (scaled <$> (sized <$> (Math_fround <$> data this)), this')
    /\ data this' = data this /\ __data this' = __data this
    /\ dataPosition this' = dataPosition this.
Proof.
  intros Hp Hl Hs sized scaled. unfold getDataSize. rewrite Hp, Hl, rounds_aligned.
  assert (M : forall f (l : list num),
            for_each (length l) 0 f l = (fun a => Math_fround (f a)) <$> l)
    by (intros f l; apply (for_each_map f l [])).
  assert (S : forall l : list num, length l = length (data this) ->
              (if match scale with Some s => (s === 1)%js | None => false end then l
               else for_each (length (data this)) 0 (fun a => (a * ToNumber scale)%js) l)
              = scaled <$> l).
  { intros l <-. subst scaled. destruct scale as [s|]; cbn [ToNumber].
    - destruct (s === 1)%js; [symmetry; apply list_fmap_id | apply M].
    - apply M. }
  assert (L : length (Math_fround <$> data this) = length (data this))
    by apply length_fmap.
  assert (M' : forall f, for_each (length (data this)) 0 f (Math_fround <$> data this)
                         = (fun a => Math_fround (f a)) <$> (Math_fround <$> data this))
    by (intros f; rewrite <- L at 1; apply M).
  destruct size; try (exfalso; eapply Hs; reflexivity).
  - eexists. rewrite S by exact L. subst sized. cbn. rewrite list_fmap_id.
    repeat split. exact Hp.
  - eexists. rewrite M', S by (rewrite length_fmap; exact L).
    repeat split. exact Hp.
  - unfold getDataMin in *. subst sized. cbn.
    destruct (__dataMin this) eqn:E; cbn;
      rewrite M', S by (rewrite length_fmap; exact L);
      eexists; repeat split; exact Hp.
  - eexists. rewrite S by exact L. subst sized. cbn. rewrite list_fmap_id.
    repeat split. exact Hp.
Qed.

(** X14. [getDataSize] reads the length of [this.dataPosition], which
    only [filterData] sets: on a new volume, and after [setData] on a
    volume that was never filtered, it throws a TypeError. *)
Theorem getDataSize_needs_filterData name' path' data' nx' ny' nz' dataAtomindex'
    (size : size_type num) (scale : option num) :
  getDataSize (fst (Volume_new name' path' data' nx' ny' nz' dataAtomindex')) size scale
  = Throw TypeError
  /\ forall this data' nx' ny' nz' dataAtomindex',
       dataPosition this = None ->
       getDataSize (fst (setData this data' nx' ny' nz' dataAtomindex')) size scale
       = Throw TypeError.
Proof.
  split.
  - unfold getDataSize, Volume_new, setData.
    destruct (small_enough _); cbn; destruct (small_enough _); reflexivity.
  - intros this d x y z ai H. unfold getDataSize.
    destruct (setData_untouched this d x y z ai) as (_ & _ & _ & _ & _ & _ & _ & DP & _).
    cbn zeta in DP. rewrite DP, H. reflexivity.
Qed.

(** ** [getSurface] *)

Lemma same_grid_refl (u : Volume num) : same_grid u u.
Proof. repeat split. Qed.

Lemma same_grid_trans (u v w : Volume num) :
  same_grid u v -> same_grid v w -> same_grid u w.
Proof.
  unfold same_grid. intros (-> & -> & -> & -> & -> & -> & -> & ->) G. exact G.
Qed.

Lemma getValueForSigma_same_grid (u : Volume num) sigma :
  same_grid (snd (getValueForSigma u sigma)) u
  /\ mc (snd (getValueForSigma u sigma)) = mc u.
Proof.
  unfold getValueForSigma, getDataMean, getDataRms, same_grid.
  destruct (__dataMean u); cbn; destruct (__dataRms u); cbn; repeat split.
Qed.

Lemma or_default_again (smooth : option num) :
  or_default (Some (or_default smooth 0%js)) 0%js = or_default smooth 0%js.
Proof.
  destruct smooth as [a|]; cbn.
  - destruct (truthy a) eqn:E; [rewrite E; reflexivity|].
    destruct (truthy 0%js); reflexivity.
  - destruct (truthy 0%js); reflexivity.
Qed.

(** The surface is a function of the isolevel and the smoothing that are
    used and of what [same_grid] lists. *)
Lemma getSurface_core (u w : Volume num) iu iw su sw center' size :
  same_grid u w -> mc_valid u -> mc_valid w ->
  (if isNaN iu then fst (getValueForSigma u (Some 2%js)) else ToNumber iu)
  = (if isNaN iw then fst (getValueForSigma w (Some 2%js)) else ToNumber iw) ->
  or_default su 0%js = or_default sw 0%js ->
  fst (getSurface u iu su center' size) = fst (getSurface w iw sw center' size).
Proof.
  intros G Mu Mw Hi Hs.
  unfold getSurface. rewrite Hs.
  set (stage := fun (t : Volume num) (i : option num) =>
         if isNaN i then getValueForSigma t (Some 2%js) else (ToNumber i, t)).
  change (if isNaN iu then getValueForSigma u (Some 2%js) else (ToNumber iu, u))
    with (stage u iu).
  change (if isNaN iw then getValueForSigma w (Some 2%js) else (ToNumber iw, w))
    with (stage w iw).
  assert (S : fst (stage u iu) = fst (stage w iw)
              /\ same_grid (snd (stage u iu)) (snd (stage w iw))
              /\ mc_valid (snd (stage u iu)) /\ mc_valid (snd (stage w iw))).
  { assert (K : forall t i, mc_valid t ->
                same_grid (snd (stage t i)) t /\ mc_valid (snd (stage t i))
                /\ fst (stage t i)
                   = if isNaN i then fst (getValueForSigma t (Some 2%js)) else ToNumber i).
    { intros t i Mt. unfold stage. destruct (isNaN i); cbn [fst snd].
      - destruct (getValueForSigma_same_grid t (Some 2%js)) as [Gt Ct].
        split; [exact Gt|]. split; [|reflexivity].
        unfold mc_valid in *. rewrite Ct.
        destruct Gt as (-> & -> & -> & -> & -> & _). exact Mt.
      - split; [apply same_grid_refl|]. split; [exact Mt|reflexivity]. }
    destruct (K u iu Mu) as (Gu & Vu & Eu), (K w iw Mw) as (Gw & Vw & Ew).
    split; [congruence|]. split; [|split; assumption].
    unfold same_grid in *.
    destruct Gu as (-> & -> & -> & -> & -> & -> & -> & ->).
    destruct Gw as (-> & -> & -> & -> & -> & -> & -> & ->). exact G. }
  destruct (stage u iu) as [i1 tu], (stage w iw) as [i2 tw]. cbn [fst snd] in S.
  destruct S as (<- & (D & X & Y & Z & A & M & N & I) & Cu & Cw).
  unfold mc_valid in Cu, Cw.
  destruct (mc tu) as [cu|] eqn:Ecu; [rewrite (Cu _ eq_refl)|];
    (destruct (mc tw) as [cw|] eqn:Ecw; [rewrite (Cw _ eq_refl)|]);
    rewrite D, X, Y, Z, A;
    destruct center' as [c|]; try destruct size as [s|]; cbn;
    try destruct (truthy s); cbn; unfold getBox; cbn; rewrite ?M, ?N, ?I; reflexivity.
Qed.

Lemma getSurface_same_grid (u w : Volume num) isolevel smooth center' size :
  same_grid u w -> mc_valid u -> mc_valid w ->
  statistics_valid u -> statistics_valid w ->
  fst (getSurface u isolevel smooth center' size)
  = fst (getSurface w isolevel smooth center' size).
Proof.
  intros G Mu Mw Su Sw. apply getSurface_core; try assumption; [|reflexivity].
  rewrite (getValueForSigma_value u _ Su), (getValueForSigma_value w _ Sw).
  destruct G as (-> & _). reflexivity.
Qed.

(** What [getSurface] leaves in [this]. *)
Lemma getSurface_keeps (this : Volume num) isolevel smooth center' size :
  let this' := snd (getSurface this isolevel smooth center' size) in
  same_grid this' this
  /\ (mc_valid this -> mc_valid this')
  /\ (statistics_valid this -> statistics_valid this')
  /\ (range_valid this -> range_valid this')
  /\ is_Some (mc this').
Proof.
  cbn zeta. unfold getSurface.
  pose proof (getValueForSigma_same_grid this (Some 2%js)) as [G C].
  pose proof (getValueForSigma_statistics_valid this (Some 2%js)) as V.
  assert (R : range_valid this -> range_valid (snd (getValueForSigma this (Some 2%js)))).
  { unfold getValueForSigma, getDataMean, getDataRms, range_valid.
    destruct (__dataMean this); cbn; destruct (__dataRms this); cbn; auto. }
  assert (K : forall i t, (i, t) = getValueForSigma this (Some 2%js) \/ t = this ->
            same_grid t this /\ mc t = mc this
            /\ (statistics_valid this -> statistics_valid t)
            /\ (range_valid this -> range_valid t)).
  { intros i t [E | ->].
    - destruct (getValueForSigma this (Some 2%js)). injection E as -> ->. auto.
    - split; [apply same_grid_refl|]. auto. }
  destruct (if isNaN isolevel then _ else _) as [i t] eqn:E.
  assert (H : (i, t) = getValueForSigma this (Some 2%js) \/ t = this).
  { destruct (isNaN isolevel); [left; congruence | right; congruence]. }
  destruct (K i t H) as ((D & X & Y & Z & A & M & N & I) & Ct & St & Rt).
  clear E H K G C V R.
  assert (Q : forall m' b t',
     t' = set_mc (Some m') t \/ t' = set___box b (set_mc (Some m') t) ->
     (mc t = Some m' \/ (mc t = None /\
        m' = mkMarchingCubes (__data t) (nx t) (ny t) (nz t) (__dataAtomindex t))) ->
     same_grid t' this /\ (mc_valid this -> mc_valid t')
     /\ (statistics_valid this -> statistics_valid t')
     /\ (range_valid this -> range_valid t') /\ is_Some (mc t')).
  { intros m' b t' Ht' Hm.
    assert (F : __data t' = __data t /\ nx t' = nx t /\ ny t' = ny t /\ nz t' = nz t
                /\ __dataAtomindex t' = __dataAtomindex t /\ matrix t' = matrix t
                /\ normalMatrix t' = normalMatrix t /\ inverseMatrix t' = inverseMatrix t
                /\ mc t' = Some m' /\ __dataMean t' = __dataMean t
                /\ __dataRms t' = __dataRms t /\ __dataMin t' = __dataMin t
                /\ __dataMax t' = __dataMax t).
    { destruct Ht' as [-> | ->]; destruct t; cbn; repeat split. }
    destruct F as (D' & X' & Y' & Z' & A' & M' & N' & I' & C' & Me & Rm & Mi & Ma).
    split; [unfold same_grid; repeat split; congruence|].
    split; [|split; [|split]].
    - intros V m. rewrite C'. intros [= <-]. rewrite D', X', Y', Z', A'.
      destruct Hm as [Hm | [_ ->]]; [|reflexivity].
      unfold mc_valid in V. rewrite <- Ct in V. rewrite (V _ Hm). congruence.
    - intros V. specialize (St V). unfold statistics_valid in *.
      rewrite Me, Rm, D'. exact St.
    - intros V. specialize (Rt V). unfold range_valid in *.
      rewrite Mi, Ma, D'. exact Rt.
    - rewrite C'. eauto. }
  destruct (mc t) as [m|] eqn:Em;
    destruct center' as [c|]; try destruct size as [s|]; cbn [fst snd];
    try destruct (truthy s); cbn [fst snd];
    first [ eapply (Q _ None); [left; reflexivity | auto]
          | eapply Q; [right; reflexivity | auto] ].
Qed.

(** Asking for the value again returns it from the cache and changes
    nothing. *)
Lemma getValueForSigma_fixed (this : Volume num) sigma :
  getValueForSigma (snd (getValueForSigma this sigma)) sigma = getValueForSigma this sigma.
Proof.
  unfold getValueForSigma, getDataMean, getDataRms.
  destruct (__dataMean this) eqn:Hm; cbn; rewrite ?Hm; cbn;
    destruct (__dataRms this) eqn:Hr; cbn; rewrite ?Hm, ?Hr; reflexivity.
Qed.

(** [getSurface] applied to the isolevel and the smoothing it would
    settle on itself. *)
Lemma getSurface_resolved (this : Volume num) isolevel smooth center' size :
  let '(i, t) :=
    if isNaN isolevel then getValueForSigma this (Some 2%js)
    else (ToNumber isolevel, this) in
  getSurface t (Some i) (Some (or_default smooth 0%js)) center' size
  = getSurface this isolevel smooth center' size.
Proof.
  destruct (isNaN isolevel) eqn:E.
  - pose proof (getValueForSigma_fixed this (Some 2%js)) as F.
    destruct (getValueForSigma this (Some 2%js)) as [i t] eqn:V. cbn [snd] in F.
    unfold getSurface at 1 2. rewrite E, V, or_default_again.
    destruct (isNaN (Some i)); [rewrite F|]; reflexivity.
  - destruct isolevel as [a|]; [|discriminate]. cbn [ToNumber].
    unfold getSurface at 1 2. rewrite E, or_default_again. reflexivity.
Qed.

(** X3. Where there are no workers, or inside a worker,
    [getSurfaceWorker] is [getSurface]: it hands the callback, before it
    returns, the surface [getSurface] returns for the same arguments,
    leaves the volume as [getSurface] does and posts nothing.  Applying the
    defaults of the isolevel and of the smoothing twice changes neither. *)
Theorem getSurfaceWorker_without_workers (this : Volume num) isolevel smooth center' size :
  Worker_defined && negb importScripts_is_function = false ->
  getSurfaceWorker this isolevel smooth center' size
  = (Some (fst (getSurface this isolevel smooth center' size)),
     snd (getSurface this isolevel smooth center' size), []).
Proof.
  intros H. unfold getSurfaceWorker.
  pose proof (getSurface_resolved this isolevel smooth center' size) as R.
  destruct (if isNaN isolevel then _ else _) as [i t].
  rewrite H, R. destruct (getSurface this isolevel smooth center' size). reflexivity.
Qed.

(** X17. A surface does not depend on the surfaces computed before it:
    the triangulation instance and the box that [getSurface] keeps in the
    volume do not change what the next call returns. *)
Theorem getSurface_repeatable (this : Volume num) isolevel smooth center' size
    isolevel' smooth' center'' size' :
  mc_valid this -> statistics_valid this ->
  fst (getSurface (snd (getSurface this isolevel smooth center' size))
         isolevel' smooth' center'' size')
  = fst (getSurface this isolevel' smooth' center'' size').
Proof.
  intros C S.
  destruct (getSurface_keeps this isolevel smooth center' size) as (G & C' & S' & _).
  apply getSurface_same_grid; auto.
Qed.

(** X18. A surface is computed from all the samples: a filter applied
    before [getSurface] does not change the surface. *)
Theorem getSurface_ignores_filterData (this this' : Volume num) minValue maxValue outside
    branch isolevel smooth center' size :
  mc_valid this -> statistics_valid this ->
  filterData this minValue maxValue outside = Ok (this', branch) ->
  fst (getSurface this' isolevel smooth center' size)
  = fst (getSurface this isolevel smooth center' size).
Proof.
  intros C S E.
  destruct (filterData_untouched _ _ _ _ _ _ E)
    as ((D & X & Y & Z & A & M & N & I & _ & _ & Cm & _) & _ & _ & Me & Rm & _).
  apply getSurface_same_grid; try assumption.
  - unfold same_grid. auto 10.
  - unfold mc_valid. rewrite Cm, D, X, Y, Z, A. exact C.
  - unfold statistics_valid. rewrite Me, Rm, D. exact S.
Qed.

(** ** The "surf" worker *)

(** X2. The worker answers with the surface [getSurface] returns on the
    main thread.  The volume has extents other than 0 and valid caches;
    the worker gets the message [getSurfaceWorker] posts, which carries the
    volume, or carries none while the volume the worker holds has the
    samples, the extents, the labels and the matrices of the volume on the
    main thread.  After the answer the worker holds such a volume again. *)
Theorem worker_reply_is_getSurface (this : Volume num) isolevel smooth center' size
    (Debug : bool) (self_vol : option (Volume num)) k message :
  nx this <> 0%N -> ny this <> 0%N -> nz this <> 0%N ->
  mc_valid this -> statistics_valid this ->
  last (snd (getSurfaceWorker this isolevel smooth center' size))
  = Some (Worker_post k message) ->
  (is_Some (message_vol message)
   \/ exists w, self_vol = Some w /\ same_grid w this /\ mc_valid w
                /\ statistics_valid w) ->
  let reply :=
    surf_worker Debug self_vol (message_vol message) (Some (message_params message)) in
  fst (fst reply) = Some (fst (getSurface this isolevel smooth center' size))
  /\ same_grid (snd (fst reply)) this /\ mc_valid (snd (fst reply))
  /\ statistics_valid (snd (fst reply)).
Proof.
  intros Hx Hy Hz Hmc Hst Hlast Hsync. cbn zeta.
  unfold getSurfaceWorker in Hlast.
  pose proof (getValueForSigma_same_grid this (Some 2%js)) as [G _].
  assert (S : exists i t,
            (if isNaN isolevel then getValueForSigma this (Some 2%js)
             else (ToNumber isolevel, this)) = (i, t)
            /\ same_grid t this
            /\ i = (if isNaN isolevel then fst (getValueForSigma this (Some 2%js))
                    else ToNumber isolevel)).
  { destruct (isNaN isolevel).
    - destruct (getValueForSigma this (Some 2%js)) as [i t]. eauto.
    - do 2 eexists. split; [reflexivity|]. split; [apply same_grid_refl | reflexivity]. }
  destruct S as (i & t & E & Gt & Hi). rewrite E in Hlast.
  destruct (Worker_defined && negb importScripts_is_function);
    [|destruct (getSurface _ _ _ _ _); discriminate].
  assert (M : message
              = mkSurfMessage (message_vol message)
                  (mkSurfParams i (or_default smooth 0%js) center' size)
              /\ (message_vol message = None \/ message_vol message = Some (toJSON t))).
  { destruct (workerPool t); destruct (WorkerPool_getNextWorker _) as [p' k'];
      cbn in Hlast; rewrite ?last_snoc in Hlast; injection Hlast as _ <-; cbn;
      (split; [reflexivity|]); destruct (_ =? _)%N; auto. }
  destruct M as [Hm Hv]. rewrite Hm.
  cbn [message_vol message_params]. unfold surf_worker.
  cbn [params_isolevel params_smooth params_center params_size].
  destruct (match self_vol with Some vol => (vol, []) | None => _ end) as [vol0 made] eqn:E0.
  assert (V : exists vol restored,
            match message_vol message with
            | Some input => fromJSON vol0 input
            | None => (vol0, [])
            end = (vol, restored)
            /\ same_grid vol this /\ mc_valid vol /\ statistics_valid vol).
  { destruct Hv as [Hv | Hv]; rewrite Hv.
    - destruct Hsync as [[? Hs] | (w & -> & Gw & Cw & Sw)]; [congruence|].
      injection E0 as <- _. eauto 10.
    - pose proof (fromJSON_toJSON_preserved vol0 t) as P.
      pose proof (fromJSON_caches vol0 (toJSON t)) as C.
      destruct (fromJSON vol0 (toJSON t)) as [vol restored]. cbn [fst] in P, C.
      destruct P as (D & _ & X & Y & Z & A & Ma & No & In & _).
      destruct C as (Cm & _ & _ & Cme & Crm).
      exists vol, restored. split; [reflexivity|].
      split; [|split].
      + apply (same_grid_trans _ t); [|exact Gt].
        destruct Gt as (_ & X' & Y' & Z' & _).
        rewrite extent_or_1_positive in X, Y, Z by congruence.
        unfold same_grid. auto 10.
      + intros m. rewrite Cm. discriminate.
      + split; intros ?; rewrite ?Cme, ?Crm; discriminate. }
  destruct V as (vol & restored & -> & Gv & Cv & Sv).
  assert (Q : fst (getSurface vol (Some i) (Some (or_default smooth 0%js)) center' size)
              = fst (getSurface this isolevel smooth center' size)).
  { apply getSurface_core; try assumption; [|apply or_default_again].
    rewrite <- Hi. cbn [isNaN ToNumber].
    destruct (num_isNaN i) eqn:Ni; [|reflexivity].
    rewrite (getValueForSigma_value vol _ Sv), (proj1 Gv),
      <- (getValueForSigma_value this _ Hst).
    rewrite Hi. destruct (isNaN isolevel) eqn:Ei; [reflexivity|].
    destruct isolevel as [a|]; [|discriminate]. cbn in Hi, Ei. congruence. }
  destruct (getSurface_keeps vol (Some i) (Some (or_default smooth 0%js)) center' size)
    as (G' & C' & S' & _).
  destruct (getSurface vol (Some i) _ center' size) as [surface vol'].
  cbn [fst snd] in *.
  split; [congruence|]. split; [apply (same_grid_trans _ vol); assumption|].
  split; auto.
Qed.

(** ** The caches *)

Lemma caches_valid_empty (this : Volume num) :
  mc this = None -> __dataMin this = None -> __dataMax this = None ->
  __dataMean this = None -> __dataRms this = None -> caches_valid this.
Proof.
  intros C Mi Ma Me Rm. unfold caches_valid, mc_valid, statistics_valid, range_valid.
  rewrite C, Mi, Ma, Me, Rm. repeat split; intros ? [=].
Qed.

Lemma caches_valid_transfer (u w : Volume num) :
  __data u = __data w -> nx u = nx w -> ny u = ny w -> nz u = nz w ->
  __dataAtomindex u = __dataAtomindex w -> mc u = mc w ->
  __dataMin u = __dataMin w -> __dataMax u = __dataMax w ->
  __dataMean u = __dataMean w -> __dataRms u = __dataRms w ->
  caches_valid w -> caches_valid u.
Proof.
  unfold caches_valid, mc_valid, statistics_valid, range_valid.
  intros -> -> -> -> -> -> -> -> -> ->. auto.
Qed.

Lemma setMatrix_caches_valid (this : Volume num) m :
  caches_valid this -> caches_valid (setMatrix this m).
Proof. apply caches_valid_transfer; reflexivity. Qed.

Lemma getDataMin_caches_valid (this : Volume num) :
  caches_valid this -> caches_valid (snd (getDataMin this)).
Proof.
  intros V. unfold getDataMin. destruct (__dataMin this) eqn:E; [exact V|].
  destruct V as (C & S & R1 & R2). split; [exact C|]. split; [exact S|].
  split; [|exact R2]. cbn. intros ? [= <-]. reflexivity.
Qed.

Lemma getDataMax_caches_valid (this : Volume num) :
  caches_valid this -> caches_valid (snd (getDataMax this)).
Proof.
  intros V. unfold getDataMax. destruct (__dataMax this) eqn:E; [exact V|].
  destruct V as (C & S & R1 & R2). split; [exact C|]. split; [exact S|].
  split; [exact R1|]. cbn. intros ? [= <-]. reflexivity.
Qed.

Lemma getDataMean_caches_valid (this : Volume num) :
  caches_valid this -> caches_valid (snd (getDataMean this)).
Proof.
  intros V. unfold getDataMean. destruct (__dataMean this) eqn:E; [exact V|].
  destruct V as (C & (S1 & S2) & R). split; [exact C|]. split; [|exact R].
  split; [|exact S2]. cbn. intros ? [= <-]. reflexivity.
Qed.

Lemma getDataRms_caches_valid (this : Volume num) :
  caches_valid this -> caches_valid (snd (getDataRms this)).
Proof.
  intros V. unfold getDataRms. destruct (__dataRms this) eqn:E; [exact V|].
  destruct V as (C & (S1 & S2) & R). split; [exact C|]. split; [|exact R].
  split; [exact S1|]. cbn. intros ? [= <-]. reflexivity.
Qed.

Lemma getValueForSigma_caches_valid (this : Volume num) sigma :
  caches_valid this -> caches_valid (snd (getValueForSigma this sigma)).
Proof.
  intros V. unfold getValueForSigma.
  pose proof (getDataMean_caches_valid this V) as V1.
  destruct (getDataMean this) as [m t]. cbn [snd] in V1.
  pose proof (getDataRms_caches_valid t V1) as V2.
  destruct (getDataRms t) as [r t']. exact V2.
Qed.

Lemma getSigmaForValue_caches_valid (this : Volume num) value :
  caches_valid this -> caches_valid (snd (getSigmaForValue this value)).
Proof.
  intros V. unfold getSigmaForValue.
  pose proof (getDataMean_caches_valid this V) as V1.
  destruct (getDataMean this) as [m t]. cbn [snd] in V1.
  pose proof (getDataRms_caches_valid t V1) as V2.
  destruct (getDataRms t) as [r t']. exact V2.
Qed.

Lemma getSurface_caches_valid (this : Volume num) isolevel smooth center' size :
  caches_valid this -> caches_valid (snd (getSurface this isolevel smooth center' size)).
Proof.
  intros (C & S & R).
  destruct (getSurface_keeps this isolevel smooth center' size) as (_ & C' & S' & R' & _).
  split; [|split]; auto.
Qed.

(** X9. [setData], the constructor, [fromJSON] and [clone] leave a
    volume whose caches are valid: they hold no triangulation instance and
    no statistics. *)
Theorem caches_start_valid (this : Volume num) :
  (forall data' nx' ny' nz' dataAtomindex',
     caches_valid (fst (setData this data' nx' ny' nz' dataAtomindex')))
  /\ (forall name' path' data' nx' ny' nz' dataAtomindex',
     caches_valid (fst (Volume_new name' path' data' nx' ny' nz' dataAtomindex')))
  /\ (forall input, caches_valid (fst (fromJSON this input)))
  /\ caches_valid (fst (clone this)).
Proof.
  assert (S : forall (t : Volume num) data' nx' ny' nz' dataAtomindex',
            caches_valid (fst (setData t data' nx' ny' nz' dataAtomindex'))).
  { intros. destruct (setData_caches t data' nx' ny' nz' dataAtomindex')
      as (C & _ & _ & _ & _ & _ & Mi & Ma & Me & Rm).
    apply caches_valid_empty; assumption. }
  assert (N : forall name' path' data' nx' ny' nz' dataAtomindex',
     caches_valid (fst (Volume_new (num:=num) name' path' data' nx' ny' nz' dataAtomindex'))).
  { intros. unfold Volume_new.
    pose proof (S (Volume_this name' path') data' nx' ny' nz' dataAtomindex') as V.
    destruct (setData _ _ _ _ _ _) as [t ev]. destruct (small_enough t); exact V. }
  split; [apply S|]. split; [apply N|]. split.
  - intros input. destruct (fromJSON_caches this input) as (C & Mi & Ma & Me & Rm).
    apply caches_valid_empty; assumption.
  - unfold clone.
    pose proof (N (name this) (path this) (Some (__data this)) (Some (nx this))
                  (Some (ny this)) (Some (nz this)) (__dataAtomindex this)) as V.
    destruct (Volume_new _ _ _ _ _ _ _) as [vol ev]. cbn [fst] in *.
    destruct (header this); (eapply caches_valid_transfer; [..|exact V]); reflexivity.
Qed.

(** X10. On a volume whose triangulation instance and cached statistics
    are those of its samples, extents and labels, they still are after
    [setMatrix], [getSurface], [getSurfaceWorker], a filter that returns,
    [makeDataPosition], the four statistics, [getValueForSigma],
    [getSigmaForValue] and [getDataSize].  [setDataAtomindex] is the
    exception: it keeps the statistics valid, but it changes the labels and
    leaves the triangulation instance in place, so the instance stays valid
    only when there is none. *)
Theorem caches_stay_valid (this : Volume num) :
  caches_valid this ->
  (forall m, caches_valid (setMatrix this m))
  /\ (forall isolevel smooth center' size,
       caches_valid (snd (getSurface this isolevel smooth center' size)))
  /\ (forall isolevel smooth center' size,
       caches_valid (snd (fst (getSurfaceWorker this isolevel smooth center' size))))
  /\ (forall minValue maxValue outside this' branch,
       filterData this minValue maxValue outside = Ok (this', branch) ->
       caches_valid this')
  /\ caches_valid (snd (getDataMin this)) /\ caches_valid (snd (getDataMax this))
  /\ caches_valid (snd (getDataMean this)) /\ caches_valid (snd (getDataRms this))
  /\ (forall sigma, caches_valid (snd (getValueForSigma this sigma)))
  /\ (forall value, caches_valid (snd (getSigmaForValue this value)))
  /\ (forall size scale array this',
       getDataSize this size scale = Ok (array, this') -> caches_valid this')
  /\ caches_valid (makeDataPosition this)
  /\ (forall dataAtomindex',
       let this' := setDataAtomindex this dataAtomindex' in
       statistics_valid this' /\ range_valid this'
       /\ mc this' = mc this /\ __dataAtomindex this' = dataAtomindex'
       /\ (mc this = None -> caches_valid this')).
Proof.
  intros V.
  split; [intros; apply setMatrix_caches_valid, V|].
  split; [intros; apply getSurface_caches_valid, V|].
  split.
  { intros. unfold getSurfaceWorker.
    assert (W : caches_valid (snd (if isNaN isolevel then getValueForSigma this (Some 2%js)
                                   else (ToNumber isolevel, this)))).
    { destruct (isNaN isolevel); [apply getValueForSigma_caches_valid, V | exact V]. }
    destruct (if isNaN isolevel then _ else _) as [i t]. cbn [snd] in W.
    destruct (Worker_defined && negb importScripts_is_function).
    - destruct (workerPool t); destruct (WorkerPool_getNextWorker _); cbn [fst snd];
        (eapply caches_valid_transfer; [..|exact W]); reflexivity.
    - pose proof (getSurface_caches_valid t (Some i) (Some (or_default smooth 0%js))
                    center' size W) as W'.
      destruct (getSurface t _ _ _ _). exact W'. }
  split.
  { intros minValue maxValue outside this' branch E.
    destruct (filterData_untouched _ _ _ _ _ _ E)
      as ((D & X & Y & Z & A & _ & _ & _ & _ & _ & C & _) & Mi & Ma & Me & Rm & _).
    eapply caches_valid_transfer; [..|exact V]; assumption. }
  split; [apply getDataMin_caches_valid, V|].
  split; [apply getDataMax_caches_valid, V|].
  split; [apply getDataMean_caches_valid, V|].
  split; [apply getDataRms_caches_valid, V|].
  split; [intros; apply getValueForSigma_caches_valid, V|].
  split; [intros; apply getSigmaForValue_caches_valid, V|].
  split.
  { intros size scale array this'. unfold getDataSize.
    destruct (dataPosition this); [|discriminate].
    pose proof (getDataMin_caches_valid this V) as V1.
    destruct size; try destruct (getDataMin this) as [mi t]; intros [= _ <-]; assumption. }
  split; [eapply caches_valid_transfer; [..|exact V]; reflexivity|].
  intros a. cbn zeta. destruct V as (C & S & R).
  split; [exact S|]. split; [exact R|]. split; [reflexivity|]. split; [reflexivity|].
  intros H. split; [|split; [exact S | exact R]].
  intros m. change (mc (setDataAtomindex this a)) with (mc this). rewrite H. discriminate.
Qed.

(** X21. [setDataAtomindex] does not discard the triangulation instance:
    once a surface has been computed, new labels change [dataAtomindex]
    but not the instance, and the surfaces computed afterwards are those
    of the volume with the old labels. *)
Theorem setDataAtomindex_keeps_instance (this : Volume num) dataAtomindex' m
    isolevel smooth center' size :
  mc this = Some m ->
  let this' := setDataAtomindex this dataAtomindex' in
  dataAtomindex this' = dataAtomindex' /\ __dataAtomindex this' = dataAtomindex'
  /\ mc this' = Some m
  /\ fst (getSurface this' isolevel smooth center' size)
     = fst (getSurface this isolevel smooth center' size).
Proof.
  intros H. cbn zeta. split; [reflexivity|]. split; [reflexivity|]. split; [exact H|].
  destruct this. cbn in H. subst.
  unfold getSurface, getValueForSigma, getDataMean, getDataRms, setDataAtomindex. cbn.
  destruct (isNaN isolevel); cbn;
    repeat match goal with
      | |- context [match ?c with Some _ => _ | None => _ end] => destruct c; cbn
      end;
    try destruct (truthy _); reflexivity.
Qed.

End Volume_rest_proofs.

(** ** An empty sample array, on binary64 numbers *)

Lemma float_NaN_add (a : float) : num_isNaN (PrimFloat.nan + a)%float = true.
Proof.
  unfold num_isNaN. cbn. rewrite FloatAxioms.eqb_spec, FloatAxioms.add_spec.
  change (Prim2SF PrimFloat.nan) with S754_nan.
  destruct (Prim2SF a); reflexivity.
Qed.

(** X7. With an empty sample array ([setData( new Float32Array( 0 ) )])
    the minimum is [Infinity], the maximum is [-Infinity], the mean and
    the root mean square are NaN, [getValueForSigma] is NaN for every
    [sigma], and a surface asked for without an isolevel records NaN as its
    isolevel. *)
Theorem empty_samples_statistics (this : Volume float) nx' ny' nz' dataAtomindex' :
  let empty := fst (setData this (Some []) nx' ny' nz' dataAtomindex') in
  fst (getDataMin empty) = Infinity
  /\ fst (getDataMax empty) = (- Infinity)%js
  /\ isNaN (Some (fst (getDataMean empty))) = true
  /\ isNaN (Some (fst (getDataRms empty))) = true
  /\ (forall sigma, isNaN (Some (fst (getValueForSigma empty sigma))) = true)
  /\ forall (EXT : Externals float) isolevel smooth center' size,
       isNaN isolevel = true ->
       isNaN (Some (info_isolevel (fst (getSurface empty isolevel smooth center' size))))
       = true.
Proof.
  cbn zeta.
  generalize (setData_fst this (Some []) nx' ny' nz' dataAtomindex'),
    (setData_caches this (Some []) nx' ny' nz' dataAtomindex').
  cbn zeta. generalize (fst (setData this (Some []) nx' ny' nz' dataAtomindex')).
  intros empty (_ & _ & _ & D & _) (_ & _ & _ & _ & _ & _ & Mi & Ma & Me & Rm).
  cbn [default from_option] in D.
  assert (V : isNaN (Some (fst (getValueForSigma empty (Some 2%js)))) = true).
  { unfold getValueForSigma, getDataMean, getDataRms. rewrite Me, D. cbn. rewrite Rm, D.
    reflexivity. }
  unfold getDataMin, getDataMax, getDataMean, getDataRms.
  rewrite Mi, Ma, Me, Rm, D.
  split; [reflexivity|]. split; [reflexivity|]. split; [reflexivity|].
  split; [reflexivity|]. split.
  - intros sigma. unfold getValueForSigma, getDataMean, getDataRms.
    rewrite Me, D. cbn. rewrite Rm, D. cbn. apply float_NaN_add.
  - intros EXT isolevel smooth center' size Hi.
    rewrite getSurface_isolevel, Hi. exact V.
Qed.

(** ** Instances

    The statements above at the 2x2x2 volume of the samples 1 to 8. *)

Lemma volume_2x2x2_extents :
  nx volume_2x2x2 <> 0%N /\ ny volume_2x2x2 <> 0%N /\ nz volume_2x2x2 <> 0%N.
Proof. repeat split; intros H; vm_compute in H; discriminate H. Qed.

Lemma volume_2x2x2_caches_valid : caches_valid volume_2x2x2.
Proof. apply caches_valid_empty; reflexivity. Qed.

Lemma volume_2x2x2_scanned :
  filterData volume_2x2x2 (Some 3%float) (Some 6%float) None = Ok (volume_scanned, scanned).
Proof. vm_compute. reflexivity. Qed.

(** A round trip into a new volume. *)
Lemma fromJSON_toJSON_round_trip_2x2x2 :
  let back :=
    fst (fromJSON (fst (Volume_new None None None None None None None))
           (toJSON volume_2x2x2)) in
  __data back = __data volume_2x2x2 /\ nx back = 2%N /\ matrix back = matrix volume_2x2x2.
Proof.
  destruct volume_2x2x2_extents as (X & Y & Z).
  destruct (fromJSON_toJSON_round_trip
              (fst (Volume_new None None None None None None None)) volume_2x2x2 X Y Z)
    as (_ & _ & D & _ & Nx & _ & _ & _ & _ & M & _).
  split; [exact D|]. split; [exact Nx | exact M].
Defined.

(** The first request goes to a new worker and carries the volume. *)
Lemma worker_reply_is_getSurface_2x2x2 :
  exists k message,
    last (snd (getSurfaceWorker (EXT:=example_externals) volume_2x2x2 None None None None))
    = Some (Worker_post k message)
    /\ fst (fst (surf_worker (EXT:=example_externals) false None (message_vol message)
                   (Some (message_params message))))
       = Some (fst (getSurface (EXT:=example_externals) volume_2x2x2 None None None None)).
Proof.
  destruct volume_2x2x2_extents as (X & Y & Z).
  destruct volume_2x2x2_caches_valid as (C & S & _).
  assert (E : exists k message,
            last (snd (getSurfaceWorker (EXT:=example_externals) volume_2x2x2
                         None None None None))
            = Some (Worker_post k message)
            /\ is_Some (message_vol message)).
  { vm_compute. do 2 eexists. split; [reflexivity|]. eexists. reflexivity. }
  destruct E as (k & message & E & V). exists k, message. split; [exact E|].
  exact (proj1 (worker_reply_is_getSurface (EXT:=example_externals) volume_2x2x2
                  None None None None false None k message X Y Z C S E (or_introl V))).
Defined.

(** A request where there are no workers. *)
Lemma getSurfaceWorker_without_workers_2x2x2 :
  snd (getSurfaceWorker (EXT:=example_externals_without_workers) volume_2x2x2
         None None None None) = []
  /\ fst (fst (getSurfaceWorker (EXT:=example_externals_without_workers) volume_2x2x2
                 None None None None))
     = Some (fst (getSurface (EXT:=example_externals_without_workers) volume_2x2x2
                    None None None None)).
Proof.
  assert (W : @Worker_defined float example_externals_without_workers
              && negb (@importScripts_is_function float example_externals_without_workers)
              = false) by reflexivity.
  rewrite (getSurfaceWorker_without_workers (EXT:=example_externals_without_workers)
             volume_2x2x2 None None None None W).
  split; reflexivity.
Defined.

(** [filterData( 3, 6 )]: the statistics are still those of the eight
    samples. *)
Lemma filterData_frame_2x2x2 :
  __data volume_scanned = __data volume_2x2x2
  /\ fst (getDataMin volume_scanned) = fst (getDataMin volume_2x2x2)
  /\ fst (getDataMean volume_scanned) = fst (getDataMean volume_2x2x2).
Proof.
  destruct (filterData_frame _ _ _ _ _ _ volume_2x2x2_scanned)
    as ((D & _) & Mi & _ & Me & _).
  split; [exact D|]. split; [exact Mi | exact Me].
Defined.

(** A valid volume under a new matrix. *)
Lemma caches_stay_valid_2x2x2 :
  caches_valid volume_2x2x2 /\ caches_valid (setMatrix volume_2x2x2 scale_translate_float).
Proof.
  split; [exact volume_2x2x2_caches_valid|].
  exact (proj1 (caches_stay_valid (EXT:=example_externals) (BLT:=float_Builtins)
                  volume_2x2x2 volume_2x2x2_caches_valid) scale_translate_float).
Defined.

(** New labels after a first surface. *)
Lemma setDataAtomindex_keeps_instance_2x2x2 :
  let this := snd (getSurface (EXT:=example_externals) volume_2x2x2 None None None None) in
  let this' := setDataAtomindex this (Some [0; 0; 0; 0; 1; 1; 1; 1]%Z) in
  dataAtomindex this' = Some [0; 0; 0; 0; 1; 1; 1; 1]%Z
  /\ mc this' = mc this
  /\ fst (getSurface (EXT:=example_externals) this' None None None None)
     = fst (getSurface (EXT:=example_externals) this None None None None)
  /\ ~ mc_valid this'.
Proof.
  cbn zeta.
  assert (E : exists m,
            mc (snd (getSurface (EXT:=example_externals) volume_2x2x2 None None None None))
            = Some m) by (vm_compute; eexists; reflexivity).
  destruct E as (m & E).
  destruct (setDataAtomindex_keeps_instance (EXT:=example_externals)
              (snd (getSurface (EXT:=example_externals) volume_2x2x2 None None None None))
              (Some [0; 0; 0; 0; 1; 1; 1; 1]%Z) m None None None None E) as (D & _ & M & G).
  split; [exact D|]. split; [rewrite E; exact M|]. split; [exact G|].
  intros V. specialize (V m M). subst m. vm_compute in E. discriminate E.
Defined.

(** [filterData()] on a new volume. *)
Lemma filterData_unfiltered_2x2x2 :
  exists this',
    filterData volume_2x2x2 None None None = Ok (this', unfiltered)
    /\ data this' = __data volume_2x2x2.
Proof.
  destruct (filterData_unfiltered volume_2x2x2 None None None)
    as (this' & E & D & _); [reflexivity | reflexivity | reflexivity |].
  exists this'. split; [exact E | exact D].
Defined.

(** [filterData( 3, 6 )] on a new volume: four samples, twelve
    coordinates. *)
Lemma filterData_keeps_views_aligned_2x2x2 :
  exists p,
    dataPosition volume_scanned = Some p
    /\ length p = length (data volume_scanned) * 3.
Proof.
  assert (G : grid_matches volume_2x2x2)
    by (split; [reflexivity | intros p H; vm_compute in H; discriminate H]).
  assert (P : positions_ready volume_2x2x2) by (left; reflexivity).
  assert (B : buffers_fit volume_2x2x2) by (vm_compute; exact I).
  assert (V : views_aligned volume_2x2x2) by reflexivity.
  exact (proj1 (filterData_keeps_views_aligned volume_2x2x2 volume_scanned
                  (Some 3%float) (Some 6%float) None scanned
                  P B G V volume_2x2x2_scanned)).
Defined.

(** The absolute values of the eight samples, doubled. *)
Lemma getDataSize_aligned_2x2x2 :
  exists this',
    getDataSize (BLT:=float_Builtins) volume_filtered size_abs_value (Some 2%float)
    = Ok ([2; 4; 6; 8; 10; 12; 14; 16]%float, this').
Proof.
  assert (P : exists p, dataPosition volume_filtered = Some p
                        /\ length p = length (data volume_filtered) * 3)
    by (vm_compute; eexists; split; reflexivity).
  destruct P as (p & Hp & Hl).
  destruct (getDataSize_aligned (BLT:=float_Builtins) volume_filtered size_abs_value
              (Some 2%float) p Hp Hl)
    as (this' & E & _); [intros s H; discriminate H|].
  exists this'. exact E.
Defined.

(** A clone of the volume under a scaling with translation. *)
Lemma clone_copies_2x2x2 :
  matrix (fst (clone (setMatrix volume_2x2x2 scale_translate_float)))
  = scale_translate_float
  /\ normalMatrix (fst (clone (setMatrix volume_2x2x2 scale_translate_float)))
     = THREE.Matrix3_new.
Proof.
  assert (X : nx (setMatrix volume_2x2x2 scale_translate_float) <> 0%N)
    by (intros H; vm_compute in H; discriminate H).
  assert (Y : ny (setMatrix volume_2x2x2 scale_translate_float) <> 0%N)
    by (intros H; vm_compute in H; discriminate H).
  assert (Z : nz (setMatrix volume_2x2x2 scale_translate_float) <> 0%N)
    by (intros H; vm_compute in H; discriminate H).
  pose proof (clone_copies (setMatrix volume_2x2x2 scale_translate_float) X Y Z) as H.
  destruct (clone (setMatrix volume_2x2x2 scale_translate_float)) as [vol events].
  destruct H as ((_ & _ & _ & _ & _ & _ & _ & _ & _ & M & _) & (N & _) & _).
  cbn [fst]. split; [rewrite M; vm_compute; reflexivity | exact N].
Defined.

(** Two surfaces, the second at another isolevel. *)
Lemma getSurface_repeatable_2x2x2 :
  fst (getSurface (EXT:=example_externals)
         (snd (getSurface (EXT:=example_externals) volume_2x2x2 None None None None))
         (Some 4%float) None None None)
  = fst (getSurface (EXT:=example_externals) volume_2x2x2 (Some 4%float) None None None)
  /\ caches_valid volume_2x2x2.
Proof.
  destruct volume_2x2x2_caches_valid as (C & S & R).
  split; [|exact volume_2x2x2_caches_valid].
  exact (getSurface_repeatable (EXT:=example_externals) volume_2x2x2 None None None None
           (Some 4%float) None None None C S).
Defined.

(** A surface after [filterData( 3, 6 )]. *)
Lemma getSurface_ignores_filterData_2x2x2 :
  fst (getSurface (EXT:=example_externals) volume_scanned None None None None)
  = fst (getSurface (EXT:=example_externals) volume_2x2x2 None None None None)
  /\ caches_valid volume_2x2x2.
Proof.
  destruct volume_2x2x2_caches_valid as (C & S & R).
  split; [|exact volume_2x2x2_caches_valid].
  exact (getSurface_ignores_filterData (EXT:=example_externals) volume_2x2x2 volume_scanned
           (Some 3%float) (Some 6%float) None scanned None None None None
           C S volume_2x2x2_scanned).
Defined.

(** Three new samples, then [filterData( 4, 10 )]. *)
Lemma filterData_recomputes_after_setData_2x2x2 :
  exists this' branch,
    filterData (fst (setData volume_2x2x2 (Some [3; 4; 5]%float) (Some 3%N) None None None))
      (Some 4%float) (Some 10%float) None
    = Ok (this', branch)
    /\ branch <> already_filtered.
Proof.
  assert (E : exists this' branch,
            filterData
              (fst (setData volume_2x2x2 (Some [3; 4; 5]%float) (Some 3%N) None None None))
              (Some 4%float) (Some 10%float) None
            = Ok (this', branch))
    by (vm_compute; do 2 eexists; reflexivity).
  destruct E as (this' & branch & E). exists this', branch. split; [exact E|].
  exact (filterData_recomputes_after_setData volume_2x2x2 this' _ _ _ _ _ _ _ _ branch E).
Defined.

(** [filterData()], a new matrix, then [filterData( 3, 6 )]. *)
Lemma positions_survive_setMatrix_2x2x2 :
  exists this' branch,
    filterData (setMatrix volume_filtered scale_translate_float)
      (Some 3%float) (Some 6%float) None
    = Ok (this', branch)
    /\ __dataPosition this' = __dataPosition volume_filtered.
Proof.
  assert (E : exists this' branch,
            filterData (setMatrix volume_filtered scale_translate_float)
              (Some 3%float) (Some 6%float) None
            = Ok (this', branch))
    by (vm_compute; do 2 eexists; reflexivity).
  destruct E as (this' & branch & E). exists this', branch. split; [exact E|].
  assert (P : is_Some (dataPosition volume_filtered)) by (vm_compute; eexists; reflexivity).
  exact (proj1 (positions_survive_setMatrix volume_filtered this' scale_translate_float
                  _ _ _ branch P E)).
Defined.
